(** * FullRightTouch: job dispatch and single-winner assignment

    A shallow embedding of the technician broadcast controller
    (Controllers/technicianBroadcastController.js and its earlier revision,
    the unnamed source part_000) and of the online/offline handling of
    Controllers/technician.js, together with the properties the design
    document states about them.

    Conventions.
    - A MongoDB collection whose documents are addressed by a unique key
      ([_id], or the unique [technicianId] of TechnicianKyc) is a [gmap];
      the JobBroadcast collection is a [list] in natural order, because
      several rows may carry the same (bookingId, technicianId) pair.
    - A mongoose session is a pending copy of the database: reads and writes
      that carry the session see and change the copy, [commitTransaction]
      installs it, [abortTransaction] drops it. A commit that fails leaves
      the session outside the transaction, and [abortTransaction] throws
      when no transaction is in progress.
    - Every awaited store call of a handler is a numbered site; a fault plan
      [faults : nat -> bool] says which sites throw. *)

From stdpp Require Import gmap list strings.
From Stdlib Require Import QArith Qcanon.

Set Default Proof Using "Type".
Open Scope Z_scope.
Open Scope list_scope.
Open Scope stdpp_scope.

(** ** Data model *)

Abbreviation ObjectId := positive.
Abbreviation Date := Z.

(** Lifecycle status of a ServiceBooking. *)
Module Booking.
Inductive status :=
  | requested | broadcasted | accepted | on_the_way
  | reached | in_progress | completed | cancelled.
End Booking.

(** Delivery state of a JobBroadcast row. *)
Module Broadcast.
Inductive status := sent | accepted | expired.
End Broadcast.

(** TECHNICIAN_STATUSES = ["pending","trained","approved","suspended","deleted"] *)
Module Work.
Inductive status := pending | trained | approved | suspended | deleted.
End Work.

(** TechnicianKyc.verificationStatus: enum ["pending","approved","rejected"] *)
Module Kyc.
Inductive status := pending | approved | rejected.
End Kyc.

#[global] Instance booking_status_eq_dec : EqDecision Booking.status.
Proof. solve_decision. Defined.
#[global] Instance broadcast_status_eq_dec : EqDecision Broadcast.status.
Proof. solve_decision. Defined.
#[global] Instance work_status_eq_dec : EqDecision Work.status.
Proof. solve_decision. Defined.
#[global] Instance kyc_status_eq_dec : EqDecision Kyc.status.
Proof. solve_decision. Defined.

(** A JavaScript number; the finite ones are taken as exact rationals. *)
Inductive number := Num (q : Qc) | NaN | PosInfinity | NegInfinity.

(** Number.isFinite *)
Definition isFinite (n : number) : bool :=
  match n with Num _ => true | _ => false end.

(** A stored GeoJSON value: { type, coordinates }. *)
Record GeoJSON := { geo_type : string; coordinates : list number }.

(** technicianSnapshot of a booking: { name, mobile, deleted }. *)
Record TechnicianSnapshot := {
  snap_name : string;
  snap_mobile : string;
  snap_deleted : bool;
}.

Record ServiceBooking := {
  sb_status : Booking.status;
  sb_technicianId : option ObjectId;
  sb_assignedAt : option Date;
  sb_customerId : option ObjectId;
  sb_location : option GeoJSON;
  sb_technicianSnapshot : option TechnicianSnapshot;
}.

Record JobBroadcast := {
  bookingId : ObjectId;
  technicianId : ObjectId;
  status : Broadcast.status;
}.

Record TechnicianProfile := {
  userId : ObjectId;            (* the User document of the technician *)
  trainingCompleted : bool;
  workStatus : Work.status;
  isOnline : bool;              (* availability.isOnline *)
  location : option GeoJSON;
}.

Record TechnicianKyc := {
  verificationStatus : Kyc.status;
  bankVerified : bool;
}.

(** Schemas/User.js, the fields the handlers read or write. *)
Record User := {
  usr_fname : option string;
  usr_lname : option string;
  usr_email : option string;
  usr_gender : option string;
  usr_mobileNumber : string;
  usr_status : string;            (* "Active", "Inactive", "Blocked", "Deleted" *)
  usr_profileComplete : bool;
  usr_password : option string;
  usr_lastLoginAt : option Date;
}.

#[global] Instance number_eq_dec : EqDecision number.
Proof. solve_decision. Defined.
#[global] Instance GeoJSON_eq_dec : EqDecision GeoJSON.
Proof. solve_decision. Defined.
#[global] Instance TechnicianSnapshot_eq_dec : EqDecision TechnicianSnapshot.
Proof. solve_decision. Defined.
#[global] Instance ServiceBooking_eq_dec : EqDecision ServiceBooking.
Proof. solve_decision. Defined.
#[global] Instance JobBroadcast_eq_dec : EqDecision JobBroadcast.
Proof. solve_decision. Defined.
#[global] Instance TechnicianProfile_eq_dec : EqDecision TechnicianProfile.
Proof. solve_decision. Defined.

(** ** The store, sessions and awaited calls *)

Record Db := {
  serviceBookings : gmap positive ServiceBooking;      (* by _id *)
  jobBroadcasts : list JobBroadcast;                   (* natural order *)
  technicianProfiles : gmap positive TechnicianProfile; (* by _id *)
  technicianKycs : gmap positive TechnicianKyc;        (* by technicianId (unique) *)
  users : gmap positive User;                          (* by _id *)
}.

(** What a handler pushes through req.io after it has committed. *)
Inductive Notification :=
| CustomerJobAccepted (customer booking technician : ObjectId)
| JobTaken (technicians : list ObjectId) (booking : ObjectId).

Record World := {
  store : Db;                 (* the committed database *)
  txn : option Db;            (* the pending copy of an open transaction *)
  emitted : list Notification;
}.

Definition set_bookings (f : gmap positive ServiceBooking → gmap positive ServiceBooking)
    (d : Db) : Db :=
  {| serviceBookings := f (serviceBookings d); jobBroadcasts := jobBroadcasts d;
     technicianProfiles := technicianProfiles d; technicianKycs := technicianKycs d;
     users := users d |}.

Definition set_broadcasts (f : list JobBroadcast → list JobBroadcast) (d : Db) : Db :=
  {| serviceBookings := serviceBookings d; jobBroadcasts := f (jobBroadcasts d);
     technicianProfiles := technicianProfiles d; technicianKycs := technicianKycs d;
     users := users d |}.

Definition set_profiles (f : gmap positive TechnicianProfile → gmap positive TechnicianProfile)
    (d : Db) : Db :=
  {| serviceBookings := serviceBookings d; jobBroadcasts := jobBroadcasts d;
     technicianProfiles := f (technicianProfiles d); technicianKycs := technicianKycs d;
     users := users d |}.

Definition set_kycs (f : gmap positive TechnicianKyc → gmap positive TechnicianKyc)
    (d : Db) : Db :=
  {| serviceBookings := serviceBookings d; jobBroadcasts := jobBroadcasts d;
     technicianProfiles := technicianProfiles d; technicianKycs := f (technicianKycs d);
     users := users d |}.

Definition set_users (f : gmap positive User → gmap positive User) (d : Db) : Db :=
  {| serviceBookings := serviceBookings d; jobBroadcasts := jobBroadcasts d;
     technicianProfiles := technicianProfiles d; technicianKycs := technicianKycs d;
     users := f (users d) |}.

Inductive outcome (A : Type) :=
| Returned (a : A)
| Thrown (message : string).
Arguments Returned {A} a.
Arguments Thrown {A} message.

(** What was returned, if anything was. *)
Definition sentBy {A} (o : outcome A) : option A :=
  match o with Returned a => Some a | Thrown _ => None end.

(** An awaited computation: it runs against the world and either returns or
    throws. *)
Definition Async (A : Type) : Type := World → outcome A * World.

#[global] Instance Async_ret : MRet Async := λ A a w, (Returned a, w).
#[global] Instance Async_bind : MBind Async := λ A B f m w,
  match m w with
  | (Returned a, w') => f a w'
  | (Thrown e, w') => (Thrown e, w')
  end.

Definition throw {A} (message : string) : Async A := λ w, (Thrown message, w).

(** The database a call sees: the pending copy when the call carries the
    session of an open transaction, the committed store otherwise. *)
Definition visible (session : bool) (w : World) : Db :=
  if session then default (store w) (txn w) else store w.

Definition change (session : bool) (f : Db → Db) (w : World) : World :=
  match session, txn w with
  | true, Some d => {| store := store w; txn := Some (f d); emitted := emitted w |}
  | _, _ => {| store := f (store w); txn := txn w; emitted := emitted w |}
  end.

Section Handlers.
  (** The fault plan of one request: [faults k] makes the k-th awaited store
      call of the handler throw. *)
Variable faults : nat → bool.

Definition storeUnavailable : string := "store unavailable".

  (** An awaited read at call site [site]. *)
Definition query {A} (site : nat) (session : bool) (q : Db → A) : Async A := λ w,
    if faults site then (Thrown storeUnavailable, w)
    else (Returned (q (visible session w)), w).

  (** An awaited write at call site [site]; [u] gives the answer and the new
      database. A write that throws changes nothing. *)
Definition update {A} (site : nat) (session : bool) (u : Db → A * Db) : Async A := λ w,
    if faults site then (Thrown storeUnavailable, w)
    else let '(a, _) := u (visible session w) in
         (Returned a, change session (λ d, snd (u d)) w).

  (** session.startTransaction() *)
Definition startTransaction (w : World) : World :=
    {| store := store w; txn := Some (store w); emitted := emitted w |}.

Definition noTransaction : string := "Cannot call abortTransaction".

  (** session.abortTransaction(): the pending copy is dropped. The driver
      throws a MongoTransactionError when no transaction is in progress (none
      started, already aborted, or commitTransaction already called). *)
Definition abortTransaction : Async unit := λ w,
    match txn w with
    | Some _ => (Returned (), {| store := store w; txn := None; emitted := emitted w |})
    | None => (Thrown noTransaction, w)
    end.

  (** session.commitTransaction(), an awaited store call itself. Whether it
      succeeds or throws, the session has left the transaction afterwards: a
      commit that throws installs nothing. *)
Definition commitTransaction (site : nat) : Async unit := λ w,
    if faults site then
      (Thrown storeUnavailable, {| store := store w; txn := None; emitted := emitted w |})
    else (Returned (),
          {| store := default (store w) (txn w); txn := None; emitted := emitted w |}).

  (** session.inTransaction() *)
Definition inTransaction (w : World) : bool :=
    match txn w with Some _ => true | None => false end.

  (** session.endSession(): a transaction still open is dropped. *)
Definition endSession (w : World) : World :=
    {| store := store w; txn := None; emitted := emitted w |}.

Definition notify (n : Notification) : Async unit := λ w,
    (Returned (), {| store := store w; txn := txn w; emitted := emitted w ++ [n] |}).
End Handlers.

(** ** Queries of the two controllers *)

(** status: { $in: ["accepted", "on_the_way", "reached", "in_progress"] } *)
Definition activeStatus (s : Booking.status) : bool :=
  match s with
  | Booking.accepted | Booking.on_the_way | Booking.reached | Booking.in_progress => true
  | _ => false
  end.

(** ServiceBooking.findOne({ technicianId, status: {$in: active} }): only
    whether a document was found is used. *)
Definition hasActiveJob (technicianProfileId : ObjectId) (d : Db) : bool :=
  bool_decide (map_Exists (λ _ b,
      sb_technicianId b = Some technicianProfileId ∧ activeStatus (sb_status b) = true)
    (serviceBookings d)).

(** The filter { bookingId: id, technicianId, status: "sent" }. *)
Definition sentTo (id technicianProfileId : ObjectId) (r : JobBroadcast) : bool :=
  bool_decide (bookingId r = id) && bool_decide (technicianId r = technicianProfileId)
  && bool_decide (status r = Broadcast.sent).

(** The filter { bookingId: id, technicianId }. *)
Definition rowOf (id technicianProfileId : ObjectId) (r : JobBroadcast) : bool :=
  bool_decide (bookingId r = id) && bool_decide (technicianId r = technicianProfileId).

(** The filter { bookingId: id, technicianId: { $ne: technicianProfileId } }. *)
Definition rowOfOther (id technicianProfileId : ObjectId) (r : JobBroadcast) : bool :=
  bool_decide (bookingId r = id) && negb (bool_decide (technicianId r = technicianProfileId)).

Definition setStatus (s : Broadcast.status) (r : JobBroadcast) : JobBroadcast :=
  {| bookingId := bookingId r; technicianId := technicianId r; status := s |}.

(** Model.updateOne(filter, update): the first matching document in natural
    order is updated. *)
Fixpoint updateOne (filter : JobBroadcast → bool) (upd : JobBroadcast → JobBroadcast)
    (l : list JobBroadcast) : list JobBroadcast :=
  match l with
  | [] => []
  | r :: l' => if filter r then upd r :: l' else r :: updateOne filter upd l'
  end.

(** Model.updateMany(filter, update) *)
Definition updateMany (filter : JobBroadcast → bool) (upd : JobBroadcast → JobBroadcast)
    (l : list JobBroadcast) : list JobBroadcast :=
  map (λ r, if filter r then upd r else r) l.

(** The filter of the conditional update:
    { status: { $in: ["requested", "broadcasted"] }, technicianId: null }. *)
Definition stillOpen (b : ServiceBooking) : bool :=
  match sb_status b, sb_technicianId b with
  | (Booking.requested | Booking.broadcasted), None => true
  | _, _ => false
  end.

(** The update document
    { technicianId: technicianProfileId, status: "accepted", assignedAt: new Date() }. *)
Definition assign (technicianProfileId : ObjectId) (now : Date) (b : ServiceBooking)
    : ServiceBooking :=
  {| sb_status := Booking.accepted; sb_technicianId := Some technicianProfileId;
     sb_assignedAt := Some now; sb_customerId := sb_customerId b;
     sb_location := sb_location b; sb_technicianSnapshot := sb_technicianSnapshot b |}.

(** ServiceBooking.findOneAndUpdate({ _id: id, ...filter }, update, { new: true }):
    one indivisible step of the store; it answers the updated document, or
    null when no document matches. *)
Definition findOneAndUpdate (id : ObjectId) (filter : ServiceBooking → bool)
    (upd : ServiceBooking → ServiceBooking) (d : Db) : option ServiceBooking * Db :=
  match serviceBookings d !! id with
  | Some b =>
      if filter b then (Some (upd b), set_bookings (insert id (upd b)) d)
      else (None, d)
  | None => (None, d)
  end.

(** res.status(code).json({ success, message, result }) *)
Record Response (R : Type) := {
  code : nat;
  success : bool;
  message : string;
  result : option R;
}.
Arguments code {R} _.
Arguments success {R} _.
Arguments message {R} _.
Arguments result {R} _.

Definition json {R} (code : nat) (success : bool) (message : string)
    (result : option R) : Response R :=
  {| code := code; success := success; message := message; result := result |}.

(** A value of a request body or query string. *)
Inductive JsValue :=
| JUndefined | JNull | JBool (b : bool) | JNum (n : number) | JStr (s : string).

#[global] Instance JsValue_eq_dec : EqDecision JsValue.
Proof. solve_decision. Defined.

(** Boolean(v), the truthiness of [v] *)
Definition truthy (v : JsValue) : bool :=
  match v with
  | JUndefined | JNull => false
  | JBool b => b
  | JNum (Num q) => negb (bool_decide (q = 0%Qc))
  | JNum NaN => false
  | JNum _ => true
  | JStr s => negb (bool_decide (s = EmptyString))
  end.

(** String.prototype.toLowerCase on the ASCII letters, for the comparison of
    the controller with "accepted" and "accept". Outside ASCII the only
    characters that lower-case to an ASCII letter are U+212A (to k) and
    U+0130 (to i and a combining dot), and neither word holds a k or an i, so
    for that comparison the restriction to ASCII changes nothing. *)
Definition lowerAscii (c : Ascii.ascii) : Ascii.ascii :=
  let n := Ascii.nat_of_ascii c in
  if Nat.leb 65 n && Nat.leb n 90 then Ascii.ascii_of_nat (n + 32) else c.

Fixpoint toLowerCase (s : string) : string :=
  match s with
  | EmptyString => EmptyString
  | String c s' => String (lowerAscii c) (toLowerCase s')
  end.

(** [a || b] on optional strings: undefined and the empty string are falsy. *)
Definition orElse (a b : option string) : option string :=
  match a with
  | Some s => if bool_decide (s = EmptyString) then b else a
  | None => b
  end.

Record RespondRequest := {
  params_id : ObjectId;                          (* req.params.id *)
  body_status : option string;                   (* req.body.status, a string if present *)
  body_response : option string;                 (* req.body.response, a string if present *)
  user_technicianProfileId : option ObjectId;    (* req.user?.technicianProfileId *)
  clock : Date;                                  (* new Date() *)
  io : bool;                                     (* req.io is set *)
}.

(** ** Controllers/technicianBroadcastController.js *)
Module Controller.
Section Controller.
Variable faults : nat → bool.

(** const finalStatus = (status || response || "").toLowerCase() *)
Definition finalStatus (req : RespondRequest) : string :=
  toLowerCase (default EmptyString
    (orElse (orElse (body_status req) (body_response req)) (Some EmptyString))).

(** finalStatus !== "accepted" && finalStatus !== "accept" *)
Definition invalidResponse (req : RespondRequest) : bool :=
  negb (bool_decide (finalStatus req = "accepted"))
  && negb (bool_decide (finalStatus req = "accept")).

Definition respondToJob_try (req : RespondRequest) : Async (Response ServiceBooking) :=
    let id := params_id req in
    match user_technicianProfileId req with
    | None =>
        _ ← abortTransaction;
        mret (json 401 false "Unauthorized: Technician profile not found" None)
    | Some technicianProfileId =>
        activeJob ← query faults 0 true (hasActiveJob technicianProfileId);
        if activeJob : bool then
          _ ← abortTransaction;
          mret (json 409 false
            "You already have an active job. Complete it before accepting a new one." None)
        else
        broadcast ← query faults 1 true
          (λ d, List.find (sentTo id technicianProfileId) (jobBroadcasts d));
        match broadcast with
        | None =>
            _ ← abortTransaction;
            mret (json 403 false "Job not assigned to you or already closed" None)
        | Some _ =>
        if invalidResponse req then
          _ ← abortTransaction;
          mret (json 400 false "Invalid response status" None)
        else
        booking ← update faults 2 true
          (findOneAndUpdate id stillOpen (assign technicianProfileId (clock req)));
        match booking with
        | None =>
            _ ← abortTransaction;
            mret (json 409 false "Too late! Booking already taken" None)
        | Some booking =>
        _ ← update faults 3 true (λ d, ((), set_broadcasts
              (updateOne (rowOf id technicianProfileId) (setStatus Broadcast.accepted)) d));
        otherBroadcasts ← query faults 4 true
          (λ d, List.filter (λ r, rowOfOther id technicianProfileId r
                                  && bool_decide (status r = Broadcast.sent))
                  (jobBroadcasts d));
        let otherTechIds := map technicianId otherBroadcasts in
        _ ← update faults 5 true (λ d, ((), set_broadcasts
              (updateMany (rowOfOther id technicianProfileId) (setStatus Broadcast.expired)) d));
        _ ← commitTransaction faults 6;
        _ ← (if io req then
               _ ← match sb_customerId booking with
                   | Some customer =>
                       notify (CustomerJobAccepted customer id technicianProfileId)
                   | None => mret ()
                   end;
               if bool_decide (otherTechIds ≠ []) then notify (JobTaken otherTechIds id)
               else mret ()
             else mret ());
        mret (json 200 true "Job accepted successfully" (Some booking))
        end
        end
    end.

  (** try { ... } catch (err) { abort if in transaction; 500 } finally { endSession } *)
Definition respondToJob (req : RespondRequest) (w : World) : Response ServiceBooking * World :=
    match respondToJob_try req (startTransaction w) with
    | (Returned res, w') => (res, endSession w')
    | (Thrown err, w') =>
        let w'' := if inTransaction w' then snd (abortTransaction w') else w' in
        (json 500 false err None, endSession w'')
    end.
End Controller.
End Controller.


(** ** The earlier revision of the controller (unnamed source part_000) *)
Module Part000.
Section Part000.
Variable faults : nat → bool.

Record Activation := { isActive : bool; activationMessage : string }.

Definition notActivated : string :=
  "Complete KYC, bank verification, and training to activate technician account".

(** checkTechnicianActivation: KYC approved, bank verified, training
    completed; a lookup that throws is caught and answered as not active.
    Its two lookups are the call sites [site] and [site + 1]; they do not
    carry the session. *)
Definition checkTechnicianActivation (site : nat) (technicianProfileId : ObjectId)
    : Async Activation := λ w,
  match query faults site false (λ d, technicianKycs d !! technicianProfileId) w with
  | (Thrown e, w') => (Returned {| isActive := false; activationMessage := e |}, w')
  | (Returned kyc, w') =>
      match kyc with
      | None => (Returned {| isActive := false; activationMessage := notActivated |}, w')
      | Some kyc =>
          if negb (bool_decide (verificationStatus kyc = Kyc.approved)) then
            (Returned {| isActive := false; activationMessage := notActivated |}, w')
          else if negb (bankVerified kyc) then
            (Returned {| isActive := false; activationMessage := notActivated |}, w')
          else
            match query faults (S site) false
                    (λ d, technicianProfiles d !! technicianProfileId) w' with
            | (Thrown e, w'') =>
                (Returned {| isActive := false; activationMessage := e |}, w'')
            | (Returned profile, w'') =>
                match profile with
                | Some profile =>
                    if trainingCompleted profile then
                      (Returned {| isActive := true;
                                   activationMessage := "Technician account is active" |}, w'')
                    else
                      (Returned {| isActive := false;
                                   activationMessage := notActivated |}, w'')
                | None =>
                    (Returned {| isActive := false; activationMessage := notActivated |}, w'')
                end
            end
      end
  end.

(** !technician || technician.workStatus !== "approved" || !technician.availability?.isOnline *)
Definition notEligible (technician : option TechnicianProfile) : bool :=
  match technician with
  | None => true
  | Some t => negb (bool_decide (workStatus t = Work.approved)) || negb (isOnline t)
  end.

(** The handler reads req.user?.technicianProfileId without a guard; it is
    modelled for an authenticated technician, whose id is
    [technicianProfileId]. req.body.status is read and never used. *)
Definition respondToJob_try (technicianProfileId : ObjectId) (req : RespondRequest)
    : Async (Response ServiceBooking) :=
  let id := params_id req in
  activation ← checkTechnicianActivation 0 technicianProfileId;
  if negb (isActive activation) then
    _ ← abortTransaction;
    mret (json 403 false (activationMessage activation) None)
  else
  broadcast ← query faults 2 true
    (λ d, List.find (sentTo id technicianProfileId) (jobBroadcasts d));
  match broadcast with
  | None =>
      _ ← abortTransaction;
      mret (json 403 false "Job not assigned to this technician" None)
  | Some _ =>
  technician ← query faults 3 true (λ d, technicianProfiles d !! technicianProfileId);
  if notEligible technician then
    _ ← abortTransaction;
    mret (json 403 false "Technician not eligible for job acceptance" None)
  else
  booking ← update faults 4 true
    (findOneAndUpdate id stillOpen (assign technicianProfileId (clock req)));
  match booking with
  | None =>
      _ ← abortTransaction;
      mret (json 409 false "Booking already taken" None)
  | Some booking =>
  _ ← update faults 5 true (λ d, ((), set_broadcasts
        (updateOne (rowOf id technicianProfileId) (setStatus Broadcast.accepted)) d));
  _ ← update faults 6 true (λ d, ((), set_broadcasts
        (updateMany (rowOfOther id technicianProfileId) (setStatus Broadcast.expired)) d));
  _ ← commitTransaction faults 7;
  mret (json 200 true "Job accepted successfully" (Some booking))
  end
  end.

(** try { ... } catch (err) { abortTransaction; 500 } finally { endSession }.
    The catch calls abortTransaction without asking the session: when the
    commit itself has failed the call throws, the handler's promise rejects
    after endSession and no response is sent. [Returned] holds the response
    sent, [Thrown] the error the handler rejects with. *)
Definition respondToJob (technicianProfileId : ObjectId) (req : RespondRequest)
    (w : World) : outcome (Response ServiceBooking) * World :=
  match respondToJob_try technicianProfileId req (startTransaction w) with
  | (Returned res, w') => (Returned res, endSession w')
  | (Thrown err, w') =>
      match abortTransaction w' with
      | (Returned _, w'') => (Returned (json 500 false err None), endSession w'')
      | (Thrown err', w'') => (Thrown err', endSession w'')
      end
  end.

(** *** The job feeds of the same revision *)

(** The ECMAScript string-to-number conversion (used for the non-empty
    strings) and the two geospatial operators of the store are outside the
    repository; the handlers are parametric in them. *)
Variable StringToNumber : string → number.
(** { $geoWithin: { $centerSphere: [center, radius] } } on a stored location *)
Variable geoWithinCenterSphere : list number → Qc → GeoJSON → bool.
(** The $geoNear stage: near-coordinates [lng; lat], maxDistance, query and
    collection to the matching documents with their distance field. *)
Variable geoNear : list (option number) → number → (positive → ServiceBooking → bool)
  → gmap positive ServiceBooking → list (positive * ServiceBooking * number).

(** Number(v): undefined converts to NaN; null, false and the empty string
    convert to 0. *)
Definition Number (v : JsValue) : number :=
  match v with
  | JUndefined => NaN
  | JNull => Num 0
  | JBool b => if b then Num 1 else Num 0
  | JNum n => n
  | JStr s => if bool_decide (s = EmptyString) then Num 0 else StringToNumber s
  end.

Definition ofZ (z : Z) : Qc := Q2Qc (inject_Z z).

(** JobBroadcast.find({ technicianId, status: "sent" }).select("bookingId"),
    then broadcasts.map(b => b.bookingId) *)
Definition sentBookingIds (technicianProfileId : ObjectId) (d : Db) : list ObjectId :=
  map bookingId
    (List.filter (λ r, bool_decide (technicianId r = technicianProfileId)
                       && bool_decide (status r = Broadcast.sent))
       (jobBroadcasts d)).

(** The geo filter of getMyJobs: empty unless the technician has a stored
    Point, else $or [ location missing, location within 10 km ]. *)
Definition geoFilter (technician : option TechnicianProfile) (b : ServiceBooking) : bool :=
  match technician with
  | Some t =>
      match location t with
      | Some g =>
          if bool_decide (geo_type g = "Point") then
            match sb_location b with
            | None => true
            | Some loc =>
                geoWithinCenterSphere (coordinates g) (ofZ 10000 / ofZ 6378100)%Qc loc
            end
          else true
      | None => true
      end
  | None => true
  end.

Definition getMyJobs_try (user : option ObjectId)
    : Async (Response (gmap positive ServiceBooking)) :=
  match user with
  | None => mret (json 401 false "Unauthorized" None)
  | Some technicianProfileId =>
      activation ← checkTechnicianActivation 0 technicianProfileId;
      if negb (isActive activation) then
        mret (json 200 true (activationMessage activation) (Some ∅))
      else
      bookingIds ← query faults 2 false (sentBookingIds technicianProfileId);
      technician ← query faults 3 false (λ d, technicianProfiles d !! technicianProfileId);
      (* the result array holds these documents, newest first *)
      bookings ← query faults 4 false (λ d,
        filter (λ kv, bool_decide (kv.1 ∈ bookingIds)
                      && bool_decide (sb_status kv.2 = Booking.broadcasted)
                      && bool_decide (sb_technicianId kv.2 = None)
                      && geoFilter technician kv.2 = true)
          (serviceBookings d));
      mret (json 200 true "Jobs fetched successfully" (Some bookings))
  end.

Definition getMyJobs (user : option ObjectId) (w : World)
    : Response (gmap positive ServiceBooking) * World :=
  match getMyJobs_try user w with
  | (Returned res, w') => (res, w')
  | (Thrown err, w') => (json 500 false err None, w')
  end.

Record NearbyRequest := {
  n_technicianProfileId : option ObjectId;   (* req.user?.technicianProfileId *)
  latitude : JsValue;                        (* of { ...req.query, ...req.body } *)
  longitude : JsValue;
  radius : JsValue;
}.

Definition locationNotFound : string :=
  "Location not found. Please provide latitude/longitude or update your profile location.".

(** "Resolve Location: Use provided coords OR fallback to stored technician
    location". It answers the 400 response or the coordinates [lng; lat]
    handed to the search. *)
Definition resolveLocation (technicianProfileId : ObjectId) (req : NearbyRequest)
    : Async (Response (list (positive * ServiceBooking * number)) + list (option number)) :=
  let lat := Number (latitude req) in
  let lng := Number (longitude req) in
  if negb (isFinite lat) || negb (isFinite lng) then
    techProfile ← query faults 2 false (λ d, technicianProfiles d !! technicianProfileId);
    match techProfile ≫= location with
    | Some g =>
        if bool_decide (geo_type g = "Point") then
          (* GeoJSON: [longitude, latitude] *)
          mret (inr [coordinates g !! 0%nat; coordinates g !! 1%nat])
        else mret (inl (json 400 false locationNotFound None))
    | None => mret (inl (json 400 false locationNotFound None))
    end
  else mret (inr [Some lng; Some lat]).

(** const maxDist = radius ? Number(radius) : 20000 *)
Definition maxDist (radius : JsValue) : number :=
  if truthy radius then Number radius else Num (ofZ 20000).

Definition getNearbyJobs_try (req : NearbyRequest)
    : Async (Response (list (positive * ServiceBooking * number))) :=
  match n_technicianProfileId req with
  | None => mret (json 401 false "Unauthorized" None)
  | Some technicianProfileId =>
      activation ← checkTechnicianActivation 0 technicianProfileId;
      if negb (isActive activation) then
        mret (json 200 true (activationMessage activation) (Some []))
      else
      resolved ← resolveLocation technicianProfileId req;
      match resolved with
      | inl refused => mret refused
      | inr near =>
          bookingIds ← query faults 3 false (sentBookingIds technicianProfileId);
          if bool_decide (bookingIds = []) then
            mret (json 200 true "No jobs available" (Some []))
          else
          (* the later stages join, project and sort by distance *)
          jobs ← query faults 4 false (λ d,
            geoNear near (maxDist (radius req))
              (λ id b, bool_decide (id ∈ bookingIds)
                       && bool_decide (sb_status b = Booking.broadcasted)
                       && bool_decide (sb_technicianId b = None))
              (serviceBookings d));
          mret (json 200 true "Nearby jobs fetched successfully" (Some jobs))
      end
  end.

Definition getNearbyJobs (req : NearbyRequest) (w : World)
    : Response (list (positive * ServiceBooking * number)) * World :=
  match getNearbyJobs_try req w with
  | (Returned res, w') => (res, w')
  | (Thrown err, w') => (json 500 false err None, w')
  end.
End Part000.
End Part000.

(** ** Controllers/technician.js *)

(** Modelled from the spec: Utils/technicianEligibility.js is not among the
    sources. The evaluator runs a fixed ordered checklist (KYC verification
    approved, bank details verified, training completed, work-status equal
    to approved, technician online, no job in an active state); each failing
    condition appends its reason code, and all failures are reported
    together. *)
Record Eligibility := { eligible : bool; reasons : list string }.

Definition getTechnicianJobEligibility (technicianProfileId : ObjectId) (d : Db)
    : Eligibility :=
  let kyc := technicianKycs d !! technicianProfileId in
  let profile := technicianProfiles d !! technicianProfileId in
  let failing (ok : bool) (reason : string) : list string := if ok then [] else [reason] in
  let reasons :=
    failing (bool_decide (verificationStatus <$> kyc = Some Kyc.approved)) "kyc"
    ++ failing (bool_decide (bankVerified <$> kyc = Some true)) "bank"
    ++ failing (bool_decide (trainingCompleted <$> profile = Some true)) "training"
    ++ failing (bool_decide (workStatus <$> profile = Some Work.approved)) "work_status"
    ++ failing (bool_decide (isOnline <$> profile = Some true)) "offline"
    ++ failing (negb (hasActiveJob technicianProfileId d)) "active_job" in
  {| eligible := bool_decide (reasons = []); reasons := reasons |}.

Definition workStatusName (s : Work.status) : string :=
  match s with
  | Work.pending => "pending" | Work.trained => "trained" | Work.approved => "approved"
  | Work.suspended => "suspended" | Work.deleted => "deleted"
  end.

(** TECHNICIAN_STATUSES.includes(workStatus), with the status it names *)
Definition workStatusOf (v : JsValue) : option Work.status :=
  match v with
  | JStr s =>
      List.find (λ ws, bool_decide (workStatusName ws = s))
        [Work.pending; Work.trained; Work.approved; Work.suspended; Work.deleted]
  | _ => None
  end.

Definition set_trainingCompleted (b : bool) (t : TechnicianProfile) : TechnicianProfile :=
  {| userId := userId t; trainingCompleted := b; workStatus := workStatus t;
     isOnline := isOnline t; location := location t |}.

Definition set_workStatus (s : Work.status) (t : TechnicianProfile) : TechnicianProfile :=
  {| userId := userId t; trainingCompleted := trainingCompleted t; workStatus := s;
     isOnline := isOnline t; location := location t |}.

Definition set_isOnline (b : bool) (t : TechnicianProfile) : TechnicianProfile :=
  {| userId := userId t; trainingCompleted := trainingCompleted t;
     workStatus := workStatus t; isOnline := b; location := location t |}.

Definition set_location (g : option GeoJSON) (t : TechnicianProfile) : TechnicianProfile :=
  {| userId := userId t; trainingCompleted := trainingCompleted t;
     workStatus := workStatus t; isOnline := isOnline t; location := g |}.

(** The user fields a request body can carry, at its top level or under
    [user]; [JUndefined] stands for a field that is not there. *)
Record UserFields := {
  f_fname : JsValue;
  f_lname : JsValue;
  f_email : JsValue;
  f_gender : JsValue;
  f_mobileNumber : JsValue;
  f_status : JsValue;
  f_profileComplete : JsValue;
}.

Definition isSet (v : JsValue) : bool := negb (bool_decide (v = JUndefined)).

(** The part of an updateTechnician request that reaches the fields of the
    model. *)
Record UpdateRequest := {
  u_technicianProfileId : option ObjectId; (* req.user?.technicianProfileId, if a valid ObjectId *)
  u_userId : ObjectId;             (* req.user.userId, the User document Auth found *)
  u_user : option UserFields;      (* req.body.user, when it is truthy *)
  u_body : UserFields;             (* the same fields at the top level of req.body *)
  u_skillsInvalid : bool;          (* skills !== undefined && !validateSkills(skills) *)
  u_isOnline : JsValue;            (* req.body.availability?.isOnline *)
  u_location : option GeoJSON;     (* req.body.location, read by the second revision *)
}.

Record StatusRequest := {
  s_technicianId : option ObjectId;  (* req.body.technicianId, if isValidObjectId *)
  s_role : option string;            (* req.user?.role *)
  s_trainingCompleted : JsValue;     (* req.body.trainingCompleted *)
  s_workStatus : JsValue;            (* req.body.workStatus *)
}.

Record TrainingRequest := {
  t_technicianId : option ObjectId;  (* req.params.technicianId, if isValidObjectId *)
  t_role : option string;            (* req.user?.role *)
  t_trainingCompleted : JsValue;     (* req.body.trainingCompleted *)
}.

Module Technician.
Section Technician.
Variable faults : nat → bool.

(** Utils/technicianMatching.js is not among the sources: its
    broadcastPendingJobsToTechnician is a parameter, a call that may change
    anything in the store and may throw. *)
Variable broadcastPendingJobsToTechnician : ObjectId → Async unit.

(** Utils/technicianEligibility.js is not among the sources either: the
    evaluator the second revision asks is a parameter as well. *)
Variable getTechnicianJobEligibility : ObjectId → Async Eligibility.

(** mongoose.model("User").findByIdAndUpdate(userId, userUpdate,
    { runValidators: true }): the casting, the setters and validators of
    Schemas/User.js and the unique indexes are applied by mongoose and the
    store. [userUpdateOf] gives, for the update document, the id and the
    collection, the change of the document or the error that is thrown. *)
Variable userUpdateOf : UserFields → ObjectId → gmap positive User → outcome (User → User).

(** technician.save(): the document is written back under its _id. *)
Definition save (site : nat) (session : bool) (id : ObjectId) (t : TechnicianProfile)
    : Async unit :=
  update faults site session (λ d, ((), set_profiles (insert id t) d)).

(** The awaited User.findByIdAndUpdate at call site [site]: nothing is
    written when the validation throws; a document that does not exist is not
    created. *)
Definition findByIdAndUpdateUser (site : nat) (session : bool) (userId : ObjectId)
    (userUpdate : UserFields) : Async unit := λ w,
  if faults site then (Thrown storeUnavailable, w)
  else
    match userUpdateOf userUpdate userId (users (visible session w)) with
    | Returned f => (Returned (), change session (set_users (alter f userId)) w)
    | Thrown e => (Thrown e, w)
    end.

(** session.withTransaction(callback): commit when the callback returns,
    abort and rethrow when it throws. *)
Definition withTransaction {A} (commitSite : nat) (callback : Async A) : Async A := λ w,
  match callback (startTransaction w) with
  | (Returned a, w') => (_ ← commitTransaction faults commitSite; mret a) w'
  | (Thrown e, w') =>
      (Thrown e, if inTransaction w' then snd (abortTransaction w') else w')
  end.

(** *** First revision: the online gate inside withTransaction *)

(** Step 2 of the callback, "Handle Online Status & Verification Logic". *)
Definition goOnline (technicianProfileId : ObjectId) (v : JsValue)
    (technician : TechnicianProfile) : Async TechnicianProfile :=
  if bool_decide (v ≠ JUndefined) then
    _ ← (if truthy v then
           if negb (trainingCompleted technician) then
             throw "Training must be completed before going online."
           else if negb (bool_decide (workStatus technician = Work.approved)) then
             throw ("Only approved technicians can go online. Current status: "
                    +:+ workStatusName (workStatus technician))
           else
             kyc ← query faults 1 false (λ d, technicianKycs d !! technicianProfileId);
             match kyc with
             | Some kyc =>
                 if negb (bool_decide (verificationStatus kyc = Kyc.approved)) then
                   throw "Your KYC must be approved before going online."
                 else mret ()
             | None => throw "Your KYC must be approved before going online."
             end
         else mret ());
    mret (set_isOnline (truthy v) technician)
  else mret technician.

(** Step 3 of the callback, "Update User fields": const u = userData ||
    req.body; fname, lname, email and gender are copied when they are not
    undefined, and the update is sent when one of them was. *)
Definition userUpdate1 (req : UpdateRequest) : UserFields :=
  let u := default (u_body req) (u_user req) in
  {| f_fname := f_fname u; f_lname := f_lname u; f_email := f_email u;
     f_gender := f_gender u; f_mobileNumber := JUndefined; f_status := JUndefined;
     f_profileComplete := JUndefined |}.

Definition userUpdated (userUpdate : UserFields) : bool :=
  isSet (f_fname userUpdate) || isSet (f_lname userUpdate) || isSet (f_email userUpdate)
  || isSet (f_gender userUpdate) || isSet (f_mobileNumber userUpdate)
  || isSet (f_status userUpdate) || isSet (f_profileComplete userUpdate).

Definition updateTechnician_try (req : UpdateRequest)
    : Async (Response TechnicianProfile) :=
  match u_technicianProfileId req with
  | None => mret (json 401 false "Unauthorized" None)
  | Some technicianProfileId =>
      if u_skillsInvalid req then mret (json 400 false "Invalid skills format" None)
      else
      technician ← query faults 0 false (λ d, technicianProfiles d !! technicianProfileId);
      match technician with
      | None => mret (json 404 false "Technician not found" None)
      | Some technician =>
          _ ← withTransaction 4
                (technician ← goOnline technicianProfileId (u_isOnline req) technician;
                 _ ← (if userUpdated (userUpdate1 req) then
                        findByIdAndUpdateUser 2 true (u_userId req) (userUpdate1 req)
                      else mret ());
                 save 3 true technicianProfileId technician);
          (* the proactive broadcast is not awaited and its failure is only
             logged; the model lets it run before the profile is read again *)
          _ ← (if bool_decide (u_isOnline req = JBool true) then
                 λ w, (Returned (), (broadcastPendingJobsToTechnician technicianProfileId w).2)
               else mret ());
          updatedProfile ← query faults 5 false
            (λ d, technicianProfiles d !! technicianProfileId);
          mret (json 200 true "Technician profile updated successfully" updatedProfile)
      end
  end.

(** try { ... } catch (error) { 400 with error.message } finally { endSession } *)
Definition updateTechnician (req : UpdateRequest) (w : World)
    : Response TechnicianProfile * World :=
  match updateTechnician_try req w with
  | (Returned res, w') => (res, endSession w')
  | (Thrown err, w') => (json 400 false err None, endSession w')
  end.

(** *** Second revision: the user first, then the gate asks the evaluator *)

(** eligibility.reasons.filter(r => r !== "offline") *)
Definition barriersOf (e : Eligibility) : list string :=
  List.filter (λ r, negb (bool_decide (r = "offline"))) (reasons e).

(** The block guarded by availability?.isOnline !== undefined; it answers
    either the 403 response or the technician document to save. *)
Definition goOnline2 (technicianProfileId : ObjectId) (v : JsValue)
    (technician : TechnicianProfile)
    : Async (Response TechnicianProfile + TechnicianProfile) :=
  if bool_decide (v ≠ JUndefined) then
    let isGoingOnline := truthy v in
    if isGoingOnline && negb (isOnline technician) then
      eligibility ← getTechnicianJobEligibility technicianProfileId;
      if negb (eligible eligibility) && negb (bool_decide (barriersOf eligibility = [])) then
        mret (inl (json 403 false
          ("Cannot go online. Requirements not met: "
             +:+ String.concat ", " (barriersOf eligibility)) None))
      else mret (inr (set_isOnline isGoingOnline technician))
    else mret (inr (set_isOnline isGoingOnline technician))
  else mret (inr technician).

Definition updateTechnician2_try (req : UpdateRequest)
    : Async (Response TechnicianProfile) :=
  match u_technicianProfileId req with
  | None => mret (json 401 false "Unauthorized" None)
  | Some technicianProfileId =>
      (* 1. Update User Data if provided *)
      _ ← match u_user req with
          | Some user =>
              if userUpdated user then findByIdAndUpdateUser 0 false (u_userId req) user
              else mret ()
          | None => mret ()
          end;
      (* 2. Fetch and Update Technician Profile *)
      technician ← query faults 1 false (λ d, technicianProfiles d !! technicianProfileId);
      match technician with
      | None => mret (json 404 false "Technician not found" None)
      | Some technician =>
          let technician :=
            match u_location req with
            | Some g => set_location (Some g) technician
            | None => technician
            end in
          if u_skillsInvalid req then mret (json 400 false "Invalid skills format" None)
          else
          gate ← goOnline2 technicianProfileId (u_isOnline req) technician;
          match gate with
          | inl refused => mret refused
          | inr technician =>
              _ ← save 2 false technicianProfileId technician;
              _ ← (if bool_decide (u_isOnline req = JBool true) then
                     broadcastPendingJobsToTechnician technicianProfileId
                   else mret ());
              updatedTech ← query faults 3 false
                (λ d, technicianProfiles d !! technicianProfileId);
              match updatedTech with
              | Some updatedTech =>
                  mret (json 200 true "Technician updated successfully" (Some updatedTech))
              | None => throw "Cannot read properties of null (reading 'toObject')"
              end
          end
      end
  end.

(** try { ... } catch (error) { 500 "Server error" } *)
Definition updateTechnician2 (req : UpdateRequest) (w : World)
    : Response TechnicianProfile * World :=
  match updateTechnician2_try req w with
  | (Returned res, w') => (res, w')
  | (Thrown err, w') => (json 500 false "Server error" None, w')
  end.

(** *** The owner's handlers (the same text in both revisions) *)

Definition updateTechnicianStatus_try (req : StatusRequest)
    : Async (Response TechnicianProfile) :=
  match s_technicianId req with
  | None => mret (json 400 false "Invalid Technician ID" None)
  | Some technicianId =>
      if negb (bool_decide (s_role req = Some "Owner")) then
        mret (json 403 false "Owner access only" None)
      else
      technician ← query faults 0 false (λ d, technicianProfiles d !! technicianId);
      match technician with
      | None => mret (json 404 false "Technician not found" None)
      | Some technician =>
          let technician :=
            if bool_decide (s_trainingCompleted req ≠ JUndefined) then
              let t := set_trainingCompleted (truthy (s_trainingCompleted req)) technician in
              if bool_decide (s_trainingCompleted req = JBool true)
              then set_workStatus Work.trained t else t
            else technician in
          let finish (technician : TechnicianProfile) :=
            _ ← save 1 false technicianId technician;
            mret (json 200 true "Technician status updated successfully" (Some technician)) in
          if bool_decide (s_workStatus req ≠ JUndefined) then
            match workStatusOf (s_workStatus req) with
            | None =>
                mret (json 400 false
                  "Invalid workStatus value. Must be: pending, trained, approved, or suspended"
                  None)
            | Some ws =>
                let technician := set_workStatus ws technician in
                finish (if bool_decide (ws = Work.suspended)
                        then set_isOnline false technician else technician)
            end
          else finish technician
      end
  end.

Definition updateTechnicianStatus (req : StatusRequest) (w : World)
    : Response TechnicianProfile * World :=
  match updateTechnicianStatus_try req w with
  | (Returned res, w') => (res, w')
  | (Thrown err, w') => (json 500 false "Server error" None, w')
  end.

Definition updateTechnicianTraining_try (req : TrainingRequest)
    : Async (Response TechnicianProfile) :=
  if negb (bool_decide (t_role req = Some "Owner")) then
    mret (json 403 false "Owner access only" None)
  else
  match t_technicianId req with
  | None => mret (json 400 false "Invalid Technician ID" None)
  | Some technicianId =>
      match t_trainingCompleted req with
      | JBool trainingCompleted' =>
          technician ← query faults 0 false (λ d, technicianProfiles d !! technicianId);
          match technician with
          | None => mret (json 404 false "Technician not found" None)
          | Some technician =>
              let technician := set_trainingCompleted trainingCompleted' technician in
              (* If training is being set to false, force offline *)
              let technician :=
                if negb trainingCompleted' && isOnline technician
                then set_isOnline false technician else technician in
              _ ← save 1 false technicianId technician;
              mret (json 200 true
                ("Training status updated to "
                   +:+ (if trainingCompleted' then "completed" else "incomplete"))
                (Some technician))
          end
      | _ => mret (json 400 false "trainingCompleted must be a boolean value" None)
      end
  end.

Definition updateTechnicianTraining (req : TrainingRequest) (w : World)
    : Response TechnicianProfile * World :=
  match updateTechnicianTraining_try req w with
  | (Returned res, w') => (res, w')
  | (Thrown err, w') => (json 500 false "Server error" None, w')
  end.
End Technician.
End Technician.

(** ** The broadcast ledger *)

Definition offer (job tech : ObjectId) (s : Broadcast.status) : JobBroadcast :=
  {| bookingId := job; technicianId := tech; status := s |}.

(** Modelled from the spec: the ledger's recordBroadcast(jobId,
    technicianIds) is not among the sources. It records a sent row per
    candidate and is idempotent per (job, technician): re-invoking it for a
    technician with an existing sent row must not create a duplicate. Rows are
    only ever appended. *)
Definition recordOne (jobId : ObjectId) (l : list JobBroadcast) (tech : ObjectId)
    : list JobBroadcast :=
  if existsb (sentTo jobId tech) l then l
  else l ++ [offer jobId tech Broadcast.sent].

Definition recordBroadcast (jobId : ObjectId) (technicianIds : list ObjectId)
    (l : list JobBroadcast) : list JobBroadcast :=
  foldl (recordOne jobId) l technicianIds.

(** The number of sent rows for the pair (job, technician). *)
Definition sentRows (jobId tech : ObjectId) (l : list JobBroadcast) : nat :=
  length (List.filter (sentTo jobId tech) l).

(** The rows of a job in a given state. *)
Definition rowsIn (jobId : ObjectId) (s : Broadcast.status) (l : list JobBroadcast)
    : list JobBroadcast :=
  List.filter (λ r, bool_decide (bookingId r = jobId) && bool_decide (status r = s)) l.

(** The plan in which no store call throws. *)
Definition noFaults : nat → bool := λ _, false.

(** ** Sample data *)

Definition openJob : ServiceBooking :=
  {| sb_status := Booking.broadcasted; sb_technicianId := None; sb_assignedAt := None;
     sb_customerId := Some 50%positive; sb_location := None;
     sb_technicianSnapshot := None |}.

Definition approvedOnline : TechnicianProfile :=
  {| userId := 70%positive; trainingCompleted := true; workStatus := Work.approved;
     isOnline := true; location := None |}.

Definition verifiedKyc : TechnicianKyc :=
  {| verificationStatus := Kyc.approved; bankVerified := true |}.

(** The same profile for another user. *)
Definition ofUser (u : ObjectId) (t : TechnicianProfile) : TechnicianProfile :=
  {| userId := u; trainingCompleted := trainingCompleted t; workStatus := workStatus t;
     isOnline := isOnline t; location := location t |}.

Definition sampleUser (mobileNumber : string) : User :=
  {| usr_fname := Some "Asha"; usr_lname := Some "Rao"; usr_email := None;
     usr_gender := None; usr_mobileNumber := mobileNumber; usr_status := "Active";
     usr_profileComplete := true; usr_password := None; usr_lastLoginAt := None |}.

(** The users 70 and 80 of the technicians 7 and 8. *)
Definition sampleUsers : gmap positive User :=
  {[ 70%positive := sampleUser "9000000007"; 80%positive := sampleUser "9000000008" ]}.

(** Job 1 is open and was offered to the technicians 7 and 8. *)
Definition sampleDb : Db :=
  {| serviceBookings := {[ 1%positive := openJob ]};
     jobBroadcasts := [offer 1 7 Broadcast.sent; offer 1 8 Broadcast.sent];
     technicianProfiles :=
       {[ 7%positive := approvedOnline; 8%positive := ofUser 80 approvedOnline ]};
     technicianKycs := {[ 7%positive := verifiedKyc; 8%positive := verifiedKyc ]};
     users := sampleUsers |}.

Definition worldOf (d : Db) : World := {| store := d; txn := None; emitted := [] |}.

Definition acceptBy (tech : ObjectId) : RespondRequest :=
  {| params_id := 1%positive; body_status := Some "Accepted"; body_response := None;
     user_technicianProfileId := Some tech; clock := 1000; io := true |}.

(** ** What a committed accept leaves behind *)

(** The two ledger writes of an accept, in their order. *)
Definition settle (id technicianProfileId : ObjectId) (l : list JobBroadcast)
    : list JobBroadcast :=
  updateMany (rowOfOther id technicianProfileId) (setStatus Broadcast.expired)
    (updateOne (rowOf id technicianProfileId) (setStatus Broadcast.accepted) l).

(** [d'] is [d] after the whole accept of job [id] by [tech] at time [now]:
    the booking is assigned and the ledger is settled. *)
Definition committedAccept (id tech : ObjectId) (now : Date) (d d' : Db) : Prop :=
  ∃ b, serviceBookings d !! id = Some b ∧ stillOpen b = true ∧
       d' = set_broadcasts (settle id tech) (set_bookings (insert id (assign tech now b)) d).

(** A booking passes the filter of the conditional update exactly when its
    status is requested or broadcasted and no technician is assigned. *)
Definition assignable (id : ObjectId) (d : Db) : Prop :=
  ∃ b, serviceBookings d !! id = Some b
       ∧ (sb_status b = Booking.requested ∨ sb_status b = Booking.broadcasted)
       ∧ sb_technicianId b = None.



(** The account is activated, as checkTechnicianActivation of the earlier
    revision sees it: KYC approved, bank verified, training completed. *)
Definition activated (tech : ObjectId) (d : Db) : Prop :=
  (∃ kyc, technicianKycs d !! tech = Some kyc
          ∧ verificationStatus kyc = Kyc.approved ∧ bankVerified kyc = true)
  ∧ (∃ t, technicianProfiles d !! tech = Some t ∧ trainingCompleted t = true).


(** The store call at site 5 fails: the updateMany that expires the other
    rows in the current controller, the updateOne that marks the winner's row
    in the earlier revision. *)
Definition expireFails : nat → bool := λ k, bool_decide (k = 5%nat).

(** The commit of the earlier revision fails. *)
Definition commitFails : nat → bool := λ k, bool_decide (k = 7%nat).

(** ** The ledger invariant *)

(** The pair (job, technician) has at most one ledger row. *)
Definition singleRow (id tech : ObjectId) (l : list JobBroadcast) : Prop :=
  (length (List.filter (rowOf id tech) l) ≤ 1)%nat.

(** The rows of job [id] once [tech] has won it: exactly one row is
    accepted and it is the winner's, every other row of the job is expired,
    none is left sent. *)
Definition settledFor (id tech : ObjectId) (l : list JobBroadcast) : Prop :=
  rowsIn id Broadcast.accepted l = [offer id tech Broadcast.accepted]
  ∧ (∀ r, r ∈ l → bookingId r = id →
       r = offer id tech Broadcast.accepted ∨ status r = Broadcast.expired)
  ∧ rowsIn id Broadcast.sent l = [].

(** The data model's invariant on the ledger: a job has at most one accepted
    row; while a job can still be assigned all its rows are sent, at most one
    per technician. *)
Definition ledgerInv (d : Db) : Prop :=
  ∀ J, (length (rowsIn J Broadcast.accepted (jobBroadcasts d)) ≤ 1)%nat
       ∧ (assignable J d →
            (∀ s, s ≠ Broadcast.sent → rowsIn J s (jobBroadcasts d) = [])
            ∧ ∀ T, (sentRows J T (jobBroadcasts d) ≤ 1)%nat).

(** No job has two accepted rows, and a job that can still be assigned has
    none. *)
Definition acceptedOnce (d : Db) : Prop :=
  ∀ J, (length (rowsIn J Broadcast.accepted (jobBroadcasts d)) ≤ 1)%nat
       ∧ (assignable J d → rowsIn J Broadcast.accepted (jobBroadcasts d) = []).

(** As [sampleDb], with an expired row for (1, 7) before the sent one. *)
Definition reofferedDb : Db :=
  set_broadcasts (λ _, [offer 1 7 Broadcast.expired; offer 1 7 Broadcast.sent;
                        offer 1 8 Broadcast.sent]) sampleDb.

(** As [sampleDb], with an accepted row for (1, 7) after the sent one. *)
Definition twiceOfferedDb : Db :=
  set_broadcasts (λ _, [offer 1 7 Broadcast.sent; offer 1 7 Broadcast.accepted]) sampleDb.

(** What happens to the store over time: accepts through either revision of
    the controller, under any fault plan, and offers recorded in the ledger. *)
Inductive Event :=
| Accept (faults : nat → bool) (req : RespondRequest)
| AcceptEarlier (faults : nat → bool) (tech : ObjectId) (req : RespondRequest)
| Offer (jobId : ObjectId) (technicianIds : list ObjectId).

Definition step (w : World) (e : Event) : World :=
  match e with
  | Accept faults req => (Controller.respondToJob faults req w).2
  | AcceptEarlier faults tech req => (Part000.respondToJob faults tech req w).2
  | Offer jobId technicianIds =>
      {| store := set_broadcasts (recordBroadcast jobId technicianIds) (store w);
         txn := txn w; emitted := emitted w |}
  end.

Definition run (events : list Event) (w : World) : World := foldl step w events.

(** ** The preconditions of an accept *)

Definition approvedOffline : TechnicianProfile :=
  {| userId := 70%positive; trainingCompleted := true; workStatus := Work.approved;
     isOnline := false; location := None |}.

(** As [sampleDb], with technician 7 offline. *)
Definition offlineDb : Db :=
  {| serviceBookings := {[ 1%positive := openJob ]};
     jobBroadcasts := [offer 1 7 Broadcast.sent; offer 1 8 Broadcast.sent];
     technicianProfiles :=
       {[ 7%positive := approvedOffline; 8%positive := ofUser 80 approvedOnline ]};
     technicianKycs := {[ 7%positive := verifiedKyc; 8%positive := verifiedKyc ]};
     users := sampleUsers |}.

(** ** Candidate selection *)

(** Candidate selection as the design document words it: the job is
    requested or broadcasted, unassigned, and either lacks a location or lies
    within the radius. *)
Definition selectedAsSpecified (within : GeoJSON → bool) (b : ServiceBooking) : Prop :=
  (sb_status b = Booking.requested ∨ sb_status b = Booking.broadcasted)
  ∧ sb_technicianId b = None
  ∧ match sb_location b with None => True | Some g => within g = true end.

Definition feedAsSpecified
    (feed : World → Response (gmap positive ServiceBooking) * World)
    (within : GeoJSON → bool) : Prop :=
  ∀ w jobs, result (feed w).1 = Some jobs →
    ∀ id b, jobs !! id = Some b ↔
            serviceBookings (store w) !! id = Some b ∧ selectedAsSpecified within b.

(** The technician's stored location when it is a GeoJSON Point. *)
Definition storedPoint (technician : option TechnicianProfile) : option GeoJSON :=
  g ← technician ≫= location;
  if bool_decide (geo_type g = "Point") then Some g else None.

Definition requestedJob : ServiceBooking :=
  {| sb_status := Booking.requested; sb_technicianId := None; sb_assignedAt := None;
     sb_customerId := Some 52%positive; sb_location := None;
     sb_technicianSnapshot := None |}.

(** Jobs 1 and 2 were offered to technician 7, job 3 was not; job 2 is still
    requested; none of them has a location. *)
Definition feedDb : Db :=
  {| serviceBookings :=
       {[ 1%positive := openJob; 2%positive := requestedJob; 3%positive := openJob ]};
     jobBroadcasts := [offer 1 7 Broadcast.sent; offer 2 7 Broadcast.sent];
     technicianProfiles := {[ 7%positive := approvedOnline ]};
     technicianKycs := {[ 7%positive := verifiedKyc ]};
     users := sampleUsers |}.



(** A nearby-jobs call of technician 7 with explicit coordinates and no
    radius. *)
Definition nearbyBy7 : Part000.NearbyRequest :=
  {| Part000.n_technicianProfileId := Some 7%positive;
     Part000.latitude := JNum (Num (Part000.ofZ 12));
     Part000.longitude := JNum (Num (Part000.ofZ 77));
     Part000.radius := JUndefined |}.


(** A $geoNear without a distance limit: every document matching the query,
    at distance 0. *)
Definition geoNearAll (near : list (option number)) (maxDistance : number)
    (q : positive → ServiceBooking → bool) (m : gmap positive ServiceBooking)
    : list (positive * ServiceBooking * number) :=
  (λ kv, (kv.1, kv.2, Num (Part000.ofZ 0)))
    <$> map_to_list (filter (λ kv, q kv.1 kv.2 = true) m).

(** What the repository relies on from $geoNear: it answers documents of the
    collection that match the query. *)
Definition geoNearSound
    (gn : list (option number) → number → (positive → ServiceBooking → bool)
          → gmap positive ServiceBooking → list (positive * ServiceBooking * number))
    : Prop :=
  ∀ near maxDistance q m id b dist,
    (id, b, dist) ∈ gn near maxDistance q m → m !! id = Some b ∧ q id b = true.

Definition pointAt (lng lat : Z) : GeoJSON :=
  {| geo_type := "Point";
     coordinates := [Num (Part000.ofZ lng); Num (Part000.ofZ lat)] |}.

(** As [sampleDb], with a stored point for technician 7 and none for 8. *)
Definition locatedDb : Db :=
  {| serviceBookings := {[ 1%positive := openJob ]};
     jobBroadcasts := [offer 1 7 Broadcast.sent; offer 1 8 Broadcast.sent];
     technicianProfiles :=
       {[ 7%positive := set_location (Some (pointAt 77 12)) approvedOnline;
          8%positive := ofUser 80 approvedOnline ]};
     technicianKycs := {[ 7%positive := verifiedKyc; 8%positive := verifiedKyc ]};
     users := sampleUsers |}.

(** The query of the $geoNear stage: offered, broadcasted, unassigned. *)
Definition nearbyQuery (bookingIds : list ObjectId) (id : positive) (b : ServiceBooking)
    : bool :=
  bool_decide (id ∈ bookingIds) && bool_decide (sb_status b = Booking.broadcasted)
  && bool_decide (sb_technicianId b = None).

(** A nearby-jobs call with the given latitude and longitude and no radius. *)
Definition nearbyAt (tech : ObjectId) (latitude longitude : JsValue)
    : Part000.NearbyRequest :=
  {| Part000.n_technicianProfileId := Some tech;
     Part000.latitude := latitude; Part000.longitude := longitude;
     Part000.radius := JUndefined |}.

(** A nearby-jobs call without coordinates and without radius. *)
Definition nearbyWithoutCoordinates (tech : ObjectId) : Part000.NearbyRequest :=
  {| Part000.n_technicianProfileId := Some tech;
     Part000.latitude := JUndefined; Part000.longitude := JUndefined;
     Part000.radius := JUndefined |}.

(** ** Going online *)

(** The account-level conditions for going online: training completed,
    work-status approved, KYC verification approved. *)
Definition mayGoOnline (tech : ObjectId) (d : Db) : Prop :=
  (∃ t, technicianProfiles d !! tech = Some t
        ∧ trainingCompleted t = true ∧ workStatus t = Work.approved)
  ∧ (∃ kyc, technicianKycs d !! tech = Some kyc ∧ verificationStatus kyc = Kyc.approved).

(** The stored flag availability.isOnline of a technician. *)
Definition onlineFlag (tech : ObjectId) (d : Db) : option bool :=
  isOnline <$> technicianProfiles d !! tech.

(** What the gate of the second revision relies on from the evaluator it
    asks: the evaluator only reads, and when an account-level condition fails
    its answer is not eligible, with a reason other than "offline". *)
Definition evaluatorReports (evaluator : ObjectId → Async Eligibility) : Prop :=
  ∀ tech w,
    (evaluator tech w).2 = w
    ∧ ∀ e, (evaluator tech w).1 = Returned e → ¬ mayGoOnline tech (store w) →
        eligible e = false ∧ ∃ r, r ∈ reasons e ∧ r ≠ "offline".

(** A candidate selector that leaves profiles, KYC records and users alone. *)
Definition keepsAccounts (selector : ObjectId → Async unit) : Prop :=
  ∀ tech w,
    technicianProfiles (store (selector tech w).2) = technicianProfiles (store w)
    ∧ technicianKycs (store (selector tech w).2) = technicianKycs (store w)
    ∧ users (store (selector tech w).2) = users (store w).

(** An evaluator that only reads. *)
Definition readsOnly (evaluator : ObjectId → Async Eligibility) : Prop :=
  ∀ tech w, (evaluator tech w).2 = w.

(** A validation of user updates for the samples: a gender must be one of the
    schema's three, a first name is stored as it is sent. *)
Definition sampleUserUpdate (userUpdate : UserFields) (userId : ObjectId)
    (users : gmap positive User) : outcome (User → User) :=
  match f_gender userUpdate with
  | JStr g =>
      if bool_decide (g ∈ ["Male"; "Female"; "Other"]) then
        Returned (λ u, {| usr_fname := usr_fname u; usr_lname := usr_lname u;
                          usr_email := usr_email u; usr_gender := Some g;
                          usr_mobileNumber := usr_mobileNumber u; usr_status := usr_status u;
                          usr_profileComplete := usr_profileComplete u;
                          usr_password := usr_password u;
                          usr_lastLoginAt := usr_lastLoginAt u |})
      else Thrown "Validation failed"
  | _ => Returned (λ u, u)
  end.

Definition pendingOnline : TechnicianProfile :=
  {| userId := 70%positive; trainingCompleted := true; workStatus := Work.pending;
     isOnline := true; location := None |}.

(** Technician 7 is online although the work-status is back to pending, as
    updateTechnicianStatus leaves it after workStatus: "pending". *)
Definition pendingDb : Db :=
  {| serviceBookings := ∅; jobBroadcasts := [];
     technicianProfiles := {[ 7%positive := pendingOnline ]};
     technicianKycs := {[ 7%positive := verifiedKyc ]};
     users := sampleUsers |}.

Definition noUserFields : UserFields :=
  {| f_fname := JUndefined; f_lname := JUndefined; f_email := JUndefined;
     f_gender := JUndefined; f_mobileNumber := JUndefined; f_status := JUndefined;
     f_profileComplete := JUndefined |}.

Definition goOnlineBy (tech : ObjectId) : UpdateRequest :=
  {| u_technicianProfileId := Some tech; u_userId := 70%positive; u_user := None;
     u_body := noUserFields; u_skillsInvalid := false;
     u_isOnline := JBool true; u_location := None |}.

(** A candidate selector that finds nothing to do. *)
Definition noBroadcast : ObjectId → Async unit := λ _ w, (Returned (), w).

(** The owner withdraws the training of technician 7 through
    updateTechnicianStatus. *)
Definition withdrawTraining : StatusRequest :=
  {| s_technicianId := Some 7%positive; s_role := Some "Owner";
     s_trainingCompleted := JBool false; s_workStatus := JUndefined |}.

(** The owner suspends technician 7. *)
Definition suspend7 : StatusRequest :=
  {| s_technicianId := Some 7%positive; s_role := Some "Owner";
     s_trainingCompleted := JUndefined; s_workStatus := JStr "suspended" |}.

Definition pendingOffline : TechnicianProfile :=
  {| userId := 70%positive; trainingCompleted := true; workStatus := Work.pending;
     isOnline := false; location := None |}.

(** Technician 7 is offline and not approved. *)
Definition notApprovedDb : Db :=
  {| serviceBookings := ∅; jobBroadcasts := [];
     technicianProfiles := {[ 7%positive := pendingOffline ]};
     technicianKycs := {[ 7%positive := verifiedKyc ]};
     users := sampleUsers |}.

(** The owner withdraws the training of technician 7 through
    updateTechnicianTraining. *)
Definition withdrawTrainingDirectly : TrainingRequest :=
  {| t_technicianId := Some 7%positive; t_role := Some "Owner";
     t_trainingCompleted := JBool false |}.

(** * Further handlers *)

(** ** Controllers/technicianBroadcastController.js: the live feed *)
Module Feed.
Section Feed.
Variable faults : nat → bool.
(** Utils/technicianEligibility.js is not among the sources: the evaluator
    is a parameter, an awaited call that answers or throws. *)
Variable getTechnicianJobEligibility : ObjectId → Async Eligibility.

Record Activation := {
  isActive : bool;
  activationMessage : string;
  activationReasons : list string;   (* empty where the source sets no reasons *)
}.

(** checkTechnicianActivation: "offline" is no reason against activation; an
    evaluator that throws is answered as not active. *)
Definition checkTechnicianActivation (technicianProfileId : ObjectId) : Async Activation := λ w,
  match getTechnicianJobEligibility technicianProfileId w with
  | (Returned e, w') =>
      let activationReasons :=
        List.filter (λ r, negb (bool_decide (r = "offline"))) (reasons e) in
      if negb (eligible e) && negb (bool_decide (activationReasons = [])) then
        (Returned {| isActive := false;
                     activationMessage := Part000.notActivated;
                     activationReasons := activationReasons |}, w')
      else
        (Returned {| isActive := true;
                     activationMessage := "Technician account is active";
                     activationReasons := [] |}, w')
  | (Thrown error, w') =>
      (Returned {| isActive := false; activationMessage := error;
                   activationReasons := [] |}, w')
  end.

Definition busyMessage : string :=
  "You already have an active job. Complete it before accepting a new one.".

(** The file calls fetchTechnicianJobsInternal and neither defines nor
    imports it: evaluating the name throws a ReferenceError. *)
Definition fetchTechnicianJobsInternal (technicianProfileId : ObjectId)
    : Async (list ServiceBooking) :=
  throw "fetchTechnicianJobsInternal is not defined".

Definition getMyJobs_try (user : option ObjectId)
    : Async (Response (list ServiceBooking)) :=
  match user with
  | None => mret (json 401 false "Unauthorized" None)
  | Some technicianProfileId =>
      activeJob ← query faults 0 false (hasActiveJob technicianProfileId);
      if activeJob : bool then mret (json 200 true busyMessage (Some []))
      else
      activation ← checkTechnicianActivation technicianProfileId;
      if negb (isActive activation) then
        mret (json 200 true (activationMessage activation) (Some []))
      else
      jobs ← fetchTechnicianJobsInternal technicianProfileId;
      mret (json 200 true "Live jobs fetched successfully" (Some jobs))
  end.

Definition getMyJobs (user : option ObjectId) (w : World)
    : Response (list ServiceBooking) * World :=
  match getMyJobs_try user w with
  | (Returned res, w') => (res, w')
  | (Thrown err, w') => (json 500 false err None, w')
  end.
End Feed.
End Feed.

(** ** Controllers/technician.js: reading, deleting, locating *)

(** A technician document with the field the enrichment adds;
    [JUndefined] stands for a document that was returned as it is. *)
Record Enriched := { document : TechnicianProfile; isActiveTechnician : JsValue }.

Record DeleteRequest := {
  d_id : option ObjectId;                     (* req.params.id, if isValidObjectId *)
  d_role : option string;                     (* req.user?.role *)
  d_technicianProfileId : option ObjectId;    (* req.user?.technicianProfileId *)
  d_now : Date;                               (* Date.now() *)
}.

Definition set_technicianSnapshot (snapshot : TechnicianSnapshot) (b : ServiceBooking)
    : ServiceBooking :=
  {| sb_status := sb_status b; sb_technicianId := sb_technicianId b;
     sb_assignedAt := sb_assignedAt b; sb_customerId := sb_customerId b;
     sb_location := sb_location b; sb_technicianSnapshot := Some snapshot |}.

Record LocationRequest := {
  l_technicianProfileId : option ObjectId;    (* req.user?.technicianProfileId, if valid *)
  l_latitude : JsValue;                       (* req.body.latitude *)
  l_longitude : JsValue;                      (* req.body.longitude *)
}.

(** What handleLocationUpdate answers, as far as the controller reads it. *)
Record LocationResult := { matchCalculation : bool }.

Module Profile.
Section Profile.
Variable faults : nat → bool.
(** Utils/technicianLocation.js is not among the sources: handleLocationUpdate
    is a parameter. *)
Variable handleLocationUpdate : ObjectId → Qc → Qc → Async LocationResult.
(** String.prototype.trim, and the strings an ObjectId and a timestamp print
    as in a template literal, are outside the repository. *)
Variable trim : string → string.
Variable ObjectIdToString : ObjectId → string.
Variable DateToString : Date → string.

(** enrichTechnicianWithActivationStatus, for a document that was found.
    Active = KYC + Bank + Training; a missing KYC record makes the flag null;
    a lookup that throws is logged and the document returned as it is. *)
Definition enrichTechnicianWithActivationStatus (site : nat) (id : ObjectId)
    (technicianDoc : TechnicianProfile) : Async Enriched := λ w,
  match query faults site false (λ d, technicianKycs d !! id) w with
  | (Returned kyc, w') =>
      let flag :=
        match kyc with
        | None => JNull
        | Some kyc =>
            JBool (bool_decide (verificationStatus kyc = Kyc.approved)
                   && bankVerified kyc && trainingCompleted technicianDoc)
        end in
      (Returned {| document := technicianDoc; isActiveTechnician := flag |}, w')
  | (Thrown _, w') =>
      (Returned {| document := technicianDoc; isActiveTechnician := JUndefined |}, w')
  end.

(** getTechnicianById of the first revision; [id] is req.params.id when it is
    a valid ObjectId. *)
Definition getTechnicianById_try (id : option ObjectId) : Async (Response Enriched) :=
  match id with
  | None => mret (json 400 false "Invalid Technician ID" None)
  | Some id =>
      technician ← query faults 0 false (λ d, technicianProfiles d !! id);
      match technician with
      | None => mret (json 404 false "Technician not found" None)
      | Some technician =>
          enrichedTechnician ← enrichTechnicianWithActivationStatus 1 id technician;
          mret (json 200 true "Technician fetched successfully" (Some enrichedTechnician))
      end
  end.

Definition getTechnicianById (id : option ObjectId) (w : World)
    : Response Enriched * World :=
  match getTechnicianById_try id w with
  | (Returned res, w') => (res, w')
  | (Thrown err, w') => (json 500 false "Server error" None, w')
  end.

(** getMyTechnician of the first revision; [user] is
    req.user?.technicianProfileId when it is a valid ObjectId. *)
Definition getMyTechnician_try (user : option ObjectId) : Async (Response Enriched) :=
  match user with
  | None => mret (json 401 false "Unauthorized" None)
  | Some technicianProfileId =>
      technician ← query faults 0 false (λ d, technicianProfiles d !! technicianProfileId);
      match technician with
      | None => mret (json 404 false "Technician profile not found" None)
      | Some technician =>
          enrichedTechnician ←
            enrichTechnicianWithActivationStatus 1 technicianProfileId technician;
          mret (json 200 true "Technician fetched successfully" (Some enrichedTechnician))
      end
  end.

Definition getMyTechnician (user : option ObjectId) (w : World)
    : Response Enriched * World :=
  match getMyTechnician_try user w with
  | (Returned res, w') => (res, w')
  | (Thrown err, w') => (json 500 false "Server error" None, w')
  end.

(** !isOwner && (!technicianProfileId || technician._id !== technicianProfileId) *)
Definition accessDenied (req : DeleteRequest) (id : ObjectId) : bool :=
  negb (bool_decide (d_role req = Some "Owner"))
  && negb (bool_decide (d_technicianProfileId req = Some id)).

(** x || "" on an optional string *)
Definition orEmpty (x : option string) : string := default EmptyString x.

(** The snapshot written on the technician's bookings:
    name = `${techUser?.fname || ""} ${techUser?.lname || ""}`.trim() || "Unknown",
    mobile = techUser?.mobileNumber || "", deleted = true. *)
Definition snapshotOf (techUser : option User) : TechnicianSnapshot :=
  let name := trim (orEmpty (techUser ≫= usr_fname) +:+ " "
                    +:+ orEmpty (techUser ≫= usr_lname)) in
  {| snap_name := if bool_decide (name = EmptyString) then "Unknown" else name;
     snap_mobile := default EmptyString (usr_mobileNumber <$> techUser);
     snap_deleted := true |}.

(** ServiceBooking.updateMany({ technicianId }, { $set: the three snapshot
    fields }) *)
Definition writeSnapshots (technicianId : ObjectId) (snapshot : TechnicianSnapshot)
    (bookings : gmap positive ServiceBooking) : gmap positive ServiceBooking :=
  (λ b, if bool_decide (sb_technicianId b = Some technicianId)
        then set_technicianSnapshot snapshot b else b) <$> bookings.

(** `deleted_${userId}_${timestamp}` *)
Definition anonymizedIdOf (userId : ObjectId) (timestamp : Date) : string :=
  "deleted_" +:+ ObjectIdToString userId +:+ "_" +:+ DateToString timestamp.

(** The update document of step 4. The email is replaced only when the user
    read in step 1 had one; an ObjectId prints in lower-case hexadecimal
    digits, so the schema's setters (trim, lowercase) leave the new values as
    they are. *)
Definition anonymise (techUser : option User) (anonymizedId : string) (u : User) : User :=
  {| usr_fname := None; usr_lname := None;
     usr_email :=
       match techUser ≫= usr_email with
       | Some e => if bool_decide (e = EmptyString) then usr_email u
                   else Some (anonymizedId +:+ "@example.invalid")
       | None => usr_email u
       end;
     usr_gender := usr_gender u;
     usr_mobileNumber := anonymizedId;
     usr_status := "Deleted";
     usr_profileComplete := false;
     usr_password := None;
     usr_lastLoginAt := None |}.

(** deleteTechnician of the first revision, inside a transaction. *)
Definition deleteTechnician_try (req : DeleteRequest) : Async (Response unit) :=
  match d_id req with
  | None =>
      _ ← abortTransaction;
      mret (json 400 false "Invalid Technician ID" None)
  | Some id =>
      technician ← query faults 0 true (λ d, technicianProfiles d !! id);
      match technician with
      | None =>
          _ ← abortTransaction;
          mret (json 404 false "Technician not found" None)
      | Some technician =>
          if accessDenied req id then
            _ ← abortTransaction;
            mret (json 403 false "Access denied" None)
          else
          (* 1. Fetch technician user data for snapshot *)
          techUser ← query faults 1 true (λ d, users d !! userId technician);
          (* 2. Update all ServiceBookings with technician snapshot *)
          _ ← update faults 2 true
                (λ d, ((), set_bookings (writeSnapshots id (snapshotOf techUser)) d));
          (* 3. Delete TechnicianKyc *)
          _ ← update faults 3 true (λ d, ((), set_kycs (delete id) d));
          (* 4. Soft Delete / Anonymize User *)
          _ ← update faults 4 true
                (λ d, ((), set_users
                  (alter (anonymise techUser
                            (anonymizedIdOf (userId technician) (d_now req)))
                     (userId technician)) d));
          (* 5. Hard delete TechnicianProfile *)
          _ ← update faults 5 true (λ d, ((), set_profiles (delete id) d));
          _ ← commitTransaction faults 6;
          mret (json 200 true "Technician deleted successfully" None)
      end
  end.

(** try { ... } catch { abort if in transaction; 500 } finally { endSession } *)
Definition deleteTechnician (req : DeleteRequest) (w : World) : Response unit * World :=
  match deleteTechnician_try req (startTransaction w) with
  | (Returned res, w') => (res, endSession w')
  | (Thrown err, w') =>
      let w'' := if inTransaction w' then snd (abortTransaction w') else w' in
      (json 500 false "Server error" None, endSession w'')
  end.

(** deleteTechnician of the second revision: no transaction, the profile
    only. *)
Definition deleteTechnician2_try (req : DeleteRequest) : Async (Response unit) :=
  match d_id req with
  | None => mret (json 400 false "Invalid Technician ID" None)
  | Some id =>
      technician ← query faults 0 false (λ d, technicianProfiles d !! id);
      match technician with
      | None => mret (json 404 false "Technician not found" None)
      | Some technician =>
          if accessDenied req id then mret (json 403 false "Access denied" None)
          else
          _ ← update faults 1 false (λ d, ((), set_profiles (delete id) d));
          mret (json 200 true "Technician deleted successfully" None)
      end
  end.

Definition deleteTechnician2 (req : DeleteRequest) (w : World) : Response unit * World :=
  match deleteTechnician2_try req w with
  | (Returned res, w') => (res, w')
  | (Thrown err, w') => (json 500 false "Server error" None, w')
  end.

(** updateTechnicianLocation: Number.isFinite is applied to the body's values
    as they are, without conversion. *)
Definition updateTechnicianLocation_try (req : LocationRequest)
    : Async (Response LocationResult) :=
  match l_technicianProfileId req with
  | None => mret (json 401 false "Unauthorized" None)
  | Some technicianProfileId =>
      match l_latitude req, l_longitude req with
      | JNum (Num latitude), JNum (Num longitude) =>
          result ← handleLocationUpdate technicianProfileId latitude longitude;
          mret (json 200 true
                  (if matchCalculation result then "Location updated and jobs calculated"
                   else "Location updated (matching rate limited)")
                  (Some result))
      | _, _ => mret (json 400 false "Invalid coordinates" None)
      end
  end.

Definition updateTechnicianLocation (req : LocationRequest) (w : World)
    : Response LocationResult * World :=
  match updateTechnicianLocation_try req w with
  | (Returned res, w') => (res, w')
  | (Thrown err, w') => (json 500 false err None, w')
  end.
End Profile.
End Profile.

(** ** Controllers/technician.js: skills *)

(** A body field that may hold an array. *)
Inductive JsInput := Single (v : JsValue) | Array (l : list JsValue).



Module Skills.
Section Skills.
(** String.prototype.trim, String(n) on numbers, and the ObjectId a string
    denotes when mongoose takes it for valid, are outside the repository. *)
Variable trim : string → string.
Variable NumberToString : number → string.
Variable toObjectId : string → option ObjectId.

(** Array.from(new Set(list)): the first occurrence of each element, in
    order. *)
Fixpoint dedupeFrom (seen : list string) (l : list string) : list string :=
  match l with
  | [] => []
  | x :: l' =>
      if bool_decide (x ∈ seen) then dedupeFrom seen l'
      else x :: dedupeFrom (x :: seen) l'
  end.

(** String(v) for the values that pass filter(Boolean) *)
Definition toString (v : JsValue) : string :=
  match v with
  | JStr s => s
  | JBool b => if b then "true" else "false"
  | JNum n => NumberToString n
  | JNull => "null"
  | JUndefined => "undefined"
  end.

(** body?.serviceIds ?? body?.serviceId *)
Definition rawInput (serviceIds serviceId : JsInput) : JsInput :=
  match serviceIds with
  | Single JUndefined | Single JNull => serviceId
  | _ => serviceIds
  end.

Definition normalizeServiceIdsInput (serviceIds serviceId : JsInput) : list string :=
  let list :=
    match rawInput serviceIds serviceId with
    | Array l => l
    | Single raw => if truthy raw then [raw] else []
    end in
  let normalized :=
    map toString
      (List.filter truthy
         (map (λ v, match v with JStr s => JStr (trim s) | _ => v end) list)) in
  dedupeFrom [] normalized.


End Skills.
End Skills.

(** ** Middleware/Auth.js: authorizeRoles *)

Inductive Gate := Next | Denied (code : nat) (message : string).

Module Auth.
Section Auth.
(** String.prototype.toLowerCase, on all of Unicode, is outside the
    repository. *)
Variable toLowerCase : string → string.

(** authorizeRoles(...allowedRoles)(req, res, next); [role] is req.user.role,
    absent when req.user is. *)
Definition authorizeRoles (allowedRoles : list string) (role : option string) : Gate :=
  match role with
  | None => Denied 401 "Authentication required"
  | Some role =>
      if bool_decide (role = EmptyString) then Denied 401 "Authentication required"
      else if bool_decide (toLowerCase role ∈ map toLowerCase allowedRoles) then Next
      else Denied 403 ("Access denied: " +:+ String.concat ", " allowedRoles +:+ " only")
  end.
End Auth.
End Auth.

(** ** State predicates of the further properties *)

(** No technician holds two jobs in an active state. *)
Definition oneActiveJob (d : Db) : Prop :=
  ∀ tech id1 id2 b1 b2,
    serviceBookings d !! id1 = Some b1 → serviceBookings d !! id2 = Some b2 →
    sb_technicianId b1 = Some tech → sb_technicianId b2 = Some tech →
    activeStatus (sb_status b1) = true → activeStatus (sb_status b2) = true →
    id1 = id2.


(** What a technician's own update request [req] leaves alone between the
    store [d] before it and the store [d'] after it: the KYC records, every
    technician's trainingCompleted and workStatus, the profiles of the other
    technicians, the User documents of the other users and, unless the
    request sets availability.isOnline to true (which starts the proactive
    broadcast), the jobs and the ledger. *)
Definition ownUpdateFrame (req : UpdateRequest) (d d' : Db) : Prop :=
  technicianKycs d' = technicianKycs d
  ∧ (∀ tech,
       (trainingCompleted <$> technicianProfiles d' !! tech)
       = (trainingCompleted <$> technicianProfiles d !! tech)
       ∧ (workStatus <$> technicianProfiles d' !! tech)
         = (workStatus <$> technicianProfiles d !! tech)
       ∧ (u_technicianProfileId req ≠ Some tech →
          technicianProfiles d' !! tech = technicianProfiles d !! tech))
  ∧ (∀ uid, uid ≠ u_userId req → users d' !! uid = users d !! uid)
  ∧ (u_isOnline req ≠ JBool true →
     serviceBookings d' = serviceBookings d ∧ jobBroadcasts d' = jobBroadcasts d).

(** ** Sample data of the further properties *)

(** getTechnicianJobEligibility, as modelled above from the design document,
    run against the committed store. *)
Definition evaluateOnStore : ObjectId → Async Eligibility :=
  λ tech w, (Returned (getTechnicianJobEligibility tech (store w)), w).

(** The values of a skills request that normalizeServiceIdsInput looks at. *)
Definition suppliedValues (serviceIds serviceId : JsInput) : list JsValue :=
  match Skills.rawInput serviceIds serviceId with
  | Array l => l
  | Single raw => [raw]
  end.

(** * Properties *)

Ltac unfold_async :=
  unfold query, update, commitTransaction, abortTransaction, notify, startTransaction,
    endSession, inTransaction, visible, change, throw, mbind, mret, Async_bind, Async_ret in *.

Lemma stillOpen_spec b :
  stillOpen b = true ↔
  (sb_status b = Booking.requested ∨ sb_status b = Booking.broadcasted)
  ∧ sb_technicianId b = None.
Proof.
  unfold stillOpen.
  destruct (sb_status b), (sb_technicianId b); split; try done;
    try (by intros [[?|?] ?]); auto.
Qed.

Lemma assignable_spec id d :
  assignable id d ↔ ∃ b, serviceBookings d !! id = Some b ∧ stillOpen b = true.
Proof.
  unfold assignable. split; intros (b & Hb & H); exists b; split; try done.
  - by apply stillOpen_spec.
  - by apply stillOpen_spec in H.
Qed.

(** ** The atomic step (C1) *)







(** ** All or nothing (C3) *)

Ltac no_fault_left Hf :=
  let k := fresh "k" in
  destruct Hf as (k & ? & ?);
  do 8 (destruct k as [|k]; [first [congruence | lia]|]); lia.

Lemma Controller_all_or_nothing faults req w :
  let out := Controller.respondToJob faults req w in
  txn out.2 = None
  ∧ ((∃ k, (k ≤ 6)%nat ∧ faults k = true) →
       store out.2 = store w ∧ emitted out.2 = emitted w ∧ success out.1 = false)
  ∧ ((store out.2 = store w ∧ emitted out.2 = emitted w ∧ success out.1 = false
      ∧ code out.1 ≠ 200%nat)
     ∨ (code out.1 = 200%nat
        ∧ ∃ tech, user_technicianProfileId req = Some tech
            ∧ is_Some (List.find (sentTo (params_id req) tech) (jobBroadcasts (store w)))
            ∧ committedAccept (params_id req) tech (clock req) (store w) (store out.2))).
Proof.
  unfold Controller.respondToJob, Controller.respondToJob_try, findOneAndUpdate.
  unfold_async. cbn.
  repeat (case_match; simplify_eq/=; try (split; [done|split; [done|by left]])).
  all: split; [done|split; [intros Hf; no_fault_left Hf|right; split; [done|]]].
  all: eexists; split; [done|]; split; [by eexists|].
  all: eexists; split; [done|]; split; done.
Qed.

(** The earlier revision, in every execution: the transaction is closed; with
    a failing store call the store and the notifications are as they were and
    a response that is sent is a refusal; no response is sent only when the
    commit itself failed; and the store is untouched or holds the whole
    accept, which is answered 200. *)
Lemma Part000_all_or_nothing faults tech req w :
  let out := Part000.respondToJob faults tech req w in
  txn out.2 = None
  ∧ ((∃ k, (k ≤ 7)%nat ∧ faults k = true) →
       store out.2 = store w ∧ emitted out.2 = emitted w
       ∧ ∀ res, out.1 = Returned res → success res = false)
  ∧ (∀ e, out.1 = Thrown e → faults 7%nat = true)
  ∧ ((store out.2 = store w ∧ emitted out.2 = emitted w
      ∧ ∀ res, out.1 = Returned res → success res = false ∧ code res ≠ 200%nat)
     ∨ (∃ res, out.1 = Returned res ∧ code res = 200%nat
        ∧ is_Some (List.find (sentTo (params_id req) tech) (jobBroadcasts (store w)))
        ∧ committedAccept (params_id req) tech (clock req) (store w) (store out.2))).
Proof.
  unfold Part000.respondToJob, Part000.respondToJob_try, Part000.checkTechnicianActivation,
    findOneAndUpdate.
  unfold_async. cbn.
  repeat (case_match; simplify_eq/=;
          try (split; [done|split; [by intros; split_and!; [done|done|intros ? [= <-]]
                      |split; [by intros ? [=]
                              |left; by split_and!; [done|done|intros ? [= <-]]]]])).
  all: try (split; [done|split; [done|split; [done|left; by split_and!]]]).
  all: split; [done|split; [intros Hf; no_fault_left Hf|split; [done|right]]].
  all: eexists; split; [done|]; split; [done|]; split; [by eexists|].
  all: eexists; split; [done|]; split; done.
Qed.

(** A commit that fails in the earlier revision: nothing is stored and the
    request is left without a response. *)
Remark failed_commit_is_not_answered :
  Part000.respondToJob commitFails 7 (acceptBy 7) (worldOf sampleDb)
  = (Thrown noTransaction, worldOf sampleDb).
Proof. by vm_compute. Qed.

(** C3. The accept is all or nothing in both revisions. Whenever one of the
    awaited store calls of the handler fails, the committed store and the
    notifications are what they were and no success is answered (the earlier
    revision answers nothing at all when it is the commit that failed); in
    every execution the committed store is either untouched or holds the
    whole accept (booking assigned, winner's row accepted, the other rows
    expired), and no transaction is left open. *)
Theorem respondToJob_all_or_nothing faults tech req w :
  let out := Controller.respondToJob faults req w in
  let out0 := Part000.respondToJob faults tech req w in
  ((∃ k, (k ≤ 6)%nat ∧ faults k = true) →
     store out.2 = store w ∧ emitted out.2 = emitted w ∧ success out.1 = false)
  ∧ ((∃ k, (k ≤ 7)%nat ∧ faults k = true) →
       store out0.2 = store w ∧ emitted out0.2 = emitted w
       ∧ ∀ res, out0.1 = Returned res → success res = false)
  ∧ (∀ e, out0.1 = Thrown e → faults 7%nat = true)
  ∧ ((store out.2 = store w ∧ emitted out.2 = emitted w ∧ success out.1 = false)
     ∨ (code out.1 = 200%nat
        ∧ ∃ tech', user_technicianProfileId req = Some tech'
            ∧ committedAccept (params_id req) tech' (clock req) (store w) (store out.2)))
  ∧ ((store out0.2 = store w ∧ emitted out0.2 = emitted w
      ∧ ∀ res, out0.1 = Returned res → success res = false)
     ∨ (∃ res, out0.1 = Returned res ∧ code res = 200%nat
        ∧ committedAccept (params_id req) tech (clock req) (store w) (store out0.2)))
  ∧ txn out.2 = None ∧ txn out0.2 = None.
Proof.
  intros out out0. subst out out0.
  pose proof (Controller_all_or_nothing faults req w) as (? & ? & H1).
  pose proof (Part000_all_or_nothing faults tech req w) as (? & ? & ? & H2).
  split_and!; try assumption.
  - destruct H1 as [(? & ? & ? & ?)|(? & t & ? & ? & ?)]; [by left|right; eauto].
  - destruct H2 as [(? & ? & H2)|(res & ? & ? & ? & ?)]; [left|right; eauto].
    split_and!; [done|done|]. intros res Hres. by destruct (H2 res Hres).
Qed.

Lemma respondToJob_all_or_nothing_witness :
  let out := Controller.respondToJob expireFails (acceptBy 7) (worldOf sampleDb) in
  let out0 := Part000.respondToJob expireFails 7 (acceptBy 7) (worldOf sampleDb) in
  (store out.2 = sampleDb ∧ emitted out.2 = [] ∧ success out.1 = false)
  ∧ (store out0.2 = sampleDb ∧ emitted out0.2 = []
     ∧ ∀ res, out0.1 = Returned res → success res = false).
Proof.
  pose proof (respondToJob_all_or_nothing expireFails 7 (acceptBy 7) (worldOf sampleDb))
    as (H1 & H2 & _).
  split; [apply H1 | apply H2]; exists 5%nat; split; (lia || reflexivity).
Defined.

(** ** The settled ledger (C2) *)

Lemma filter_nil_all {A} (f : A → bool) (l : list A) :
  List.filter f l = [] ↔ ∀ x, x ∈ l → f x = false.
Proof.
  induction l as [|a l IH]; cbn.
  - split; [|done]. intros _ x Hx. by apply elem_of_nil in Hx.
  - destruct (f a) eqn:E.
    + split; [done|]. intros H. rewrite (H a) in E; [done|]. by left.
    + rewrite IH. split.
      * intros H x Hx. apply elem_of_cons in Hx as [->|Hx]; auto.
      * intros H x Hx. apply H. by right.
Qed.

Lemma rowOf_true id tech r :
  rowOf id tech r = true ↔ bookingId r = id ∧ technicianId r = tech.
Proof. unfold rowOf. by rewrite andb_true_iff, !bool_decide_eq_true. Qed.

Lemma rowOfOther_true id tech r :
  rowOfOther id tech r = true ↔ bookingId r = id ∧ technicianId r ≠ tech.
Proof.
  unfold rowOfOther.
  by rewrite andb_true_iff, negb_true_iff, bool_decide_eq_true, bool_decide_eq_false.
Qed.

Lemma sentTo_true id tech r :
  sentTo id tech r = true ↔
  bookingId r = id ∧ technicianId r = tech ∧ status r = Broadcast.sent.
Proof.
  unfold sentTo. rewrite !andb_true_iff, !bool_decide_eq_true. tauto.
Qed.

Lemma inRows_true id s r :
  bool_decide (bookingId r = id) && bool_decide (status r = s) = true ↔
  bookingId r = id ∧ status r = s.
Proof. by rewrite andb_true_iff, !bool_decide_eq_true. Qed.

Lemma filter_updateMany_untouched (keep filt : JobBroadcast → bool) upd l :
  (∀ r, filt r = true → keep r = false ∧ keep (upd r) = false) →
  List.filter keep (updateMany filt upd l) = List.filter keep l.
Proof.
  intros H. unfold updateMany. induction l as [|r l IH]; [done|]. cbn.
  destruct (filt r) eqn:Hf.
  - destruct (H r Hf) as [-> ->]. exact IH.
  - by rewrite IH.
Qed.

Lemma filter_updateOne_untouched (keep filt : JobBroadcast → bool) upd l :
  (∀ r, filt r = true → keep r = false ∧ keep (upd r) = false) →
  List.filter keep (updateOne filt upd l) = List.filter keep l.
Proof.
  intros H. induction l as [|r l IH]; [done|]. cbn.
  destruct (filt r) eqn:Hf; cbn.
  - by destruct (H r Hf) as [-> ->].
  - by rewrite IH.
Qed.

(** Settling job [id] leaves alone whatever is selected among the rows of
    the other jobs. *)
Lemma filter_settle_untouched (keep : JobBroadcast → bool) id tech l :
  (∀ r, bookingId r = id → keep r = false) →
  List.filter keep (settle id tech l) = List.filter keep l.
Proof.
  intros H. unfold settle.
  rewrite filter_updateMany_untouched, filter_updateOne_untouched; [done| |].
  - intros r [Hb _]%rowOf_true. split; apply H; done.
  - intros r [Hb _]%rowOfOther_true. split; apply H; done.
Qed.

Lemma rowsIn_nil id s l :
  (∀ r, r ∈ l → bookingId r = id → status r ≠ s) → rowsIn id s l = [].
Proof.
  unfold rowsIn. induction l as [|r l IH]; intros H; [done|]. cbn.
  destruct (bool_decide (bookingId r = id) && bool_decide (status r = s)) eqn:E.
  - apply inRows_true in E as [E1 E2]. destruct (H r); [left|done|done].
  - apply IH. intros r' Hr'. apply H. by right.
Qed.

Lemma rowsIn_nil_inv id s l r :
  rowsIn id s l = [] → r ∈ l → bookingId r = id → status r ≠ s.
Proof.
  unfold rowsIn. intros Hnil Hin Hb Hs.
  assert (In r (List.filter (λ r, bool_decide (bookingId r = id)
                                  && bool_decide (status r = s)) l)) as Hf.
  { apply filter_In. split; [by apply list_elem_of_In|by apply inRows_true]. }
  rewrite Hnil in Hf. destruct Hf.
Qed.

Lemma expire_others_clean id tech l r :
  List.filter (rowOf id tech) l = [] →
  r ∈ updateMany (rowOfOther id tech) (setStatus Broadcast.expired) l →
  bookingId r = id → status r = Broadcast.expired.
Proof.
  unfold updateMany. induction l as [|a l IH]; cbn; intros Hnil Hin Hb.
  - by apply elem_of_nil in Hin.
  - destruct (rowOf id tech a) eqn:Ha; [done|].
    apply elem_of_cons in Hin as [->|Hin]; [|by apply IH].
    destruct (rowOfOther id tech a) eqn:Ho; [done|].
    assert (rowOf id tech a = true); [|congruence].
    apply rowOf_true. split; [done|].
    destruct (decide (technicianId a = tech)) as [|Hne]; [done|].
    assert (rowOfOther id tech a = true) by by apply rowOfOther_true.
    congruence.
Qed.

(** With a single row for the pair, the two ledger writes settle the job. *)
Lemma settle_settled id tech l :
  length (List.filter (rowOf id tech) l) = 1%nat →
  settledFor id tech (settle id tech l).
Proof.
  unfold settledFor, settle. induction l as [|a l IH]; cbn; [done|].
  destruct (rowOf id tech a) eqn:Ha; cbn.
  - intros Hlen. assert (List.filter (rowOf id tech) l = []) as Hnil.
    { apply length_zero_iff_nil. lia. }
    apply rowOf_true in Ha as [Hb Ht].
    assert (setStatus Broadcast.accepted a = offer id tech Broadcast.accepted) as ->.
    { destruct a; cbn in *; by subst. }
    assert (rowOfOther id tech (offer id tech Broadcast.accepted) = false) as ->.
    { unfold rowOfOther. cbn. by rewrite (bool_decide_true (tech = tech)), andb_false_r. }
    assert (∀ s, s ≠ Broadcast.expired →
              rowsIn id s (updateMany (rowOfOther id tech)
                            (setStatus Broadcast.expired) l) = []) as Hclean.
    { intros s Hs. apply rowsIn_nil. intros r Hr Hbr Hst.
      rewrite (expire_others_clean id tech l r) in Hst; done. }
    unfold rowsIn, updateMany in *. cbn.
    rewrite !bool_decide_true by done. cbn.
    rewrite (Hclean Broadcast.accepted), (Hclean Broadcast.sent) by done.
    split; [done|]. split; [|done].
    intros r [->|Hr]%elem_of_cons Hbr; [by left|right].
    by apply (expire_others_clean id tech l r).
  - intros Hlen. destruct (IH Hlen) as (H1 & H2 & H3).
    assert (bookingId a = id → rowOfOther id tech a = true) as Hother.
    { intros Hb. apply rowOfOther_true. split; [done|]. intros Ht.
      assert (rowOf id tech a = true) by by apply rowOf_true. congruence. }
    unfold rowsIn, updateMany in *. cbn.
    destruct (decide (bookingId a = id)) as [Hb|Hb].
    + rewrite (Hother Hb). cbn. rewrite !(bool_decide_false (_ = _ :> Broadcast.status)) by done.
      rewrite !andb_false_r. split; [done|]. split; [|done].
      intros r [->|Hr]%elem_of_cons Hbr; [by right|by apply H2].
    + assert (rowOfOther id tech a = false) as ->.
      { destruct (rowOfOther id tech a) eqn:E; [|done].
        apply rowOfOther_true in E as [? _]. done. }
      rewrite !(bool_decide_false (bookingId a = id)) by done. cbn.
      split; [done|]. split; [|done].
      intros r [->|Hr]%elem_of_cons Hbr; [done|by apply H2].
Qed.

Lemma ledgerInv_singleRow d id tech :
  ledgerInv d → assignable id d → singleRow id tech (jobBroadcasts d).
Proof.
  intros Hinv Ha. destruct (Hinv id) as [_ H]. destruct (H Ha) as [Hsent Hone].
  unfold singleRow. specialize (Hone tech). unfold sentRows in Hone.
  rewrite (filter_ext_in (rowOf id tech) (sentTo id tech)); [done|].
  intros r Hr%list_elem_of_In.
  destruct (rowOf id tech r) eqn:E; unfold sentTo; fold (rowOf id tech r); rewrite E; [|done].
  apply rowOf_true in E as [Hb _]. cbn. symmetry. apply bool_decide_eq_true.
  destruct (status r) eqn:Es; [done| |].
  - exfalso. by eapply (rowsIn_nil_inv id Broadcast.accepted); [apply Hsent| | |].
  - exfalso. by eapply (rowsIn_nil_inv id Broadcast.expired); [apply Hsent| | |].
Qed.

Lemma offered_row id tech l :
  is_Some (List.find (sentTo id tech) l) → List.filter (rowOf id tech) l ≠ [].
Proof.
  intros [r Hr]. apply find_some in Hr as [Hin Hs]. intros Hnil.
  assert (In r (List.filter (rowOf id tech) l)) as Hf; [|by rewrite Hnil in Hf].
  apply filter_In. split; [done|]. apply sentTo_true in Hs as (? & ? & _).
  by apply rowOf_true.
Qed.

(** A committed accept settles the job's rows and keeps the invariant. *)
Lemma committedAccept_inv d d' id tech now :
  ledgerInv d →
  is_Some (List.find (sentTo id tech) (jobBroadcasts d)) →
  committedAccept id tech now d d' →
  settledFor id tech (jobBroadcasts d') ∧ ledgerInv d'.
Proof.
  intros Hinv Hoffer (b & Hb & Hopen & ->). cbn.
  assert (assignable id d) as Ha by (apply assignable_spec; eauto).
  assert (settledFor id tech (settle id tech (jobBroadcasts d))) as Hset.
  { apply settle_settled. pose proof (ledgerInv_singleRow d id tech Hinv Ha) as Hone.
    pose proof (offered_row id tech _ Hoffer) as Hne. unfold singleRow in Hone.
    destruct (List.filter (rowOf id tech) (jobBroadcasts d)) as [|? [|]]; cbn in *;
      [done|done|lia]. }
  split; [done|]. intros J. unfold assignable.
  change (jobBroadcasts (set_broadcasts (settle id tech)
            (set_bookings <[id:=assign tech now b]> d)))
    with (settle id tech (jobBroadcasts d)).
  change (serviceBookings (set_broadcasts (settle id tech)
            (set_bookings <[id:=assign tech now b]> d)))
    with (<[id:=assign tech now b]> (serviceBookings d)).
  destruct (decide (J = id)) as [->|Hne].
  - destruct Hset as (-> & _ & _). split; [done|].
    intros (b' & Hb' & [Hs|Hs] & _); rewrite lookup_insert_eq in Hb';
      by simplify_eq.
  - assert (∀ s, rowsIn J s (settle id tech (jobBroadcasts d)) = rowsIn J s (jobBroadcasts d))
      as Hrows.
    { intros s. apply filter_settle_untouched. intros r Hr.
      rewrite (bool_decide_false (bookingId r = J)) by congruence. done. }
    destruct (Hinv J) as [H1 H2]. rewrite Hrows. split; [done|].
    intros (b' & Hb' & Hs). rewrite lookup_insert_ne in Hb' by done.
    destruct H2 as [H2 H3]; [by exists b'|]. split.
    + intros s Hs'. rewrite Hrows. by apply H2.
    + intros T. unfold sentRows. rewrite filter_settle_untouched; [apply H3|].
      intros r Hr. unfold sentTo.
      rewrite (bool_decide_false (bookingId r = J)) by congruence. done.
Qed.

Lemma existsb_false_filter {A} (f : A → bool) l :
  existsb f l = false → List.filter f l = [].
Proof.
  induction l as [|a l IH]; cbn; [done|].
  destruct (f a); cbn; [done|]. exact IH.
Qed.

Lemma recordOne_inv d jobId tech :
  ledgerInv d → ledgerInv (set_broadcasts (λ l, recordOne jobId l tech) d).
Proof.
  intros Hinv J. destruct (Hinv J) as [H1 H2]. unfold recordOne, assignable in *.
  change (serviceBookings (set_broadcasts _ d)) with (serviceBookings d).
  change (jobBroadcasts (set_broadcasts ?f d)) with (f (jobBroadcasts d)). cbv beta.
  destruct (existsb (sentTo jobId tech) (jobBroadcasts d)) eqn:E; [done|].
  apply existsb_false_filter in E.
  assert (∀ s, s ≠ Broadcast.sent →
            rowsIn J s (jobBroadcasts d ++ [offer jobId tech Broadcast.sent])
            = rowsIn J s (jobBroadcasts d)) as Hrows.
  { intros s Hs. unfold rowsIn. rewrite List.filter_app. cbn.
    rewrite (bool_decide_false (Broadcast.sent = s)) by done.
    by rewrite andb_false_r, app_nil_r. }
  rewrite Hrows by done. split; [done|].
  intros Ha. destruct (H2 Ha) as [H3 H4]. split.
  - intros s Hs. rewrite Hrows by done. by apply H3.
  - intros T. unfold sentRows in *. rewrite List.filter_app, length_app. cbn.
    destruct (sentTo J T (offer jobId tech Broadcast.sent)) eqn:Es; cbn.
    + apply sentTo_true in Es as (Hj & Ht & _). cbn in Hj, Ht. subst.
      rewrite E. cbn. lia.
    + specialize (H4 T). lia.
Qed.

Lemma recordBroadcast_inv jobId technicianIds d :
  ledgerInv d → ledgerInv (set_broadcasts (recordBroadcast jobId technicianIds) d).
Proof.
  revert d. induction technicianIds as [|tech ts IH]; intros d Hinv.
  - intros J. destruct (Hinv J). done.
  - apply (recordOne_inv d jobId tech) in Hinv. apply IH in Hinv.
    intros J. destruct (Hinv J). done.
Qed.

(** Every event keeps the ledger invariant. *)
Lemma step_inv w e : ledgerInv (store w) → ledgerInv (store (step w e)).
Proof.
  intros Hinv. destruct e as [faults req|faults tech req|jobId ts]; cbn.
  - destruct (Controller_all_or_nothing faults req w) as (_ & _ & [(-> & _)|H]); [done|].
    destruct H as (_ & tech & _ & Ho & Hc).
    by destruct (committedAccept_inv _ _ _ _ _ Hinv Ho Hc).
  - destruct (Part000_all_or_nothing faults tech req w) as (_ & _ & _ & [(-> & _)|H]); [done|].
    destruct H as (res & _ & _ & Ho & Hc).
    by destruct (committedAccept_inv _ _ _ _ _ Hinv Ho Hc).
  - by apply recordBroadcast_inv.
Qed.

Lemma run_inv events w : ledgerInv (store w) → ledgerInv (store (run events w)).
Proof.
  unfold run. revert w. induction events as [|e es IH]; intros w Hinv; [done|].
  cbn. apply IH. by apply step_inv.
Qed.

(** A ledger of pairwise different sent rows satisfies the invariant. *)
Lemma ledgerInv_fresh d :
  NoDup (jobBroadcasts d) →
  Forall (λ r, status r = Broadcast.sent) (jobBroadcasts d) →
  ledgerInv d.
Proof.
  intros Hnd Hall J.
  assert (∀ s, s ≠ Broadcast.sent → rowsIn J s (jobBroadcasts d) = []) as Hrows.
  { intros s Hs. apply rowsIn_nil. intros r Hr _.
    rewrite (proj1 (Forall_forall _ _) Hall r Hr). done. }
  rewrite Hrows by done. split; [cbn; lia|]. intros _. split; [done|].
  intros T. unfold sentRows.
  assert (NoDup (List.filter (sentTo J T) (jobBroadcasts d))) as Hnd'.
  { apply NoDup_ListNoDup, List.NoDup_filter, NoDup_ListNoDup, Hnd. }
  destruct (List.filter (sentTo J T) (jobBroadcasts d)) as [|a [|b l]] eqn:E; cbn; [lia|lia|].
  assert (In a (List.filter (sentTo J T) (jobBroadcasts d))) as Ha by (rewrite E; by left).
  assert (In b (List.filter (sentTo J T) (jobBroadcasts d))) as Hb
    by (rewrite E; right; by left).
  apply filter_In in Ha as [_ (? & ? & ?)%sentTo_true].
  apply filter_In in Hb as [_ (? & ? & ?)%sentTo_true].
  assert (a = b) as -> by (destruct a, b; cbn in *; congruence).
  apply NoDup_cons in Hnd' as [Hnot _]. destruct Hnot. by left.
Qed.

(** *** Accepted rows *)

(** The accepted rows of job [id] after the two ledger writes are the rows
    of the winner that are accepted. *)
Lemma accepted_after_expire id tech l :
  rowsIn id Broadcast.accepted (updateMany (rowOfOther id tech) (setStatus Broadcast.expired) l)
  = List.filter (λ r, rowOf id tech r && bool_decide (status r = Broadcast.accepted)) l.
Proof.
  unfold rowsIn, updateMany. induction l as [|a l IH]; [done|]. cbn. rewrite IH.
  destruct (rowOfOther id tech a) eqn:Ho.
  - cbn. rewrite andb_false_r.
    apply rowOfOther_true in Ho as [Hb Ht].
    assert (rowOf id tech a = false) as ->; [|done].
    destruct (rowOf id tech a) eqn:E; [|done]. apply rowOf_true in E as [_ ?]. done.
  - destruct (decide (bookingId a = id)) as [Hb|Hb].
    + assert (rowOf id tech a = true) as ->.
      { apply rowOf_true. split; [done|].
        destruct (decide (technicianId a = tech)) as [|Hne]; [done|].
        assert (rowOfOther id tech a = true) by by apply rowOfOther_true. congruence. }
      by rewrite (bool_decide_true (bookingId a = id)).
    + assert (rowOf id tech a = false) as ->.
      { destruct (rowOf id tech a) eqn:E; [|done]. apply rowOf_true in E as [? _]. done. }
      by rewrite (bool_decide_false (bookingId a = id)).
Qed.

Lemma accepted_after_mark id tech l :
  List.filter (λ r, rowOf id tech r && bool_decide (status r = Broadcast.accepted)) l = [] →
  (length (List.filter (λ r, rowOf id tech r && bool_decide (status r = Broadcast.accepted))
             (updateOne (rowOf id tech) (setStatus Broadcast.accepted) l)) ≤ 1)%nat.
Proof.
  induction l as [|a l IH]; cbn; [lia|].
  destruct (rowOf id tech a) eqn:Ha; cbn.
  - destruct (bool_decide (status a = Broadcast.accepted)); [done|]. intros Hnil.
    rewrite Hnil.
    destruct (rowOf id tech (setStatus Broadcast.accepted a)
              && bool_decide (Broadcast.accepted = Broadcast.accepted)); cbn; lia.
  - rewrite Ha. cbn. exact IH.
Qed.

(** A committed accept keeps [acceptedOnce]. *)
Lemma committedAccept_acceptedOnce d d' id tech now :
  acceptedOnce d → committedAccept id tech now d d' → acceptedOnce d'.
Proof.
  intros Hinv (b & Hb & Hopen & ->) J. unfold assignable.
  change (jobBroadcasts (set_broadcasts (settle id tech)
            (set_bookings <[id:=assign tech now b]> d)))
    with (settle id tech (jobBroadcasts d)).
  change (serviceBookings (set_broadcasts (settle id tech)
            (set_bookings <[id:=assign tech now b]> d)))
    with (<[id:=assign tech now b]> (serviceBookings d)).
  destruct (decide (J = id)) as [->|Hne].
  - split.
    + unfold settle. rewrite accepted_after_expire. apply accepted_after_mark.
      destruct (Hinv id) as [_ Hnone].
      assert (rowsIn id Broadcast.accepted (jobBroadcasts d) = []) as Hnil
        by (apply Hnone, assignable_spec; eauto).
      apply (proj2 (filter_nil_all _ _)). intros r Hr.
      destruct (rowOf id tech r) eqn:E; [|done]. cbn.
      apply rowOf_true in E as [E _]. apply bool_decide_eq_false.
      by apply (rowsIn_nil_inv id Broadcast.accepted _ r Hnil).
    + intros (b' & Hb' & [Hs|Hs] & _); rewrite lookup_insert_eq in Hb'; by simplify_eq.
  - assert (rowsIn J Broadcast.accepted (settle id tech (jobBroadcasts d))
            = rowsIn J Broadcast.accepted (jobBroadcasts d)) as ->.
    { apply filter_settle_untouched. intros r Hr.
      rewrite (bool_decide_false (bookingId r = J)) by congruence. done. }
    destruct (Hinv J) as [H1 H2]. split; [done|].
    intros (b' & Hb' & Hs). rewrite lookup_insert_ne in Hb' by done.
    apply H2. by exists b'.
Qed.

(** Recording offers adds sent rows only. *)
Lemma recordBroadcast_accepted jobId technicianIds l J :
  rowsIn J Broadcast.accepted (recordBroadcast jobId technicianIds l)
  = rowsIn J Broadcast.accepted l.
Proof.
  unfold recordBroadcast. revert l.
  induction technicianIds as [|tech ts IH]; intros l; [done|].
  change (foldl (recordOne jobId) l (tech :: ts))
    with (foldl (recordOne jobId) (recordOne jobId l tech) ts).
  rewrite IH.
  unfold recordOne. destruct (existsb (sentTo jobId tech) l); [done|].
  unfold rowsIn. rewrite List.filter_app. cbn.
  by rewrite andb_false_r, app_nil_r.
Qed.

Lemma step_acceptedOnce w e : acceptedOnce (store w) → acceptedOnce (store (step w e)).
Proof.
  intros Hinv. destruct e as [faults req|faults tech req|jobId ts]; cbn.
  - destruct (Controller_all_or_nothing faults req w) as (_ & _ & [(-> & _)|H]); [done|].
    destruct H as (_ & tech & _ & _ & Hc).
    by apply (committedAccept_acceptedOnce _ _ _ _ _ Hinv Hc).
  - destruct (Part000_all_or_nothing faults tech req w) as (_ & _ & _ & [(-> & _)|H]); [done|].
    destruct H as (res & _ & _ & _ & Hc).
    by apply (committedAccept_acceptedOnce _ _ _ _ _ Hinv Hc).
  - intros J. destruct (Hinv J) as [H1 H2]. unfold assignable in *.
    change (serviceBookings (set_broadcasts _ (store w))) with (serviceBookings (store w)).
    change (jobBroadcasts (set_broadcasts ?f (store w))) with (f (jobBroadcasts (store w))).
    by rewrite recordBroadcast_accepted.
Qed.

Lemma run_acceptedOnce events w :
  acceptedOnce (store w) → acceptedOnce (store (run events w)).
Proof.
  unfold run. revert w. induction events as [|e es IH]; intros w Hinv; [done|].
  cbn. apply IH. by apply step_acceptedOnce.
Qed.

(** A successful accept through either revision settles the rows of the job
    when the winner has one row for it. *)
Lemma accept_settles id tech now d d' :
  singleRow id tech (jobBroadcasts d) →
  is_Some (List.find (sentTo id tech) (jobBroadcasts d)) →
  committedAccept id tech now d d' →
  settledFor id tech (jobBroadcasts d').
Proof.
  intros Hone Hoffer (b & Hb & Hopen & ->). cbn. apply settle_settled.
  pose proof (offered_row id tech _ Hoffer) as Hne. unfold singleRow in Hone.
  destruct (List.filter (rowOf id tech) (jobBroadcasts d)) as [|? [|]]; cbn in *;
    [done|done|lia].
Qed.

(** Counterexample to C2 as stated. In [reofferedDb] technician 7 holds an
    expired and a sent row for the open job 1: both revisions answer 200, mark
    the first row of the pair accepted and leave the sent row sent. In
    [twiceOfferedDb] the second row of the pair is accepted already: after
    the accept job 1 has two accepted rows. *)
Lemma accept_does_not_settle :
  (code (Controller.respondToJob noFaults (acceptBy 7) (worldOf reofferedDb)).1 = 200%nat
   ∧ jobBroadcasts (store (Controller.respondToJob noFaults (acceptBy 7)
                             (worldOf reofferedDb)).2)
     = [offer 1 7 Broadcast.accepted; offer 1 7 Broadcast.sent; offer 1 8 Broadcast.expired]
   ∧ ¬ settledFor 1 7 (jobBroadcasts (store (Controller.respondToJob noFaults (acceptBy 7)
                                                (worldOf reofferedDb)).2)))
  ∧ (code <$> sentBy (Part000.respondToJob noFaults 7 (acceptBy 7) (worldOf reofferedDb)).1
     = Some 200%nat
     ∧ ¬ settledFor 1 7 (jobBroadcasts (store (Part000.respondToJob noFaults 7 (acceptBy 7)
                                                  (worldOf reofferedDb)).2)))
  ∧ (code (Controller.respondToJob noFaults (acceptBy 7) (worldOf twiceOfferedDb)).1
     = 200%nat
     ∧ rowsIn 1 Broadcast.accepted
         (jobBroadcasts (store (Controller.respondToJob noFaults (acceptBy 7)
                                  (worldOf twiceOfferedDb)).2))
       = [offer 1 7 Broadcast.accepted; offer 1 7 Broadcast.accepted]).
Proof.
  split_and!; try by vm_compute.
  - intros (_ & _ & H). by vm_compute in H.
  - intros (_ & _ & H). by vm_compute in H.
Qed.

(** C2, amended. A successful accept of job J by technician T (through
    either revision, under any fault plan) marks the first row of the pair
    accepted and expires the rows of the other technicians; when T holds one
    row for J, this leaves exactly one row of J accepted, the row of T, every
    other row of J expired and none sent. Along every sequence of accepts and
    recorded offers no job has more than one accepted row, provided that
    holds at the start and no job that can still be assigned has an accepted
    row then. *)
Theorem single_accepted_broadcast :
  (∀ faults req tech w,
     user_technicianProfileId req = Some tech →
     code (Controller.respondToJob faults req w).1 = 200%nat →
     jobBroadcasts (store (Controller.respondToJob faults req w).2)
     = settle (params_id req) tech (jobBroadcasts (store w))
     ∧ (singleRow (params_id req) tech (jobBroadcasts (store w)) →
        settledFor (params_id req) tech
          (jobBroadcasts (store (Controller.respondToJob faults req w).2))))
  ∧ (∀ faults req tech w res,
       (Part000.respondToJob faults tech req w).1 = Returned res →
       code res = 200%nat →
       jobBroadcasts (store (Part000.respondToJob faults tech req w).2)
       = settle (params_id req) tech (jobBroadcasts (store w))
       ∧ (singleRow (params_id req) tech (jobBroadcasts (store w)) →
          settledFor (params_id req) tech
            (jobBroadcasts (store (Part000.respondToJob faults tech req w).2))))
  ∧ (∀ events w J,
       acceptedOnce (store w) →
       (length (rowsIn J Broadcast.accepted (jobBroadcasts (store (run events w)))) ≤ 1)%nat).
Proof.
  split_and!.
  - intros faults req tech w Hu H200.
    destruct (Controller_all_or_nothing faults req w) as (_ & _ & [(_ & _ & _ & ?)|H]); [done|].
    destruct H as (_ & tech' & Hu' & Ho & Hc). simplify_eq. split.
    + by destruct Hc as (b & _ & _ & ->).
    + intros Hone. by apply (accept_settles _ _ _ _ _ Hone Ho Hc).
  - intros faults req tech w res Hres H200.
    destruct (Part000_all_or_nothing faults tech req w) as (_ & _ & _ & [(_ & _ & Hno)|H]).
    { by destruct (Hno res Hres). }
    destruct H as (res' & _ & _ & Ho & Hc). split.
    + by destruct Hc as (b & _ & _ & ->).
    + intros Hone. by apply (accept_settles _ _ _ _ _ Hone Ho Hc).
  - intros events w J Hinv. by destruct (run_acceptedOnce events w Hinv J).
Qed.

Lemma ledgerInv_sample : ledgerInv sampleDb.
Proof.
  apply ledgerInv_fresh.
  - apply (bool_decide_unpack _). by vm_compute.
  - apply (bool_decide_unpack _). by vm_compute.
Defined.

Lemma acceptedOnce_sample : acceptedOnce sampleDb.
Proof.
  intros J. assert (rowsIn J Broadcast.accepted (jobBroadcasts sampleDb) = []) as ->;
    [|split; [cbn; lia|done]].
  apply rowsIn_nil. intros r Hr _. cbn in Hr.
  apply elem_of_cons in Hr as [->|Hr]; [done|].
  apply elem_of_cons in Hr as [->|Hr]; [done|]. by apply elem_of_nil in Hr.
Defined.

Lemma single_accepted_broadcast_witness :
  settledFor 1 7 (jobBroadcasts
    (store (Controller.respondToJob noFaults (acceptBy 7) (worldOf sampleDb)).2))
  ∧ settledFor 1 8 (jobBroadcasts
      (store (Part000.respondToJob noFaults 8 (acceptBy 8) (worldOf sampleDb)).2))
  ∧ (length (rowsIn 1 Broadcast.accepted (jobBroadcasts (store
       (run [Accept noFaults (acceptBy 7); Offer 1 [8%positive];
             AcceptEarlier noFaults 8 (acceptBy 8)] (worldOf sampleDb))))) ≤ 1)%nat.
Proof.
  split_and!.
  - apply (proj1 single_accepted_broadcast noFaults (acceptBy 7) 7%positive
             (worldOf sampleDb)); [reflexivity | by vm_compute | by vm_compute].
  - apply (proj1 (proj2 single_accepted_broadcast) noFaults (acceptBy 8) 8%positive
             (worldOf sampleDb)
             (json 200 true "Job accepted successfully"
                (Some (assign 8 1000 openJob))));
      [by vm_compute | reflexivity | by vm_compute].
  - apply (proj2 (proj2 single_accepted_broadcast)). exact acceptedOnce_sample.
Defined.

(** ** The precondition order (C4) *)

Lemma Controller_preconditions req tech w :
  user_technicianProfileId req = Some tech →
  let d := store w in
  let out := Controller.respondToJob noFaults req w in
  (hasActiveJob tech d = true →
     code out.1 = 409%nat ∧ store out.2 = d
     ∧ message out.1
       = "You already have an active job. Complete it before accepting a new one.")
  ∧ (hasActiveJob tech d = false →
     List.find (sentTo (params_id req) tech) (jobBroadcasts d) = None →
     code out.1 = 403%nat ∧ store out.2 = d
     ∧ message out.1 = "Job not assigned to you or already closed")
  ∧ (hasActiveJob tech d = false →
     is_Some (List.find (sentTo (params_id req) tech) (jobBroadcasts d)) →
     Controller.invalidResponse req = true →
     code out.1 = 400%nat ∧ store out.2 = d ∧ message out.1 = "Invalid response status").
Proof.
  intros Hu d out. subst d out.
  unfold Controller.respondToJob, Controller.respondToJob_try, noFaults.
  unfold_async. cbn. rewrite Hu. cbn. split_and!.
  - intros ->. done.
  - intros -> Hf. cbn. by rewrite Hf.
  - intros -> [j Hj] Hv. cbn. rewrite Hj. cbn. by rewrite Hv.
Qed.

Lemma Part000_preconditions req tech w :
  let d := store w in
  let out := Part000.respondToJob noFaults tech req w in
  (¬ activated tech d →
     out.1 = Returned (json 403 false Part000.notActivated None) ∧ store out.2 = d)
  ∧ (activated tech d →
     List.find (sentTo (params_id req) tech) (jobBroadcasts d) = None →
     out.1 = Returned (json 403 false "Job not assigned to this technician" None)
     ∧ store out.2 = d)
  ∧ (activated tech d →
     is_Some (List.find (sentTo (params_id req) tech) (jobBroadcasts d)) →
     Part000.notEligible (technicianProfiles d !! tech) = true →
     out.1 = Returned (json 403 false "Technician not eligible for job acceptance" None)
     ∧ store out.2 = d).
Proof.
  intros d out. subst d out.
  unfold Part000.respondToJob, Part000.respondToJob_try, Part000.checkTechnicianActivation,
    noFaults, activated.
  unfold_async. cbn. split_and!.
  - intros Hn.
    destruct (technicianKycs (store w) !! tech) as [kyc|] eqn:Hk; cbn; [|done].
    case_bool_decide as Ha; cbn; [|done].
    destruct (bankVerified kyc) eqn:Hb; cbn; [|done].
    destruct (technicianProfiles (store w) !! tech) as [t|] eqn:Ht; cbn; [|done].
    destruct (trainingCompleted t) eqn:Htr; cbn; [|done].
    destruct Hn. split; eauto.
  - intros ((kyc & Hk & Hka & Hkb) & (t & Ht & Htr)) Hf.
    rewrite Hk. cbn. rewrite Hka, Hkb. cbn. rewrite Ht. cbn. rewrite Htr. cbn.
    case_bool_decide; [|done]. cbn. by rewrite Hf.
  - intros ((kyc & Hk & Hka & Hkb) & (t & Ht & Htr)) [j Hj] He.
    rewrite Hk. cbn. rewrite Hka, Hkb. cbn. rewrite Ht. cbn. rewrite Htr. cbn.
    case_bool_decide; [|done]. cbn. rewrite Hj. cbn. rewrite Ht. rewrite Ht in He.
    by rewrite He.
Qed.

(** C4, the failing input. The owner suspends technician 7 of [sampleDb],
    to whom job 1 was offered: the technician is stored suspended and
    offline. The technician then accepts job 1 through the current
    controller: the answer is 200 and the job is assigned to the technician,
    no eligibility check having been made. The earlier revision refuses the
    same call with 403 "Technician not eligible for job acceptance" and
    changes nothing. *)
Theorem suspended_technician_accepts :
  let suspended := Technician.updateTechnicianStatus noFaults suspend7 (worldOf sampleDb) in
  let out := Controller.respondToJob noFaults (acceptBy 7) suspended.2 in
  let out0 := Part000.respondToJob noFaults 7 (acceptBy 7) suspended.2 in
  code suspended.1 = 200%nat
  ∧ (workStatus <$> technicianProfiles (store suspended.2) !! 7%positive)
    = Some Work.suspended
  ∧ onlineFlag 7 (store suspended.2) = Some false
  ∧ Part000.notEligible (technicianProfiles (store suspended.2) !! 7%positive) = true
  ∧ code out.1 = 200%nat ∧ success out.1 = true
  ∧ serviceBookings (store out.2) !! 1%positive = Some (assign 7 1000 openJob)
  ∧ out0.1 = Returned (json 403 false "Technician not eligible for job acceptance" None)
  ∧ store out0.2 = store suspended.2.
Proof. by vm_compute. Qed.

(** ** Recording offers (C6) *)

Lemma existsb_sentRows jobId tech l :
  existsb (sentTo jobId tech) l = true ↔ (1 ≤ sentRows jobId tech l)%nat.
Proof.
  unfold sentRows. split.
  - intros (r & Hin & Hr)%existsb_exists.
    assert (In r (List.filter (sentTo jobId tech) l)) as Hf by (apply filter_In; done).
    destruct (List.filter (sentTo jobId tech) l); [destruct Hf|cbn; lia].
  - intros Hlen. destruct (existsb (sentTo jobId tech) l) eqn:E; [done|].
    apply existsb_false_filter in E. rewrite E in Hlen. cbn in Hlen. lia.
Qed.

Lemma recordOne_sentRows jobId l tech tech' :
  sentRows jobId tech' (recordOne jobId l tech)
  = if decide (tech' = tech) then Nat.max 1 (sentRows jobId tech l)
    else sentRows jobId tech' l.
Proof.
  unfold recordOne. destruct (existsb (sentTo jobId tech) l) eqn:E.
  - apply existsb_sentRows in E. destruct (decide (tech' = tech)) as [->|]; lia.
  - apply existsb_false_filter in E. unfold sentRows in *.
    rewrite List.filter_app, length_app. cbn.
    destruct (decide (tech' = tech)) as [->|Hne].
    + assert (sentTo jobId tech (offer jobId tech Broadcast.sent) = true) as ->
        by (by apply sentTo_true).
      rewrite E. done.
    + assert (sentTo jobId tech' (offer jobId tech Broadcast.sent) = false) as ->.
      { destruct (sentTo jobId tech' (offer jobId tech Broadcast.sent)) eqn:Es; [|done].
        apply sentTo_true in Es as (_ & ? & _). cbn in *. congruence. }
      cbn. lia.
Qed.

Lemma recordBroadcast_sentRows jobId technicianIds l tech :
  sentRows jobId tech (recordBroadcast jobId technicianIds l)
  = if decide (tech ∈ technicianIds) then Nat.max 1 (sentRows jobId tech l)
    else sentRows jobId tech l.
Proof.
  unfold recordBroadcast. revert l.
  induction technicianIds as [|t ts IH]; intros l; [done|].
  change (foldl (recordOne jobId) l (t :: ts))
    with (foldl (recordOne jobId) (recordOne jobId l t) ts).
  rewrite IH, recordOne_sentRows.
  destruct (decide (tech = t)) as [->|Hne].
  - rewrite (decide_True (P := t ∈ t :: ts)) by left.
    destruct (decide (t ∈ ts)); lia.
  - destruct (decide (tech ∈ ts)) as [Hin|Hnin].
    + rewrite decide_True by (by right). done.
    + rewrite decide_False; [done|]. intros [?|?]%elem_of_cons; done.
Qed.

Lemma recordBroadcast_noop jobId technicianIds l :
  (∀ tech, tech ∈ technicianIds → (1 ≤ sentRows jobId tech l)%nat) →
  recordBroadcast jobId technicianIds l = l.
Proof.
  unfold recordBroadcast. induction technicianIds as [|t ts IH]; intros H; [done|].
  change (foldl (recordOne jobId) l (t :: ts))
    with (foldl (recordOne jobId) (recordOne jobId l t) ts).
  assert (recordOne jobId l t = l) as ->.
  { unfold recordOne. rewrite (proj2 (existsb_sentRows jobId t l)); [done|].
    apply H. by left. }
  apply IH. intros tech Hin. apply H. by right.
Qed.

(** C6. recordBroadcast is idempotent per (job, technician): recording the
    same candidates again changes nothing, and for every recorded technician
    who had at most one sent row for the job the ledger then holds exactly
    one sent row for the pair, after one call and after two. *)
Theorem recordBroadcast_idempotent jobId technicianIds l :
  let once := recordBroadcast jobId technicianIds l in
  let twice := recordBroadcast jobId technicianIds once in
  twice = once
  ∧ ∀ tech, tech ∈ technicianIds →
      (sentRows jobId tech l ≤ 1)%nat →
      sentRows jobId tech once = 1%nat ∧ sentRows jobId tech twice = 1%nat.
Proof.
  intros once twice.
  assert (twice = once) as Hsame.
  { subst twice once. apply recordBroadcast_noop. intros tech Hin.
    rewrite recordBroadcast_sentRows, decide_True by done. lia. }
  split; [done|]. intros tech Hin Hle. rewrite Hsame. subst once.
  rewrite recordBroadcast_sentRows, decide_True by done. lia.
Qed.

Lemma recordBroadcast_idempotent_witness :
  let once := recordBroadcast 1 [9%positive; 7%positive; 9%positive] (jobBroadcasts sampleDb) in
  let twice := recordBroadcast 1 [9%positive; 7%positive; 9%positive] once in
  sentRows 1 9 once = 1%nat ∧ sentRows 1 9 twice = 1%nat.
Proof.
  apply (proj2 (recordBroadcast_idempotent 1 [9%positive; 7%positive; 9%positive]
                  (jobBroadcasts sampleDb))).
  - apply (bool_decide_unpack _). by vm_compute.
  - vm_compute. lia.
Defined.

(** ** Candidate selection (C5) *)


Lemma getMyJobs_feedDb cs :
  Part000.getMyJobs noFaults cs (Some 7%positive) (worldOf feedDb)
  = (json 200 true "Jobs fetched successfully" (Some {[ 1%positive := openJob ]}),
     worldOf feedDb).
Proof. by vm_compute. Qed.

(** Counterexample to C5 as stated: job 2 of [feedDb] is requested,
    unassigned and has no location, job 3 is broadcasted, unassigned and has
    no location, yet the feed of technician 7 holds job 1 only, even with a
    geospatial operator that lets every location pass. *)
Lemma feed_not_as_specified :
  ¬ feedAsSpecified (Part000.getMyJobs noFaults (λ _ _ _, true) (Some 7%positive))
      (λ _, true).
Proof.
  intros H.
  specialize (H (worldOf feedDb) {[ 1%positive := openJob ]}).
  rewrite getMyJobs_feedDb in H. specialize (H eq_refl 2%positive requestedJob).
  destruct H as [_ H]. discriminate H.
  split; [done|]. unfold selectedAsSpecified. cbn. auto.
Qed.

Lemma sentBookingIds_spec tech d id :
  id ∈ Part000.sentBookingIds tech d ↔ offer id tech Broadcast.sent ∈ jobBroadcasts d.
Proof.
  unfold Part000.sentBookingIds. rewrite !list_elem_of_In, in_map_iff. split.
  - intros (r & <- & [Hin [Ht Hs]%andb_true_iff]%filter_In).
    apply bool_decide_eq_true in Ht, Hs. destruct r; cbn in *. by subst.
  - intros Hin. exists (offer id tech Broadcast.sent). split; [done|].
    apply filter_In. split; [done|]. cbn. by rewrite !bool_decide_true.
Qed.

Lemma geoFilter_spec cs technician b :
  Part000.geoFilter cs technician b = true ↔
  match storedPoint technician, sb_location b with
  | Some g, Some loc =>
      cs (coordinates g) (Part000.ofZ 10000 / Part000.ofZ 6378100)%Qc loc = true
  | _, _ => True
  end.
Proof.
  unfold Part000.geoFilter, storedPoint.
  destruct technician as [t|]; cbn; [|done].
  destruct (location t) as [g|]; cbn; [|done].
  case_bool_decide; [|done]. by destruct (sb_location b).
Qed.

Lemma getMyJobs_run cs tech w :
  activated tech (store w) →
  Part000.getMyJobs noFaults cs (Some tech) w
  = (json 200 true "Jobs fetched successfully"
       (Some (filter (λ kv : positive * ServiceBooking,
                bool_decide (kv.1 ∈ Part000.sentBookingIds tech (store w))
                && bool_decide (sb_status kv.2 = Booking.broadcasted)
                && bool_decide (sb_technicianId kv.2 = None)
                && Part000.geoFilter cs (technicianProfiles (store w) !! tech) kv.2 = true)
              (serviceBookings (store w)))), w).
Proof.
  intros ((kyc & Hk & Hka & Hkb) & (t & Ht & Htr)).
  unfold Part000.getMyJobs, Part000.getMyJobs_try, Part000.checkTechnicianActivation,
    noFaults.
  unfold_async. cbn. rewrite Hk. cbn. rewrite Hka, Hkb. cbn. rewrite Ht. cbn.
  rewrite Htr. cbn. rewrite bool_decide_true by done. cbn. rewrite Ht. done.
Qed.

Lemma getMyJobs_selection cs tech w :
  activated tech (store w) →
  ∃ jobs,
    Part000.getMyJobs noFaults cs (Some tech) w
    = (json 200 true "Jobs fetched successfully" (Some jobs), w)
    ∧ ∀ id b, jobs !! id = Some b ↔
        serviceBookings (store w) !! id = Some b
        ∧ offer id tech Broadcast.sent ∈ jobBroadcasts (store w)
        ∧ sb_status b = Booking.broadcasted
        ∧ sb_technicianId b = None
        ∧ match storedPoint (technicianProfiles (store w) !! tech), sb_location b with
          | Some g, Some loc =>
              cs (coordinates g) (Part000.ofZ 10000 / Part000.ofZ 6378100)%Qc loc = true
          | _, _ => True
          end.
Proof.
  intros Ha. eexists. split; [by apply getMyJobs_run|]. intros id b.
  rewrite map_lookup_filter_Some. cbn [fst snd].
  rewrite <- geoFilter_spec, <- sentBookingIds_spec.
  rewrite !andb_true_iff, !bool_decide_eq_true. tauto.
Qed.

Lemma getNearbyJobs_selection faults StringToNumber gn req tech w jobs id b dist :
  geoNearSound gn →
  Part000.n_technicianProfileId req = Some tech →
  result (Part000.getNearbyJobs faults StringToNumber gn req w).1 = Some jobs →
  (id, b, dist) ∈ jobs →
  serviceBookings (store w) !! id = Some b
  ∧ offer id tech Broadcast.sent ∈ jobBroadcasts (store w)
  ∧ sb_status b = Booking.broadcasted
  ∧ sb_technicianId b = None.
Proof.
  intros Hgn Hu. rewrite <- sentBookingIds_spec.
  unfold Part000.getNearbyJobs, Part000.getNearbyJobs_try, Part000.resolveLocation,
    Part000.checkTechnicianActivation.
  unfold_async. cbn. rewrite Hu. cbn.
  repeat (case_match; simplify_eq/=; try done).
  all: intros ? Hin; simplify_eq; try (by apply elem_of_nil in Hin).
  all: apply Hgn in Hin as [Hl Hq].
  all: apply andb_true_iff in Hq as [[Hq1 Hq2]%andb_true_iff Hq3].
  all: apply bool_decide_eq_true in Hq1, Hq2, Hq3; done.
Qed.

Lemma geoNearAll_sound : geoNearSound geoNearAll.
Proof.
  intros near maxDistance q m id b dist Hin. unfold geoNearAll in Hin.
  apply list_elem_of_fmap in Hin as ([id' b'] & Heq & Hin). simplify_eq/=.
  apply elem_of_map_to_list in Hin. by apply map_lookup_filter_Some in Hin.
Qed.

(** C5, amended. For an activated technician the my-jobs feed returns
    exactly the jobs that were offered to the technician by a sent
    broadcast, whose status is broadcasted, that are unassigned, and, when
    the technician has a stored Point, that lack a location or lie within the
    10 km sphere around it; a job without location is exempt from the radius
    only. The nearby-jobs feed returns only jobs offered to the technician,
    broadcasted and unassigned, among those the $geoNear stage keeps. *)
Theorem candidate_selection cs StringToNumber gn faults tech w :
  (activated tech (store w) →
   ∃ jobs,
     Part000.getMyJobs noFaults cs (Some tech) w
     = (json 200 true "Jobs fetched successfully" (Some jobs), w)
     ∧ ∀ id b, jobs !! id = Some b ↔
         serviceBookings (store w) !! id = Some b
         ∧ offer id tech Broadcast.sent ∈ jobBroadcasts (store w)
         ∧ sb_status b = Booking.broadcasted
         ∧ sb_technicianId b = None
         ∧ match storedPoint (technicianProfiles (store w) !! tech), sb_location b with
           | Some g, Some loc =>
               cs (coordinates g) (Part000.ofZ 10000 / Part000.ofZ 6378100)%Qc loc = true
           | _, _ => True
           end)
  ∧ (geoNearSound gn →
     ∀ req jobs id b dist,
       Part000.n_technicianProfileId req = Some tech →
       result (Part000.getNearbyJobs faults StringToNumber gn req w).1 = Some jobs →
       (id, b, dist) ∈ jobs →
       serviceBookings (store w) !! id = Some b
       ∧ offer id tech Broadcast.sent ∈ jobBroadcasts (store w)
       ∧ sb_status b = Booking.broadcasted
       ∧ sb_technicianId b = None).
Proof.
  split; [apply getMyJobs_selection|].
  intros Hgn req jobs id b dist Hu Hres Hin.
  by apply (getNearbyJobs_selection faults StringToNumber gn req tech w jobs id b dist).
Qed.

Lemma activated_feedDb : activated 7 feedDb.
Proof. split; [exists verifiedKyc | exists approvedOnline]; by vm_compute. Defined.

Lemma candidate_selection_witness :
  (∃ jobs,
     Part000.getMyJobs noFaults (λ _ _ _, false) (Some 7%positive) (worldOf feedDb)
     = (json 200 true "Jobs fetched successfully" (Some jobs), worldOf feedDb)
     ∧ ∀ id b, jobs !! id = Some b ↔
         serviceBookings feedDb !! id = Some b
         ∧ offer id 7 Broadcast.sent ∈ jobBroadcasts feedDb
         ∧ sb_status b = Booking.broadcasted
         ∧ sb_technicianId b = None
         ∧ match storedPoint (technicianProfiles feedDb !! 7%positive), sb_location b with
           | Some g, Some loc => false = true
           | _, _ => True
           end)
  ∧ (serviceBookings feedDb !! 1%positive = Some openJob
     ∧ offer 1 7 Broadcast.sent ∈ jobBroadcasts feedDb
     ∧ sb_status openJob = Booking.broadcasted
     ∧ sb_technicianId openJob = None).
Proof.
  pose proof (candidate_selection (λ _ _ _, false) (λ _, NaN) geoNearAll noFaults
                7%positive (worldOf feedDb)) as [H1 H2].
  split; [exact (H1 activated_feedDb)|].
  apply (H2 geoNearAll_sound nearbyBy7
           [(1%positive, openJob, Num (Part000.ofZ 0))] 1%positive openJob
           (Num (Part000.ofZ 0))); [reflexivity | by vm_compute | by left].
Defined.

(** ** Where a nearby-jobs call searches (C8) *)

Lemma activated_locatedDb tech :
  tech = 7%positive ∨ tech = 8%positive → activated tech locatedDb.
Proof.
  intros [->| ->]; (split; [exists verifiedKyc | eexists]; by vm_compute).
Defined.

(** Where the search runs, for an activated technician: around
    Number(latitude), Number(longitude) when both are finite; otherwise around
    the stored Point; there is no third place. *)
Lemma resolveLocation_run StringToNumber req tech w :
  activated tech (store w) →
  let lat := Part000.Number StringToNumber (Part000.latitude req) in
  let lng := Part000.Number StringToNumber (Part000.longitude req) in
  Part000.resolveLocation noFaults StringToNumber tech req w
  = (Returned
       (if isFinite lat && isFinite lng then inr [Some lng; Some lat]
        else match storedPoint (technicianProfiles (store w) !! tech) with
             | Some g => inr [coordinates g !! 0%nat; coordinates g !! 1%nat]
             | None => inl (json 400 false Part000.locationNotFound None)
             end), w).
Proof.
  intros (_ & (t & Ht & _)). cbn zeta. unfold storedPoint. rewrite Ht. cbn.
  unfold Part000.resolveLocation, noFaults. unfold_async. cbn.
  destruct (isFinite (Part000.Number StringToNumber (Part000.latitude req))); cbn;
    [destruct (isFinite (Part000.Number StringToNumber (Part000.longitude req))); cbn;
       [done|]|].
  all: rewrite Ht; cbn; destruct (location t) as [g|]; cbn; [|done]; by case_bool_decide.
Qed.

(** What a nearby-jobs call of an activated technician answers once the
    place of the search is resolved: nothing when no job is on offer to the
    technician, else what $geoNear finds around that place, within maxDist,
    among the jobs on offer that are broadcasted and unassigned. *)
Lemma getNearbyJobs_run StringToNumber gn req tech w near :
  Part000.n_technicianProfileId req = Some tech →
  activated tech (store w) →
  Part000.resolveLocation noFaults StringToNumber tech req w = (Returned (inr near), w) →
  Part000.getNearbyJobs noFaults StringToNumber gn req w
  = (if bool_decide (Part000.sentBookingIds tech (store w) = []) then
       json 200 true "No jobs available" (Some [])
     else
       json 200 true "Nearby jobs fetched successfully"
         (Some (gn near (Part000.maxDist StringToNumber (Part000.radius req))
                  (nearbyQuery (Part000.sentBookingIds tech (store w)))
                  (serviceBookings (store w)))), w).
Proof.
  intros Hu ((kyc & Hk & Hka & Hkb) & (t & Ht & Htr)) Hres.
  unfold Part000.getNearbyJobs, Part000.getNearbyJobs_try. rewrite Hu.
  unfold mbind at 1, Async_bind at 1.
  assert (Part000.checkTechnicianActivation noFaults 0 tech w
          = (Returned {| Part000.isActive := true;
                         Part000.activationMessage := "Technician account is active" |}, w))
    as ->.
  { unfold Part000.checkTechnicianActivation, noFaults. unfold_async. cbn.
    rewrite Hk. cbn. rewrite Hka, Hkb. cbn. rewrite Ht. cbn. by rewrite Htr. }
  cbn. unfold mbind at 1, Async_bind at 1. rewrite Hres.
  unfold noFaults. unfold_async. cbn. by case_bool_decide.
Qed.

(** C8, the failing input. Technician 7 of [locatedDb] is stored at
    [77, 12] and sends latitude and longitude null, or empty strings:
    Number(null) and Number("") are 0, so the call does not fall back to the
    stored point but searches around [0, 0], whatever the $geoNear operator
    and the string conversion are. The same call without the two fields
    searches around the stored point. Technician 8, who has no stored point,
    is searched for around [0, 0] as well, where a call without the fields
    is answered 400. *)
Theorem null_coordinates_search_at_origin StringToNumber gn :
  let answer near :=
    (json 200 true "Nearby jobs fetched successfully"
       (Some (gn near (Num (Part000.ofZ 20000)) (nearbyQuery [1%positive])
                (serviceBookings locatedDb))), worldOf locatedDb) in
  let nearby tech latitude longitude :=
    Part000.getNearbyJobs noFaults StringToNumber gn (nearbyAt tech latitude longitude)
      (worldOf locatedDb) in
  storedPoint (technicianProfiles locatedDb !! 7%positive) = Some (pointAt 77 12)
  ∧ storedPoint (technicianProfiles locatedDb !! 8%positive) = None
  ∧ nearby 7%positive JNull JNull = answer [Some (Num 0); Some (Num 0)]
  ∧ nearby 7%positive (JStr "") (JStr "") = answer [Some (Num 0); Some (Num 0)]
  ∧ nearby 7%positive JUndefined JUndefined
    = answer [Some (Num (Part000.ofZ 77)); Some (Num (Part000.ofZ 12))]
  ∧ nearby 8%positive JNull JNull = answer [Some (Num 0); Some (Num 0)]
  ∧ nearby 8%positive JUndefined JUndefined
    = (json 400 false Part000.locationNotFound None, worldOf locatedDb).
Proof.
  cbn zeta. split_and!; [by vm_compute | by vm_compute |..].
  - rewrite (getNearbyJobs_run _ _ _ 7%positive _ [Some (Num 0); Some (Num 0)]);
      [done | done | by apply activated_locatedDb; left |].
    by rewrite resolveLocation_run by (by apply activated_locatedDb; left).
  - rewrite (getNearbyJobs_run _ _ _ 7%positive _ [Some (Num 0); Some (Num 0)]);
      [done | done | by apply activated_locatedDb; left |].
    by rewrite resolveLocation_run by (by apply activated_locatedDb; left).
  - rewrite (getNearbyJobs_run _ _ _ 7%positive _
               [Some (Num (Part000.ofZ 77)); Some (Num (Part000.ofZ 12))]);
      [done | done | by apply activated_locatedDb; left |].
    by rewrite resolveLocation_run by (by apply activated_locatedDb; left).
  - rewrite (getNearbyJobs_run _ _ _ 8%positive _ [Some (Num 0); Some (Num 0)]);
      [done | done | by apply activated_locatedDb; right |].
    by rewrite resolveLocation_run by (by apply activated_locatedDb; right).
  - by vm_compute.
Qed.

(** ** The two radii (C9) *)





(** ** Going online (C7) *)

Lemma checks_passed tech d t kyc :
  technicianProfiles d !! tech = Some t →
  negb (trainingCompleted t) = false →
  negb (bool_decide (workStatus t = Work.approved)) = false →
  technicianKycs d !! tech = Some kyc →
  negb (bool_decide (verificationStatus kyc = Kyc.approved)) = false →
  mayGoOnline tech d.
Proof.
  intros Ht Htr%negb_false_iff Hw%negb_false_iff%bool_decide_eq_true Hk
    Hv%negb_false_iff%bool_decide_eq_true.
  split; eauto.
Qed.

(** The first revision, from the source alone. *)
Lemma updateTechnician_gate faults bc uv req tech w :
  u_technicianProfileId req = Some tech →
  let out := Technician.updateTechnician faults bc uv req w in
  (truthy (u_isOnline req) = true → ¬ mayGoOnline tech (store w) →
     success out.1 = false ∧ store out.2 = store w)
  ∧ (onlineFlag tech (store w) = Some false →
     onlineFlag tech (store out.2) = Some true → mayGoOnline tech (store w)).
Proof.
  intros Hu.
  unfold Technician.updateTechnician, Technician.updateTechnician_try,
    Technician.withTransaction, Technician.goOnline, Technician.save,
    Technician.findByIdAndUpdateUser, onlineFlag.
  unfold_async. cbn. rewrite Hu. cbn.
  repeat (case_match; simplify_eq/=; try done).
  all: split.
  all: try (intros ? Hn; exfalso; apply Hn; eapply checks_passed; eassumption).
  all: try (intros _ _; eapply checks_passed; eassumption).
  all: try (intros Hf Ht'; rewrite lookup_insert_eq in Ht'; cbn in Ht';
            first [ eapply checks_passed; eassumption | discriminate
                  | match goal with H : _ !! _ = Some _ |- _ => rewrite H in Hf end;
                    cbn in Hf; congruence ]).
  all: try (intros ?; discriminate).
  all: try (intros ? _; destruct (u_isOnline req); cbn in *; discriminate).
  all: try done.
  all: try (intros Hf Ht'; congruence).
  all: try (exfalso;
            match goal with
            | H : bool_decide (?v = JBool true) = true, H' : truthy ?v = false |- _ =>
                apply bool_decide_eq_true in H; rewrite H in H'; discriminate H'
            end).
Qed.

Lemma mayGoOnline_dec tech d : mayGoOnline tech d ∨ ¬ mayGoOnline tech d.
Proof.
  unfold mayGoOnline.
  destruct (technicianProfiles d !! tech) as [t|] eqn:Ht;
    [|right; by intros [(? & ? & _) _]].
  destruct (technicianKycs d !! tech) as [kyc|] eqn:Hk;
    [|right; by intros [_ (? & ? & _)]].
  destruct (trainingCompleted t) eqn:Htr;
    [|right; intros [(? & ? & ? & _) _]; simplify_eq; congruence].
  destruct (decide (workStatus t = Work.approved)) as [Hw|Hw];
    [|right; intros [(? & ? & _ & ?) _]; simplify_eq; congruence].
  destruct (decide (verificationStatus kyc = Kyc.approved)) as [Hv|Hv];
    [|right; intros [_ (? & ? & ?)]; simplify_eq; congruence].
  left. split; eauto.
Qed.

(** The gate of the second revision, for an evaluator that reports the
    failing conditions: it leaves the world as it is; it refuses only an
    offline technician who asks to go online; and it lets such a technician
    pass only when the account-level conditions hold. *)
Lemma goOnline2_gate ev tech v t w :
  evaluatorReports ev →
  ∃ r, Technician.goOnline2 ev tech v t w = (r, w)
    ∧ match r with
      | Returned (inl res) =>
          success res = false ∧ code res = 403%nat
          ∧ truthy v = true ∧ isOnline t = false
      | Returned (inr t') =>
          t' = (if bool_decide (v ≠ JUndefined) then set_isOnline (truthy v) t else t)
          ∧ (truthy v = true → isOnline t = false → mayGoOnline tech (store w))
      | Thrown _ => truthy v = true ∧ isOnline t = false
      end.
Proof.
  intros Hev. unfold Technician.goOnline2.
  destruct (decide (v = JUndefined)) as [->|Hv].
  { rewrite bool_decide_false by (by intros H; apply H). eexists. split; [done|].
    split; [done|]. done. }
  rewrite (bool_decide_true _ Hv).
  destruct (truthy v) eqn:Htr; cbn;
    [|eexists; split; [done|]; split; [done|]; done].
  destruct (isOnline t) eqn:Hon; cbn;
    [eexists; split; [done|]; split; [done|]; done|].
  unfold mbind, Async_bind, mret, Async_ret.
  destruct (Hev tech w) as [Hw He].
  destruct (ev tech w) as [[e|err] w'] eqn:E; cbn in *; subst w'.
  - destruct (negb (eligible e) && negb (bool_decide (Technician.barriersOf e = [])))
      eqn:Hb.
    + eexists. split; [done|]. done.
    + eexists. split; [done|]. split; [done|]. intros _ _.
      destruct (mayGoOnline_dec tech (store w)) as [|Hn]; [done|].
      destruct (He e eq_refl Hn) as (Hel & r & Hr & Hne). rewrite Hel in Hb. cbn in Hb.
      apply negb_false_iff, bool_decide_eq_true in Hb.
      apply (proj1 (filter_nil_all _ _)) with (x := r) in Hb; [|done].
      by rewrite bool_decide_false in Hb.
  - by eexists.
Qed.

#[local] Opaque Technician.goOnline2.

(** The second revision, for an evaluator that reports the failing
    conditions. The user fields of the request are written before the gate is
    asked, so a refusal leaves everything but the caller's User document as
    it was. *)
Lemma updateTechnician2_gate faults bc ev uv req tech w :
  u_technicianProfileId req = Some tech →
  evaluatorReports ev →
  let out2 := Technician.updateTechnician2 faults bc ev uv req w in
  (truthy (u_isOnline req) = true → onlineFlag tech (store w) = Some false →
   ¬ mayGoOnline tech (store w) →
     success out2.1 = false
     ∧ serviceBookings (store out2.2) = serviceBookings (store w)
     ∧ jobBroadcasts (store out2.2) = jobBroadcasts (store w)
     ∧ technicianProfiles (store out2.2) = technicianProfiles (store w)
     ∧ technicianKycs (store out2.2) = technicianKycs (store w)
     ∧ ∀ uid, uid ≠ u_userId req → users (store out2.2) !! uid = users (store w) !! uid)
  ∧ (onlineFlag tech (store w) = Some false →
     onlineFlag tech (store out2.2) = Some true → mayGoOnline tech (store w)).
Proof.
  intros Hu Hev.
  unfold Technician.updateTechnician2, Technician.updateTechnician2_try,
    Technician.save, Technician.findByIdAndUpdateUser, onlineFlag.
  unfold_async. cbn. rewrite Hu. cbn.
  repeat (case_match; simplify_eq/=; try done).
  all: repeat match goal with
         | H : Technician.goOnline2 ?ev ?tech ?v ?t ?w = _ |- _ =>
             let r := fresh "r" in
             let Hr := fresh "Hr" in
             let Hs := fresh "Hs" in
             destruct (goOnline2_gate ev tech v t w Hev) as (r & Hr & Hs);
             rewrite H in Hr; clear H; simplify_eq/=
         end.
  all: (split;
    [intros Ht Hf Hn; try (split_and!; try done; intros; by rewrite lookup_alter_ne)
    |intros Hf Ht; try congruence]).
  all: try (rewrite ?lookup_insert_eq in *; simplify_eq/=; done).
  all: try (destruct_and?; split_and!; try done; intros; by rewrite ?lookup_alter_ne).
  all: destruct_and?; simplify_eq/=.
  all: repeat match goal with
         | H : technicianProfiles _ !! ?tech = Some _,
           Hf : isOnline <$> technicianProfiles _ !! ?tech = _ |- _ =>
             rewrite H in Hf; simplify_eq/=
         end.
  all: try (exfalso;
            match goal with
            | Hn : ¬ _, Hs : _ → _ → mayGoOnline _ _ |- _ => by apply Hn, Hs
            end).
  all: try (match goal with
            | Hs : _ → _ → mayGoOnline _ _ |- _ => apply Hs; [|done]
            end;
            match goal with
            | H : bool_decide (_ = JBool true) = true |- _ =>
                apply bool_decide_eq_true in H; by rewrite H
            end).
  all: rewrite lookup_insert_eq in Ht.
  all: match goal with
       | Hs : _ → _ → mayGoOnline _ _ |- _ => apply Hs; [|done]
       end.
  all: case_bool_decide; simplify_eq/=; congruence.
Qed.

#[local] Transparent Technician.goOnline2.

(** The evaluator of the design document, run on the committed store, is one
    that reports the failing conditions. *)
Lemma evaluateOnStore_reports : evaluatorReports evaluateOnStore.
Proof.
  intros tech w. split; [done|]. intros e [= <-] Hn.
  unfold getTechnicianJobEligibility. cbn.
  destruct (bool_decide (verificationStatus <$> _ = _)) eqn:Hk;
    destruct (bool_decide (trainingCompleted <$> _ = _)) eqn:Ht;
    destruct (bool_decide (workStatus <$> _ = _)) eqn:Hw.
  1: { exfalso. apply Hn.
       apply bool_decide_eq_true in Hk, Ht, Hw.
       destruct (technicianProfiles (store w) !! tech) as [t|] eqn:Hpt; [|done].
       destruct (technicianKycs (store w) !! tech) as [k|] eqn:Hpk; [|done].
       simplify_eq/=. split; eexists; split_and!; done. }
  all: destruct (bool_decide (bankVerified <$> _ = _));
    destruct (bool_decide (isOnline <$> _ = _));
    destruct (hasActiveJob tech (store w)); cbn.
  all: split; [done|].
  all: first [ by exists "kyc"; split; [set_solver|]
             | by exists "training"; split; [set_solver|]
             | by exists "work_status"; split; [set_solver|] ].
Qed.

Lemma notApprovedDb_may_not : ¬ mayGoOnline 7 notApprovedDb.
Proof. intros [(t & Ht & _ & Hw) _]. vm_compute in Ht. by simplify_eq. Defined.

(** C7. A technician's stored isOnline flag turns from false to true only
    when training is completed, the work-status is approved and the KYC
    verification is approved in the store at that moment, and a request to go
    online while one of these fails is refused with the flag left false. In
    the first revision of updateTechnician this holds of the source alone, and
    the refused request leaves the whole store as it was. The second revision
    asks getTechnicianJobEligibility, which is not among the sources: for
    every evaluator that only reads and reports a failing account-level
    condition with a reason other than "offline", the refused request of an
    offline technician leaves the flag false, and the profiles, the KYC
    records, the jobs and the ledger as they were; the User document of the
    caller, written before the gate is asked, is the only thing it may have
    changed. *)
Theorem online_gate faults bc ev uv req tech w :
  u_technicianProfileId req = Some tech →
  let out := Technician.updateTechnician faults bc uv req w in
  let out2 := Technician.updateTechnician2 faults bc ev uv req w in
  (truthy (u_isOnline req) = true → ¬ mayGoOnline tech (store w) →
     success out.1 = false ∧ store out.2 = store w)
  ∧ (onlineFlag tech (store w) = Some false →
     onlineFlag tech (store out.2) = Some true → mayGoOnline tech (store w))
  ∧ (evaluatorReports ev →
     (truthy (u_isOnline req) = true → onlineFlag tech (store w) = Some false →
      ¬ mayGoOnline tech (store w) →
        success out2.1 = false
        ∧ onlineFlag tech (store out2.2) = Some false
        ∧ technicianProfiles (store out2.2) = technicianProfiles (store w)
        ∧ technicianKycs (store out2.2) = technicianKycs (store w)
        ∧ serviceBookings (store out2.2) = serviceBookings (store w)
        ∧ jobBroadcasts (store out2.2) = jobBroadcasts (store w)
        ∧ ∀ uid, uid ≠ u_userId req →
            users (store out2.2) !! uid = users (store w) !! uid)
     ∧ (onlineFlag tech (store w) = Some false →
        onlineFlag tech (store out2.2) = Some true → mayGoOnline tech (store w))).
Proof.
  intros Hu out out2.
  destruct (updateTechnician_gate faults bc uv req tech w Hu) as [H1 H2].
  split; [exact H1|]. split; [exact H2|]. intros Hev.
  destruct (updateTechnician2_gate faults bc ev uv req tech w Hu Hev) as [H3 H4].
  split; [|exact H4]. intros Ht Hf Hn.
  destruct (H3 Ht Hf Hn) as (Hs & Hb & Hl & Hp & Hk & Hus).
  split_and!; try done. unfold onlineFlag, out2 in *. by rewrite Hp.
Qed.

Lemma online_gate_witness :
  let out := Technician.updateTechnician noFaults noBroadcast sampleUserUpdate
               (goOnlineBy 7) (worldOf notApprovedDb) in
  let out2 := Technician.updateTechnician2 noFaults noBroadcast evaluateOnStore
                sampleUserUpdate (goOnlineBy 7) (worldOf notApprovedDb) in
  (success out.1 = false ∧ store out.2 = notApprovedDb)
  ∧ (success out2.1 = false ∧ onlineFlag 7 (store out2.2) = Some false)
  ∧ mayGoOnline 7 offlineDb.
Proof.
  pose proof (online_gate noFaults noBroadcast evaluateOnStore sampleUserUpdate
                (goOnlineBy 7) 7%positive (worldOf notApprovedDb) eq_refl)
    as (H1 & _ & H2).
  pose proof (online_gate noFaults noBroadcast evaluateOnStore sampleUserUpdate
                (goOnlineBy 7) 7%positive (worldOf offlineDb) eq_refl)
    as (_ & _ & H3).
  split; [|split].
  - apply H1; [reflexivity | exact notApprovedDb_may_not].
  - destruct (H2 evaluateOnStore_reports) as [H _].
    destruct H as (Hs & Hf & _); [reflexivity | reflexivity | exact notApprovedDb_may_not|].
    by split.
  - destruct (H3 evaluateOnStore_reports) as [_ H]. apply H; by vm_compute.
Defined.

(** In the second revision the user fields of a refused request are stored:
    the request of technician 7, whose work-status is pending, to go online
    with a new gender is answered 403 and the gender is written. *)
Remark refused_request_writes_user :
  let req := {| u_technicianProfileId := Some 7%positive; u_userId := 70%positive;
                u_user := Some {| f_fname := JUndefined; f_lname := JUndefined;
                                  f_email := JUndefined; f_gender := JStr "Other";
                                  f_mobileNumber := JUndefined; f_status := JUndefined;
                                  f_profileComplete := JUndefined |};
                u_body := noUserFields; u_skillsInvalid := false;
                u_isOnline := JBool true; u_location := None |} in
  let out2 := Technician.updateTechnician2 noFaults noBroadcast evaluateOnStore
                sampleUserUpdate req (worldOf notApprovedDb) in
  code out2.1 = 403%nat
  ∧ (usr_gender <$> users notApprovedDb !! 70%positive) ≠ Some (Some "Other")
  ∧ (usr_gender <$> users (store out2.2) !! 70%positive) = Some (Some "Other").
Proof. by vm_compute. Qed.

(** The second revision asks the evaluator only of a technician who is
    offline: its request of a technician already online is answered without
    the conditions being looked at. *)
Remark online_technician_is_not_asked ev tech v t w :
  truthy v = true → isOnline t = true →
  Technician.goOnline2 ev tech v t w = (Returned (inr (set_isOnline true t)), w).
Proof.
  intros Hv Ht. unfold Technician.goOnline2. rewrite Hv, Ht. cbn.
  case_bool_decide as Hu; [done|].
  by rewrite Hu in Hv.
Qed.

(** ** Losing a condition while online (C10) *)

(** updateTechnicianStatus with workStatus "suspended" stores the technician
    offline. *)
Lemma suspend_forces_offline faults req tech w t :
  s_technicianId req = Some tech →
  s_workStatus req = JStr "suspended" →
  (Technician.updateTechnicianStatus faults req w).1
    = json 200 true "Technician status updated successfully" (Some t) →
  technicianProfiles (store (Technician.updateTechnicianStatus faults req w).2) !! tech
    = Some t
  ∧ workStatus t = Work.suspended ∧ isOnline t = false.
Proof.
  intros Hu Hw.
  unfold Technician.updateTechnicianStatus, Technician.updateTechnicianStatus_try,
    Technician.save.
  unfold_async. cbn. rewrite Hu, Hw. cbn.
  repeat (case_match; simplify_eq/=; try done).
  all: intros; simplify_eq; by rewrite lookup_insert_eq.
Qed.

(** updateTechnicianTraining with trainingCompleted false stores the
    technician offline. *)
Lemma training_withdrawn_forces_offline faults req tech w t :
  t_technicianId req = Some tech →
  t_trainingCompleted req = JBool false →
  code (Technician.updateTechnicianTraining faults req w).1 = 200%nat →
  result (Technician.updateTechnicianTraining faults req w).1 = Some t →
  technicianProfiles (store (Technician.updateTechnicianTraining faults req w).2) !! tech
    = Some t
  ∧ trainingCompleted t = false ∧ isOnline t = false.
Proof.
  intros Hu Hw.
  unfold Technician.updateTechnicianTraining, Technician.updateTechnicianTraining_try,
    Technician.save.
  unfold_async. cbn. rewrite Hu, Hw. cbn.
  repeat (case_match; simplify_eq/=; try done).
  all: intros; simplify_eq; by rewrite lookup_insert_eq.
Qed.

(** C10, the failing input. The owner withdraws the training of technician 7
    of [sampleDb], who is online, through updateTechnicianStatus: the call
    succeeds, training is stored as not completed, and the technician is
    still online. The same withdrawal through updateTechnicianTraining
    stores the technician offline. *)
Theorem updateTechnicianStatus_leaves_online :
  let out := Technician.updateTechnicianStatus noFaults withdrawTraining (worldOf sampleDb) in
  let out' := Technician.updateTechnicianTraining noFaults withdrawTrainingDirectly
                (worldOf sampleDb) in
  onlineFlag 7 sampleDb = Some true
  ∧ code out.1 = 200%nat
  ∧ technicianProfiles (store out.2) !! 7%positive
    = Some {| userId := 70%positive; trainingCompleted := false;
              workStatus := Work.approved; isOnline := true; location := None |}
  ∧ code out'.1 = 200%nat
  ∧ technicianProfiles (store out'.2) !! 7%positive
    = Some {| userId := 70%positive; trainingCompleted := false;
              workStatus := Work.approved; isOnline := false; location := None |}.
Proof. by vm_compute. Qed.

(** * Further properties *)

(** ** One winner over time *)

(** A booking that is no longer open is left alone by every event. *)
Lemma step_keeps_closed w e id b :
  serviceBookings (store w) !! id = Some b → stillOpen b = false →
  serviceBookings (store (step w e)) !! id = Some b.
Proof.
  intros Hb Hclosed.
  assert (∀ tech now d', committedAccept id tech now (store w) d' → False) as Hno.
  { intros tech now d' (b' & Hb' & Hopen & _). congruence. }
  assert (∀ id' tech now d', committedAccept id' tech now (store w) d' →
            serviceBookings d' !! id = Some b) as Hother.
  { intros id' tech now d' Hc. destruct (decide (id' = id)) as [->|Hne].
    - destruct (Hno _ _ _ Hc).
    - destruct Hc as (b' & _ & _ & ->). cbn. by rewrite lookup_insert_ne. }
  destruct e as [faults req|faults tech req|jobId ts]; cbn; [| |done].
  - destruct (Controller_all_or_nothing faults req w) as (_ & _ & [(-> & _)|H]); [done|].
    destruct H as (_ & tech & _ & _ & Hc). by eapply Hother.
  - destruct (Part000_all_or_nothing faults tech req w) as (_ & _ & _ & [(-> & _)|H]); [done|].
    destruct H as (res & _ & _ & _ & Hc). by eapply Hother.
Qed.

Lemma run_keeps_closed events w id b :
  serviceBookings (store w) !! id = Some b → stillOpen b = false →
  serviceBookings (store (run events w)) !! id = Some b.
Proof.
  unfold run. revert w. induction events as [|e es IH]; intros w Hb Hc; [done|].
  cbn. apply IH; [|done]. by apply step_keeps_closed.
Qed.

Lemma closed_never_accepted faults tech req w b :
  serviceBookings (store w) !! params_id req = Some b → stillOpen b = false →
  code (Controller.respondToJob faults req w).1 ≠ 200%nat
  ∧ ∀ res, (Part000.respondToJob faults tech req w).1 = Returned res → code res ≠ 200%nat.
Proof.
  intros Hb Hclosed. split.
  - destruct (Controller_all_or_nothing faults req w) as (_ & _ & [(_ & _ & _ & ?)|H]); [done|].
    destruct H as (_ & t & _ & _ & (b' & Hb' & Hopen & _)). congruence.
  - intros res Hres.
    destruct (Part000_all_or_nothing faults tech req w) as (_ & _ & _ & [(_ & _ & H)|H]).
    + by apply H.
    + destruct H as (res' & _ & _ & _ & (b' & Hb' & Hopen & _)). congruence.
Qed.

(** X1. Single winner over time: once respondToJob has answered 200 for a
    job, the job stays assigned to that technician through every later
    sequence of accepts and recorded offers, and no later respondToJob call
    for the job, of either revision, by any technician and under any fault
    plan, answers 200 (the earlier revision either sends another response or
    none). *)
Theorem single_winner faults req tech w events :
  user_technicianProfileId req = Some tech →
  code (Controller.respondToJob faults req w).1 = 200%nat →
  let w1 := run events (Controller.respondToJob faults req w).2 in
  (sb_technicianId <$> serviceBookings (store w1) !! params_id req) = Some (Some tech)
  ∧ ∀ faults' tech' req',
      params_id req' = params_id req →
      code (Controller.respondToJob faults' req' w1).1 ≠ 200%nat
      ∧ ∀ res, (Part000.respondToJob faults' tech' req' w1).1 = Returned res →
          code res ≠ 200%nat.
Proof.
  intros Hu H200 w1.
  destruct (Controller_all_or_nothing faults req w) as (_ & _ & [(_ & _ & _ & ?)|H]); [done|].
  destruct H as (_ & t & Hu' & _ & (b & Hb & Hopen & Hd)). simplify_eq.
  assert (serviceBookings (store w1) !! params_id req
          = Some (assign tech (clock req) b)) as Hw1.
  { subst w1. apply run_keeps_closed; [|done]. rewrite Hd. cbn. apply lookup_insert_eq. }
  split; [by rewrite Hw1|].
  intros faults' tech' req' Hid.
  apply (closed_never_accepted faults' tech' req' w1 (assign tech (clock req) b));
    [by rewrite Hid|done].
Qed.

Lemma single_winner_witness :
  let w1 := run [Offer 1 [9%positive]; AcceptEarlier noFaults 8 (acceptBy 8)]
              (Controller.respondToJob noFaults (acceptBy 7) (worldOf sampleDb)).2 in
  (sb_technicianId <$> serviceBookings (store w1) !! 1%positive) = Some (Some 7%positive)
  ∧ ∀ faults' tech' req',
      params_id req' = 1%positive →
      code (Controller.respondToJob faults' req' w1).1 ≠ 200%nat
      ∧ ∀ res, (Part000.respondToJob faults' tech' req' w1).1 = Returned res →
          code res ≠ 200%nat.
Proof.
  apply (single_winner noFaults (acceptBy 7) 7%positive (worldOf sampleDb)
           [Offer 1 [9%positive]; AcceptEarlier noFaults 8 (acceptBy 8)]);
    [reflexivity | by vm_compute].
Defined.

(** ** What the loser is told *)

Lemma no_sent_no_offer id tech l :
  rowsIn id Broadcast.sent l = [] → List.find (sentTo id tech) l = None.
Proof.
  intros Hnil. destruct (List.find (sentTo id tech) l) as [r|] eqn:E; [|done].
  apply find_some in E as [Hin (Hb & _ & Hs)%sentTo_true].
  destruct (rowsIn_nil_inv id Broadcast.sent l r Hnil); [by apply list_elem_of_In|done|done].
Qed.

(** X2. After a committed accept the other technicians' rows are expired, so
    a technician who answers next is not told "already taken" (409): in the
    current controller a technician without an active job gets 403 "Job not
    assigned to you or already closed", in the earlier revision an activated
    technician gets 403 "Job not assigned to this technician"; the store is
    unchanged. *)
Theorem loser_is_told_not_offered faults req tech w req' tech' :
  ledgerInv (store w) →
  user_technicianProfileId req = Some tech →
  code (Controller.respondToJob faults req w).1 = 200%nat →
  params_id req' = params_id req →
  let w1 := (Controller.respondToJob faults req w).2 in
  let out := Controller.respondToJob noFaults req' w1 in
  let out0 := Part000.respondToJob noFaults tech' req' w1 in
  (user_technicianProfileId req' = Some tech' → hasActiveJob tech' (store w1) = false →
     code out.1 = 403%nat ∧ store out.2 = store w1
     ∧ message out.1 = "Job not assigned to you or already closed")
  ∧ (activated tech' (store w1) →
     out0.1 = Returned (json 403 false "Job not assigned to this technician" None)
     ∧ store out0.2 = store w1).
Proof.
  intros Hinv Hu H200 Hid w1 out out0.
  assert (settledFor (params_id req) tech (jobBroadcasts (store w1))) as (_ & _ & Hsent).
  { subst w1.
    destruct (Controller_all_or_nothing faults req w) as (_ & _ & [(_ & _ & _ & ?)|H]); [done|].
    destruct H as (_ & t & Hu' & Ho & Hc). simplify_eq.
    by destruct (committedAccept_inv _ _ _ _ _ Hinv Ho Hc). }
  pose proof (no_sent_no_offer (params_id req) tech' _ Hsent) as Hnone.
  rewrite <- Hid in Hnone. split.
  - intros Hu' Hbusy. subst out.
    by apply (Controller_preconditions req' tech' w1 Hu').
  - intros Hact. subst out0. by apply (Part000_preconditions req' tech' w1).
Qed.

Lemma loser_is_told_not_offered_witness :
  let w1 := (Controller.respondToJob noFaults (acceptBy 7) (worldOf sampleDb)).2 in
  (code (Controller.respondToJob noFaults (acceptBy 8) w1).1 = 403%nat
   ∧ store (Controller.respondToJob noFaults (acceptBy 8) w1).2 = store w1
   ∧ message (Controller.respondToJob noFaults (acceptBy 8) w1).1
     = "Job not assigned to you or already closed")
  ∧ ((Part000.respondToJob noFaults 8 (acceptBy 8) w1).1
       = Returned (json 403 false "Job not assigned to this technician" None)
     ∧ store (Part000.respondToJob noFaults 8 (acceptBy 8) w1).2 = store w1).
Proof.
  pose proof (loser_is_told_not_offered noFaults (acceptBy 7) 7%positive (worldOf sampleDb)
                (acceptBy 8) 8%positive ledgerInv_sample eq_refl) as H.
  destruct H as [H1 H2]; [by vm_compute | reflexivity |].
  split.
  - apply H1; [reflexivity | by vm_compute].
  - apply H2. split; [exists verifiedKyc | exists (ofUser 80 approvedOnline)]; by vm_compute.
Defined.

(** ** Busy technicians *)

Lemma hasActiveJob_true tech d :
  hasActiveJob tech d = true ↔
  ∃ id b, serviceBookings d !! id = Some b
          ∧ sb_technicianId b = Some tech ∧ activeStatus (sb_status b) = true.
Proof. unfold hasActiveJob. rewrite bool_decide_eq_true, map_Exists_lookup. done. Qed.

Lemma Controller_success_not_busy faults req w :
  code (Controller.respondToJob faults req w).1 = 200%nat →
  ∃ tech, user_technicianProfileId req = Some tech ∧ hasActiveJob tech (store w) = false.
Proof.
  unfold Controller.respondToJob, Controller.respondToJob_try, findOneAndUpdate.
  unfold_async. cbn.
  repeat (case_match; simplify_eq/=; try done).
  all: intros _; eauto.
Qed.

(** X3. The current controller keeps technicians to one active job: if no
    technician holds two jobs in an active state before a respondToJob call,
    none does after it, under any fault plan; and after a 200 the winner has
    an active job, so the winner's next call is refused with 409 before
    anything else is looked at. *)
Theorem one_active_job_kept faults req w :
  oneActiveJob (store w) →
  let out := Controller.respondToJob faults req w in
  oneActiveJob (store out.2)
  ∧ (code out.1 = 200%nat →
     ∃ tech, user_technicianProfileId req = Some tech
       ∧ hasActiveJob tech (store out.2) = true
       ∧ ∀ req', user_technicianProfileId req' = Some tech →
           code (Controller.respondToJob noFaults req' out.2).1 = 409%nat
           ∧ message (Controller.respondToJob noFaults req' out.2).1
             = "You already have an active job. Complete it before accepting a new one."
           ∧ store (Controller.respondToJob noFaults req' out.2).2 = store out.2).
Proof.
  intros Hone out. subst out.
  destruct (Controller_all_or_nothing faults req w) as (_ & _ & [(Hs & _ & _ & Hc)|H]).
  { rewrite Hs. split; [done|]. intros ?. done. }
  destruct H as (H200 & tech & Hu & _ & (b & Hb & Hopen & Hd)).
  destruct (Controller_success_not_busy faults req w H200) as (t & Hu' & Hidle).
  simplify_eq.
  assert (serviceBookings (store (Controller.respondToJob faults req w).2)
          = <[params_id req := assign tech (clock req) b]> (serviceBookings (store w)))
    as Hbk by (by rewrite Hd).
  assert (∀ id' b', serviceBookings (store w) !! id' = Some b' →
            sb_technicianId b' = Some tech → activeStatus (sb_status b') = true → False)
    as Hnone.
  { intros id' b' ? ? ?.
    assert (hasActiveJob tech (store w) = true) by (apply hasActiveJob_true; eauto).
    congruence. }
  split.
  - intros tech' id1 id2 b1 b2. rewrite Hbk.
    destruct (decide (id1 = params_id req)) as [->|H1],
             (decide (id2 = params_id req)) as [->|H2]; [done| | |].
    + rewrite lookup_insert_eq, lookup_insert_ne by done.
      intros ? ? ? ? ? ?. simplify_eq/=. by destruct (Hnone id2 b2).
    + rewrite lookup_insert_eq, lookup_insert_ne by done.
      intros ? ? ? ? ? ?. simplify_eq/=. by destruct (Hnone id1 b1).
    + rewrite !lookup_insert_ne by done. apply Hone.
  - intros _. exists tech. split; [done|].
    assert (hasActiveJob tech (store (Controller.respondToJob faults req w).2) = true)
      as Hbusy.
    { apply hasActiveJob_true. exists (params_id req), (assign tech (clock req) b).
      rewrite Hbk, lookup_insert_eq. done. }
    split; [done|]. intros req' Hreq'.
    destruct (Controller_preconditions req' tech
                (Controller.respondToJob faults req w).2 Hreq') as (P1 & _).
    destruct (P1 Hbusy) as (? & ? & ?). done.
Qed.

Lemma oneActiveJob_sample : oneActiveJob sampleDb.
Proof.
  intros tech id1 id2 b1 b2 H1 _ Ht _ _ _. exfalso.
  unfold sampleDb in H1. cbn in H1.
  apply lookup_singleton_Some in H1 as [_ <-]. discriminate Ht.
Defined.

Lemma one_active_job_kept_witness :
  oneActiveJob (store (Controller.respondToJob noFaults (acceptBy 7) (worldOf sampleDb)).2).
Proof.
  apply (one_active_job_kept noFaults (acceptBy 7) (worldOf sampleDb)).
  exact oneActiveJob_sample.
Defined.

(** ** Who is notified *)






(** ** What updateTechnician can reach *)

Ltac frame_profiles :=
  repeat split; try done;
  intros; cbn;
  repeat match goal with
  | |- context [<[?i:=_]> _ !! ?j] =>
      destruct (decide (i = j));
      [subst; rewrite lookup_insert_eq | rewrite lookup_insert_ne by done]
  end;
  repeat match goal with
  | H : technicianProfiles _ !! _ = Some _ |- _ => rewrite H
  end;
  try done; try congruence.

Lemma updateTechnician_reach faults bc uv req w :
  keepsAccounts bc →
  let d := store w in
  let d1 := store (Technician.updateTechnician faults bc uv req w).2 in
  ownUpdateFrame req d d1
  ∧ (users d1 = users d
     ∨ ∃ f, uv (Technician.userUpdate1 req) (u_userId req) (users d) = Returned f
            ∧ users d1 = alter f (u_userId req) (users d)).
Proof.
  intros Hbc. cbn zeta. unfold ownUpdateFrame.
  unfold Technician.updateTechnician, Technician.updateTechnician_try,
    Technician.withTransaction, Technician.goOnline, Technician.save,
    Technician.findByIdAndUpdateUser.
  unfold_async. cbn.
  repeat (case_match; simplify_eq/=; try done).
  all: repeat match goal with
         | Hk : keepsAccounts ?bc |- context [?bc ?t ?w] =>
             let H1 := fresh in
             let H2 := fresh in
             let H3 := fresh in
             destruct (Hk t w) as (H1 & H2 & H3); cbn in H1, H2, H3;
             rewrite ?H1, ?H2, ?H3; clear H1 H2 H3;
             generalize (bc t w); intros ?
         end.
  all: (split;
    [split_and!;
     [done
     |intros tech; frame_profiles
     |intros uid Hne; by rewrite ?lookup_alter_ne
     |intros Hv; try done;
      match goal with
      | H : bool_decide (_ = JBool true) = true |- _ =>
          by apply bool_decide_eq_true in H
      end]
    |first [by left | right; eexists; by split]]).
Qed.

Lemma updateTechnician2_reach faults bc ev uv req w :
  keepsAccounts bc → readsOnly ev →
  let d := store w in
  let d2 := store (Technician.updateTechnician2 faults bc ev uv req w).2 in
  ownUpdateFrame req d d2
  ∧ (users d2 = users d
     ∨ ∃ user f, u_user req = Some user
                 ∧ uv user (u_userId req) (users d) = Returned f
                 ∧ users d2 = alter f (u_userId req) (users d)).
Proof.
  intros Hbc Hev. cbn zeta. unfold ownUpdateFrame.
  unfold Technician.updateTechnician2, Technician.updateTechnician2_try,
    Technician.goOnline2, Technician.save, Technician.findByIdAndUpdateUser.
  unfold_async. cbn.
  repeat (case_match; simplify_eq/=; try done).
  all: repeat match goal with
         | Hr : readsOnly ?ev, H : ?ev ?t ?w = (_, _) |- _ =>
             let H1 := fresh in
             pose proof (Hr t w) as H1; rewrite H in H1; cbn in H1; clear H;
             simplify_eq/=
         | Hk : keepsAccounts ?bc, H : ?bc ?t ?w = (_, _) |- _ =>
             let H1 := fresh in
             let H2 := fresh in
             let H3 := fresh in
             destruct (Hk t w) as (H1 & H2 & H3); rewrite H in H1, H2, H3;
             cbn in H1, H2, H3; clear H; rewrite ?H1, ?H2, ?H3 in *
         end.
  all: (split;
    [split_and!;
     [done
     |intros tech; frame_profiles
     |intros uid Hne; by rewrite ?lookup_alter_ne
     |intros Hv; try done;
      match goal with
      | H : bool_decide (_ = JBool true) = true |- _ =>
          by apply bool_decide_eq_true in H
      end]
    |first [by left | right; eexists _, _; by split_and!]]).
Qed.

(** X5. A technician's own update cannot reach what the owner controls.
    In both revisions of updateTechnician, under any fault plan, for a
    proactive broadcast that leaves profiles, KYC records and users alone and
    an eligibility evaluator that only reads: KYC records are unchanged, no
    technician's trainingCompleted or workStatus changes, no other
    technician's profile and no other user's document changes, and the jobs
    and the ledger are unchanged unless the request sets availability.isOnline
    to true. The caller's own User document is either as it was or changed by
    the update the request carries: fname, lname, email and gender in the
    first revision, the whole of req.body.user (status and mobileNumber
    among it) in the second. *)
Theorem updateTechnician_frame faults bc ev uv req w :
  keepsAccounts bc → readsOnly ev →
  let d := store w in
  let d1 := store (Technician.updateTechnician faults bc uv req w).2 in
  let d2 := store (Technician.updateTechnician2 faults bc ev uv req w).2 in
  ownUpdateFrame req d d1
  ∧ ownUpdateFrame req d d2
  ∧ (users d1 = users d
     ∨ ∃ f, uv (Technician.userUpdate1 req) (u_userId req) (users d) = Returned f
            ∧ users d1 = alter f (u_userId req) (users d))
  ∧ (users d2 = users d
     ∨ ∃ user f, u_user req = Some user
                 ∧ uv user (u_userId req) (users d) = Returned f
                 ∧ users d2 = alter f (u_userId req) (users d)).
Proof.
  intros Hbc Hev d d1 d2.
  destruct (updateTechnician_reach faults bc uv req w Hbc) as [H1 H2].
  destruct (updateTechnician2_reach faults bc ev uv req w Hbc Hev) as [H3 H4].
  done.
Qed.

Lemma noBroadcast_keepsAccounts : keepsAccounts noBroadcast.
Proof. by intros tech w. Defined.

Lemma evaluateOnStore_readsOnly : readsOnly evaluateOnStore.
Proof. by intros tech w. Defined.

Lemma updateTechnician_frame_witness :
  let d1 := store (Technician.updateTechnician noFaults noBroadcast sampleUserUpdate
                     (goOnlineBy 7) (worldOf offlineDb)).2 in
  let d2 := store (Technician.updateTechnician2 noFaults noBroadcast evaluateOnStore
                     sampleUserUpdate (goOnlineBy 7) (worldOf offlineDb)).2 in
  ownUpdateFrame (goOnlineBy 7) offlineDb d1 ∧ ownUpdateFrame (goOnlineBy 7) offlineDb d2.
Proof.
  destruct (updateTechnician_frame noFaults noBroadcast evaluateOnStore sampleUserUpdate
              (goOnlineBy 7) (worldOf offlineDb)
              noBroadcast_keepsAccounts evaluateOnStore_readsOnly) as (H1 & H2 & _).
  by split.
Defined.

(** X6. Going offline is not gated: for an authenticated technician whose
    profile exists, a request with valid skills and a falsy (but present)
    availability.isOnline whose user fields, if it carries any, pass the
    validation of the User model is answered 200 by both revisions of
    updateTechnician, whatever the account's training, work-status or KYC,
    and the stored flag is false afterwards. *)
Theorem going_offline_is_free bc ev uv req tech w :
  u_technicianProfileId req = Some tech →
  u_skillsInvalid req = false →
  is_Some (technicianProfiles (store w) !! tech) →
  u_isOnline req ≠ JUndefined → truthy (u_isOnline req) = false →
  let out := Technician.updateTechnician noFaults bc uv req w in
  let out2 := Technician.updateTechnician2 noFaults bc ev uv req w in
  ((Technician.userUpdated (Technician.userUpdate1 req) = true →
    ∃ f, uv (Technician.userUpdate1 req) (u_userId req) (users (store w)) = Returned f) →
   code out.1 = 200%nat ∧ onlineFlag tech (store out.2) = Some false)
  ∧ ((∀ user, u_user req = Some user → Technician.userUpdated user = true →
      ∃ f, uv user (u_userId req) (users (store w)) = Returned f) →
     code out2.1 = 200%nat ∧ onlineFlag tech (store out2.2) = Some false).
Proof.
  intros Hu Hs [t Ht] Hv Hf. cbn zeta. unfold onlineFlag. split.
  - intros Hvalid.
    unfold Technician.updateTechnician, Technician.updateTechnician_try,
      Technician.withTransaction, Technician.goOnline, Technician.save,
      Technician.findByIdAndUpdateUser, noFaults.
    unfold_async. cbn. rewrite Hu, Hs. cbn. rewrite Ht. cbn.
    rewrite (bool_decide_true (_ ≠ _)) by done. rewrite Hf. cbn.
    rewrite (bool_decide_false (_ = JBool true)) by (by intros E; rewrite E in Hf).
    destruct (Technician.userUpdated (Technician.userUpdate1 req)) eqn:Hup; cbn.
    + destruct (Hvalid eq_refl) as [f Hret]. rewrite Hret. cbn.
      by rewrite lookup_insert_eq.
    + by rewrite lookup_insert_eq.
  - intros Hvalid.
    unfold Technician.updateTechnician2, Technician.updateTechnician2_try,
      Technician.goOnline2, Technician.save, Technician.findByIdAndUpdateUser, noFaults.
    unfold_async. cbn. rewrite Hu. cbn.
    rewrite (bool_decide_false (_ = JBool true)) by (by intros E; rewrite E in Hf).
    rewrite (bool_decide_true (_ ≠ _)) by done. rewrite Hf. cbn.
    destruct (u_user req) as [user|] eqn:Huser; cbn.
    + destruct (Technician.userUpdated user) eqn:Hup; cbn.
      * destruct (Hvalid user eq_refl Hup) as [f Hret]. rewrite Hret. cbn.
        rewrite Ht, Hs. cbn.
        destruct (u_location req); cbn; rewrite lookup_insert_eq; cbn;
          by rewrite lookup_insert_eq.
      * rewrite Ht, Hs. cbn.
        destruct (u_location req); cbn; rewrite lookup_insert_eq; cbn;
          by rewrite lookup_insert_eq.
    + rewrite Ht, Hs. cbn.
      destruct (u_location req); cbn; rewrite lookup_insert_eq; cbn;
        by rewrite lookup_insert_eq.
Qed.

Lemma going_offline_is_free_witness :
  let req := {| u_technicianProfileId := Some 7%positive; u_userId := 70%positive;
                u_user := None; u_body := noUserFields; u_skillsInvalid := false;
                u_isOnline := JBool false; u_location := None |} in
  let out := Technician.updateTechnician noFaults noBroadcast sampleUserUpdate req
               (worldOf pendingDb) in
  let out2 := Technician.updateTechnician2 noFaults noBroadcast evaluateOnStore
                sampleUserUpdate req (worldOf pendingDb) in
  (code out.1 = 200%nat ∧ onlineFlag 7 (store out.2) = Some false)
  ∧ (code out2.1 = 200%nat ∧ onlineFlag 7 (store out2.2) = Some false).
Proof.
  destruct (going_offline_is_free noBroadcast evaluateOnStore sampleUserUpdate
           {| u_technicianProfileId := Some 7%positive; u_userId := 70%positive;
              u_user := None; u_body := noUserFields; u_skillsInvalid := false;
              u_isOnline := JBool false; u_location := None |} 7%positive
           (worldOf pendingDb)) as [H1 H2];
    [reflexivity | reflexivity | by eexists | done | reflexivity |].
  split; [apply H1; by vm_compute | apply H2; intros user; by vm_compute].
Defined.

(** A request to go offline that carries a user field the User model refuses
    is refused as a whole by the first revision, and the flag stays as it
    was: technician 8 of [sampleDb], online, sends gender "x". *)
Remark going_offline_with_invalid_user_field :
  let req := {| u_technicianProfileId := Some 8%positive; u_userId := 80%positive;
                u_user := None;
                u_body := {| f_fname := JUndefined; f_lname := JUndefined;
                             f_email := JUndefined; f_gender := JStr "x";
                             f_mobileNumber := JUndefined; f_status := JUndefined;
                             f_profileComplete := JUndefined |};
                u_skillsInvalid := false; u_isOnline := JBool false;
                u_location := None |} in
  let out := Technician.updateTechnician noFaults noBroadcast sampleUserUpdate req
               (worldOf sampleDb) in
  onlineFlag 8 sampleDb = Some true
  ∧ code out.1 = 400%nat ∧ success out.1 = false
  ∧ store out.2 = sampleDb.
Proof. by vm_compute. Qed.

(** ** The owner's handlers *)

(** X7. Only an owner changes anything through updateTechnicianStatus and
    updateTechnicianTraining: with any other role, under any fault plan, the
    call is refused (updateTechnicianTraining with 403 before anything else
    is looked at) and the world is as it was. The comparison is exact: the
    role "owner" is refused. *)
Theorem owner_only faults req req' w :
  s_role req ≠ Some "Owner" → t_role req' ≠ Some "Owner" →
  (success (Technician.updateTechnicianStatus faults req w).1 = false
   ∧ (Technician.updateTechnicianStatus faults req w).2 = w)
  ∧ Technician.updateTechnicianTraining faults req' w
    = (json 403 false "Owner access only" None, w).
Proof.
  intros Hr Hr'. split.
  - unfold Technician.updateTechnicianStatus, Technician.updateTechnicianStatus_try.
    unfold_async. cbn. rewrite (bool_decide_false _ Hr). cbn.
    by destruct (s_technicianId req).
  - unfold Technician.updateTechnicianTraining, Technician.updateTechnicianTraining_try.
    unfold_async. cbn. by rewrite (bool_decide_false _ Hr').
Qed.

Lemma owner_only_witness :
  (success (Technician.updateTechnicianStatus noFaults
              {| s_technicianId := Some 7%positive; s_role := Some "owner";
                 s_trainingCompleted := JBool false; s_workStatus := JStr "suspended" |}
              (worldOf sampleDb)).1 = false
   ∧ (Technician.updateTechnicianStatus noFaults
        {| s_technicianId := Some 7%positive; s_role := Some "owner";
           s_trainingCompleted := JBool false; s_workStatus := JStr "suspended" |}
        (worldOf sampleDb)).2 = worldOf sampleDb)
  ∧ Technician.updateTechnicianTraining noFaults
      {| t_technicianId := Some 7%positive; t_role := None;
         t_trainingCompleted := JBool false |} (worldOf sampleDb)
    = (json 403 false "Owner access only" None, worldOf sampleDb).
Proof.
  apply (owner_only noFaults
           {| s_technicianId := Some 7%positive; s_role := Some "owner";
              s_trainingCompleted := JBool false; s_workStatus := JStr "suspended" |}
           {| t_technicianId := Some 7%positive; t_role := None;
              t_trainingCompleted := JBool false |} (worldOf sampleDb)); done.
Defined.

(** X8. The owner's handlers store all of a request or nothing, and nothing
    beyond the technician they name: under any fault plan, an answer other
    than 200 leaves the world as it was (so an invalid workStatus drops a
    trainingCompleted sent with it, and a value of trainingCompleted that is
    not a boolean is refused by updateTechnicianTraining); bookings, KYC
    records, the ledger and every other profile are never changed. *)
Theorem owner_handlers_frame faults req req' w :
  let out := Technician.updateTechnicianStatus faults req w in
  let out' := Technician.updateTechnicianTraining faults req' w in
  (code out.1 ≠ 200%nat → out.2 = w)
  ∧ (code out'.1 ≠ 200%nat → out'.2 = w)
  ∧ (s_workStatus req ≠ JUndefined → workStatusOf (s_workStatus req) = None →
     code out.1 ≠ 200%nat)
  ∧ ((∀ b, t_trainingCompleted req' ≠ JBool b) → code out'.1 ≠ 200%nat)
  ∧ (serviceBookings (store out.2) = serviceBookings (store w)
     ∧ technicianKycs (store out.2) = technicianKycs (store w)
     ∧ jobBroadcasts (store out.2) = jobBroadcasts (store w)
     ∧ ∀ tech, s_technicianId req ≠ Some tech →
         technicianProfiles (store out.2) !! tech = technicianProfiles (store w) !! tech)
  ∧ (serviceBookings (store out'.2) = serviceBookings (store w)
     ∧ technicianKycs (store out'.2) = technicianKycs (store w)
     ∧ jobBroadcasts (store out'.2) = jobBroadcasts (store w)
     ∧ ∀ tech, t_technicianId req' ≠ Some tech →
         technicianProfiles (store out'.2) !! tech = technicianProfiles (store w) !! tech).
Proof.
  cbn zeta.
  unfold Technician.updateTechnicianStatus, Technician.updateTechnicianStatus_try,
    Technician.updateTechnicianTraining, Technician.updateTechnicianTraining_try,
    Technician.save.
  unfold_async. cbn. split_and!.
  - repeat (case_match; simplify_eq/=; try done).
  - repeat (case_match; simplify_eq/=; try done).
  - intros Hw Hn. rewrite Hn, (bool_decide_true _ Hw).
    repeat (case_match; simplify_eq/=; try done).
  - intros Hb. destruct (t_trainingCompleted req') as [| |b| |] eqn:E;
      try (repeat (case_match; simplify_eq/=; try done)).
    by destruct (Hb b).
  - repeat (case_match; simplify_eq/=; try done).
  - repeat (case_match; simplify_eq/=; try done).
  - repeat (case_match; simplify_eq/=; try done).
  - repeat (case_match; simplify_eq/=; try done);
      intros tech Hne; cbn; rewrite ?lookup_insert_ne by congruence; done.
  - repeat (case_match; simplify_eq/=; try done).
  - repeat (case_match; simplify_eq/=; try done).
  - repeat (case_match; simplify_eq/=; try done).
  - repeat (case_match; simplify_eq/=; try done);
      intros tech Hne; cbn; rewrite ?lookup_insert_ne by congruence; done.
Qed.

(** X9. What a successful updateTechnicianStatus stores, for an owner's
    request on an existing technician with a valid or absent workStatus and
    no store failure: trainingCompleted becomes the truthiness of the value
    sent (any value but undefined); the work-status becomes the one sent,
    else trained when trainingCompleted is exactly true (whatever it was,
    suspended included), else stays; the technician is taken offline for
    suspended only; the location stays. *)
Theorem updateTechnicianStatus_stores req tech t w :
  s_technicianId req = Some tech → s_role req = Some "Owner" →
  technicianProfiles (store w) !! tech = Some t →
  (s_workStatus req = JUndefined ∨ is_Some (workStatusOf (s_workStatus req))) →
  let out := Technician.updateTechnicianStatus noFaults req w in
  ∃ t', code out.1 = 200%nat ∧ result out.1 = Some t'
    ∧ technicianProfiles (store out.2) !! tech = Some t'
    ∧ trainingCompleted t'
      = (if bool_decide (s_trainingCompleted req = JUndefined) then trainingCompleted t
         else truthy (s_trainingCompleted req))
    ∧ workStatus t'
      = match workStatusOf (s_workStatus req) with
        | Some ws => ws
        | None => if bool_decide (s_trainingCompleted req = JBool true) then Work.trained
                  else workStatus t
        end
    ∧ isOnline t'
      = (if bool_decide (workStatusOf (s_workStatus req) = Some Work.suspended) then false
         else isOnline t)
    ∧ location t' = location t.
Proof.
  intros Hid Hrole Ht Hws. cbn zeta.
  unfold Technician.updateTechnicianStatus, Technician.updateTechnicianStatus_try,
    Technician.save, noFaults.
  unfold_async. cbn. rewrite Hid, Hrole. cbn.
  rewrite (bool_decide_true (Some _ = _)) by done. cbn. rewrite Ht. cbn.
  destruct Hws as [Hu|[ws Hws]]; [rewrite Hu|rewrite Hws]; cbn.
  - rewrite (bool_decide_false (JUndefined ≠ _)) by (by intros H; apply H). cbn.
    eexists. split_and!; [reflexivity|reflexivity|by rewrite lookup_insert_eq|..];
      repeat case_bool_decide; simplify_eq/=; try done; congruence.
  - rewrite (bool_decide_true (s_workStatus req ≠ _))
      by (intros E; rewrite E in Hws; done). cbn.
    eexists. split_and!; [reflexivity|reflexivity|by rewrite lookup_insert_eq|..];
      repeat case_bool_decide; simplify_eq/=; try done; congruence.
Qed.

Lemma updateTechnicianStatus_stores_witness :
  let req := {| s_technicianId := Some 7%positive; s_role := Some "Owner";
                s_trainingCompleted := JBool true; s_workStatus := JUndefined |} in
  let out := Technician.updateTechnicianStatus noFaults req (worldOf sampleDb) in
  ∃ t', code out.1 = 200%nat ∧ result out.1 = Some t'
    ∧ technicianProfiles (store out.2) !! 7%positive = Some t'
    ∧ trainingCompleted t' = true
    ∧ workStatus t' = Work.trained
    ∧ isOnline t' = true
    ∧ location t' = None.
Proof.
  apply (updateTechnicianStatus_stores
           {| s_technicianId := Some 7%positive; s_role := Some "Owner";
              s_trainingCompleted := JBool true; s_workStatus := JUndefined |}
           7%positive approvedOnline (worldOf sampleDb));
    [reflexivity | reflexivity | reflexivity | by left].
Defined.

(** ** The activation check and the feeds of the earlier revision *)

(** X10. checkTechnicianActivation of the earlier revision never throws and
    never changes anything; under any fault plan it answers active only for
    an account with approved KYC, verified bank details and completed
    training, and when its two lookups do not fail it answers active for
    every such account. *)
Theorem activation_check_sound faults site tech w :
  ∃ a, Part000.checkTechnicianActivation faults site tech w = (Returned a, w)
       ∧ (Part000.isActive a = true → activated tech (store w))
       ∧ (faults site = false → faults (S site) = false →
          activated tech (store w) → Part000.isActive a = true).
Proof.
  unfold Part000.checkTechnicianActivation, activated. unfold_async. cbn.
  repeat (case_match; simplify_eq/=);
    (eexists; split; [reflexivity|]; cbn; split; [try done|]).
  all: try (intros _; split; eexists; split_and!; try done;
            repeat match goal with
                   | H : negb _ = false |- _ => apply negb_false_iff in H
                   | H : bool_decide _ = true |- _ => apply bool_decide_eq_true in H
                   end; done).
  all: intros ? ? [(k & Hk & Ha & Hb) (t' & Ht & Htr)]; simplify_eq/=; try done;
    try congruence.
  all: repeat match goal with
              | H : negb _ = true |- _ => apply negb_true_iff in H
              | H : bool_decide _ = false |- _ => apply bool_decide_eq_false in H
              end; congruence.
Qed.

(** The same check, as the feeds use it. *)
Lemma activation_check faults site tech w :
  ∃ a, Part000.checkTechnicianActivation faults site tech w = (Returned a, w)
       ∧ (Part000.isActive a = true → activated tech (store w)).
Proof.
  unfold Part000.checkTechnicianActivation, activated. unfold_async. cbn.
  repeat (case_match; simplify_eq/=);
    (eexists; split; [reflexivity|]; cbn; try done).
  intros _; split; eexists; split_and!; try done;
            repeat match goal with
                   | H : negb _ = false |- _ => apply negb_false_iff in H
                   | H : bool_decide _ = true |- _ => apply bool_decide_eq_true in H
                   end; done.
Qed.

(** X11. The two feeds of the earlier revision only read: whatever the
    request, the geospatial operators and the fault plan, getMyJobs and
    getNearbyJobs leave the store, an open transaction and the sent
    notifications as they were. *)
Theorem feeds_read_only faults StringToNumber cs gn user req w :
  (Part000.getMyJobs faults cs user w).2 = w
  ∧ (Part000.getNearbyJobs faults StringToNumber gn req w).2 = w.
Proof.
  split.
  - unfold Part000.getMyJobs, Part000.getMyJobs_try. destruct user as [tech|]; [|done].
    unfold mbind, Async_bind.
    destruct (activation_check faults 0 tech w) as (a & -> & _).
    destruct (negb (Part000.isActive a)); [done|].
    unfold_async. repeat (case_match; simplify_eq/=; try done).
  - unfold Part000.getNearbyJobs, Part000.getNearbyJobs_try, Part000.resolveLocation.
    destruct (Part000.n_technicianProfileId req) as [tech|]; [|done].
    unfold mbind, Async_bind.
    destruct (activation_check faults 0 tech w) as (a & -> & _).
    destruct (negb (Part000.isActive a)); [done|].
    unfold_async. repeat (case_match; simplify_eq/=; try done).
Qed.

(** X12. A technician whose account is not activated is shown nothing:
    under any fault plan both feeds answer 200 with success true and an
    empty result (a failing activation lookup included: it is answered 200
    with the error as message, not 500). *)
Theorem unactivated_sees_nothing faults StringToNumber cs gn tech req w :
  Part000.n_technicianProfileId req = Some tech →
  ¬ activated tech (store w) →
  let out := Part000.getMyJobs faults cs (Some tech) w in
  let out' := Part000.getNearbyJobs faults StringToNumber gn req w in
  (code out.1 = 200%nat ∧ success out.1 = true ∧ result out.1 = Some ∅)
  ∧ (code out'.1 = 200%nat ∧ success out'.1 = true ∧ result out'.1 = Some []).
Proof.
  intros Hu Hn. cbn zeta.
  unfold Part000.getMyJobs, Part000.getMyJobs_try,
    Part000.getNearbyJobs, Part000.getNearbyJobs_try. rewrite Hu.
  unfold mbind, Async_bind.
  destruct (activation_check faults 0 tech w) as (a & -> & Ha).
  destruct (Part000.isActive a); [by destruct Hn; apply Ha|]. done.
Qed.

Lemma unactivated_sees_nothing_witness :
  (code (Part000.getMyJobs noFaults (λ _ _ _, true) (Some 9%positive) (worldOf sampleDb)).1
   = 200%nat
   ∧ success (Part000.getMyJobs noFaults (λ _ _ _, true) (Some 9%positive)
                (worldOf sampleDb)).1 = true
   ∧ result (Part000.getMyJobs noFaults (λ _ _ _, true) (Some 9%positive)
               (worldOf sampleDb)).1 = Some ∅)
  ∧ (code (Part000.getNearbyJobs noFaults (λ _, NaN) geoNearAll
             (nearbyWithoutCoordinates 9) (worldOf sampleDb)).1 = 200%nat
     ∧ success (Part000.getNearbyJobs noFaults (λ _, NaN) geoNearAll
                  (nearbyWithoutCoordinates 9) (worldOf sampleDb)).1 = true
     ∧ result (Part000.getNearbyJobs noFaults (λ _, NaN) geoNearAll
                 (nearbyWithoutCoordinates 9) (worldOf sampleDb)).1 = Some []).
Proof.
  apply (unactivated_sees_nothing noFaults (λ _, NaN) (λ _ _ _, true) geoNearAll
           9%positive (nearbyWithoutCoordinates 9) (worldOf sampleDb)).
  - reflexivity.
  - intros [(k & Hk & _) _]. vm_compute in Hk. discriminate.
Defined.

(** ** The live feed of the current controller *)

(** What checkTechnicianActivation of the current controller answers: never
    an exception; active exactly when the evaluator answered and found the
    technician eligible or held nothing but "offline" against them. *)
Lemma Feed_activation evaluator tech w :
  ∃ a, Feed.checkTechnicianActivation evaluator tech w = (Returned a, (evaluator tech w).2)
    ∧ (Feed.isActive a = true ↔
       ∃ e, (evaluator tech w).1 = Returned e
            ∧ (eligible e = true ∨ ∀ r, r ∈ reasons e → r = "offline")).
Proof.
  unfold Feed.checkTechnicianActivation.
  destruct (evaluator tech w) as [[e|err] w'] eqn:E; cbn.
  - destruct (eligible e) eqn:He; cbn.
    + eexists. split; [done|]. cbn. split; [|done]. intros _. eauto.
    + case_bool_decide as Hr; cbn.
      * eexists. split; [done|]. cbn. split; [|done]. intros _.
        exists e. split; [done|]. right. intros r Hin.
        destruct (decide (r = "offline")) as [|Hne]; [done|].
        apply (proj1 (filter_nil_all _ _)) with (x := r) in Hr; [|done].
        by rewrite bool_decide_false in Hr.
      * eexists. split; [done|]. cbn. split; [done|].
        intros (e' & ? & [?|Hall]); simplify_eq/=; [congruence|].
        destruct Hr. apply filter_nil_all. intros r Hin.
        by rewrite (Hall r Hin).
  - eexists. split; [done|]. cbn. split; [done|]. by intros (e & ? & _).
Qed.

(** X13. The live feed of the current controller never lists a job:
    getMyJobs calls fetchTechnicianJobsInternal, which the file neither
    defines nor imports. Whatever the evaluator and the fault plan, the
    result of getMyJobs is absent or empty; and a technician without an
    active job, whom the evaluator finds eligible or holds nothing but
    "offline" against, is answered 500 with the ReferenceError as message. *)
Theorem live_feed_lists_nothing faults evaluator user w :
  let out := Feed.getMyJobs faults evaluator user w in
  (result out.1 = None ∨ result out.1 = Some [])
  ∧ (code out.1 = 200%nat → result out.1 = Some [])
  ∧ ∀ tech e, user = Some tech →
      faults 0%nat = false →
      hasActiveJob tech (store w) = false →
      (evaluator tech w).1 = Returned e →
      eligible e = true ∨ (∀ r, r ∈ reasons e → r = "offline") →
      out = (json 500 false "fetchTechnicianJobsInternal is not defined" None,
             (evaluator tech w).2).
Proof.
  cbn zeta. unfold Feed.getMyJobs, Feed.getMyJobs_try, Feed.fetchTechnicianJobsInternal.
  destruct user as [tech|]; [|by split_and!; [left| |]].
  unfold mbind, Async_bind, query, visible, throw.
  destruct (faults 0%nat); [by split_and!; [left| |]|].
  destruct (hasActiveJob tech (store w)) eqn:Hb.
  { cbn. split_and!; [by right|done|]. intros; simplify_eq; congruence. }
  destruct (Feed_activation evaluator tech w) as (a & -> & Ha).
  destruct (Feed.isActive a) eqn:Hact; cbn.
  - split_and!; [by left|done|]. intros; by simplify_eq.
  - split_and!; [by right|done|]. intros t e ? _ _ He Hor. simplify_eq.
    assert (false = true) by (apply Ha; eauto). done.
Qed.

(** Technician 7 of [offlineDb], approved, verified, free and offline, asks
    for the live feed. *)
Remark live_feed_of_a_free_technician :
  Feed.getMyJobs noFaults evaluateOnStore (Some 7%positive) (worldOf offlineDb)
  = (json 500 false "fetchTechnicianJobsInternal is not defined" None, worldOf offlineDb).
Proof. by vm_compute. Qed.

(** X14. Being offline does not count against activation in the current
    controller: checkTechnicianActivation never throws and passes on the
    world the evaluator leaves; it answers active when the evaluator finds
    the technician eligible or holds nothing but "offline" against them, not
    active with the other reasons when there are any, and not active with
    the error as message when the evaluator throws. *)
Theorem offline_alone_is_active evaluator tech w :
  let out := Feed.checkTechnicianActivation evaluator tech w in
  out.2 = (evaluator tech w).2
  ∧ (∀ e, (evaluator tech w).1 = Returned e →
       eligible e = true ∨ (∀ r, r ∈ reasons e → r = "offline") →
       out.1 = Returned {| Feed.isActive := true;
                           Feed.activationMessage := "Technician account is active";
                           Feed.activationReasons := [] |})
  ∧ (∀ e r, (evaluator tech w).1 = Returned e →
       eligible e = false → r ∈ reasons e → r ≠ "offline" →
       out.1 = Returned {| Feed.isActive := false;
                           Feed.activationMessage := Part000.notActivated;
                           Feed.activationReasons :=
                             List.filter (λ r, negb (bool_decide (r = "offline")))
                               (reasons e) |})
  ∧ (∀ err, (evaluator tech w).1 = Thrown err →
       out.1 = Returned {| Feed.isActive := false; Feed.activationMessage := err;
                           Feed.activationReasons := [] |}).
Proof.
  cbn zeta. unfold Feed.checkTechnicianActivation.
  destruct (evaluator tech w) as [[e|err] w'] eqn:E; cbn.
  - split; [by destruct (_ && _)|]. split_and!; [| |done].
    + intros ? [= <-] [->|Hall]; [done|].
      rewrite (bool_decide_true (_ = [])); [by rewrite andb_false_r|].
      apply filter_nil_all. intros r Hin. by rewrite (Hall r Hin).
    + intros ? r [= <-] -> Hin Hne. cbn.
      rewrite (bool_decide_false (_ = [])); [done|].
      intros Hnil. apply (proj1 (filter_nil_all _ _)) with (x := r) in Hnil; [|done].
      by rewrite bool_decide_false in Hnil.
  - split_and!; try done. by intros ? [= <-].
Qed.

(** ** Reading and deleting a technician *)

(** X15. The isActiveTechnician flag of getTechnicianById: when the handler
    answers a document it is the stored profile; the flag is true exactly
    when the KYC lookup did not fail and the account is activated as
    checkTechnicianActivation of the earlier revision sees it, null exactly
    when the technician has no KYC record, and absent exactly when the KYC
    lookup failed (the answer is still 200); getMyTechnician answers the
    same for that technician, and nothing is changed. *)
Theorem activation_flag faults id w e :
  result (Profile.getTechnicianById faults (Some id) w).1 = Some e →
  technicianProfiles (store w) !! id = Some (document e)
  ∧ (isActiveTechnician e = JBool true ↔ faults 1%nat = false ∧ activated id (store w))
  ∧ (isActiveTechnician e = JNull ↔
     faults 1%nat = false ∧ technicianKycs (store w) !! id = None)
  ∧ (isActiveTechnician e = JUndefined ↔ faults 1%nat = true)
  ∧ Profile.getMyTechnician faults (Some id) w = Profile.getTechnicianById faults (Some id) w
  ∧ (Profile.getTechnicianById faults (Some id) w).2 = w.
Proof.
  unfold Profile.getTechnicianById, Profile.getTechnicianById_try,
    Profile.getMyTechnician, Profile.getMyTechnician_try,
    Profile.enrichTechnicianWithActivationStatus, activated.
  unfold_async. cbn.
  destruct (faults 0%nat); [done|]. cbn.
  destruct (technicianProfiles (store w) !! id) as [t|] eqn:Ht; cbn; [|done].
  destruct (faults 1%nat); cbn.
  { intros ?; simplify_eq/=. split_and!; try done. all: split; try done. all: by intros []. }
  destruct (technicianKycs (store w) !! id) as [k|] eqn:Hk; cbn; intros ?; simplify_eq/=.
  - split_and!; try done; try (split; [done|by intros []]).
    split.
    + intros [= Hb]. apply andb_prop in Hb as [Hb Htr]. apply andb_prop in Hb as [Ha Hb].
      apply bool_decide_eq_true in Ha. split; [done|]. split; eauto.
    + intros (_ & (k' & ? & Ha & Hb) & (t' & ? & Htr)). simplify_eq.
      rewrite Ha, Hb, Htr. by rewrite bool_decide_true.
  - split_and!; try done; try (split; [done|by intros []]).
    split; [done|]. by intros (_ & (k' & ? & _) & _).
Qed.

Lemma activation_flag_witness :
  let e := {| document := approvedOnline; isActiveTechnician := JBool true |} in
  let w := worldOf sampleDb in
  technicianProfiles (store w) !! 7%positive = Some (document e)
  ∧ (isActiveTechnician e = JBool true ↔ noFaults 1%nat = false ∧ activated 7 (store w))
  ∧ (isActiveTechnician e = JNull ↔
     noFaults 1%nat = false ∧ technicianKycs (store w) !! 7%positive = None)
  ∧ (isActiveTechnician e = JUndefined ↔ noFaults 1%nat = true)
  ∧ Profile.getMyTechnician noFaults (Some 7%positive) w
    = Profile.getTechnicianById noFaults (Some 7%positive) w
  ∧ (Profile.getTechnicianById noFaults (Some 7%positive) w).2 = w.
Proof.
  apply (activation_flag noFaults 7%positive (worldOf sampleDb)
           {| document := approvedOnline; isActiveTechnician := JBool true |}).
  reflexivity.
Defined.

(** X16. deleteTechnician of the first revision is all or nothing: under
    any fault plan the transaction is closed and nothing is emitted; an
    answer other than 200 leaves the store as it was; 200 is answered only
    when none of the seven store calls failed, for an existing technician
    the caller may delete, and then the store is the old one with the
    snapshot of the technician's user written on the technician's bookings,
    the KYC record deleted, the user anonymised and marked Deleted, and the
    profile deleted. *)
Theorem deleteTechnician_all_or_nothing faults trim ObjectIdToString DateToString req w :
  let out := Profile.deleteTechnician faults trim ObjectIdToString DateToString req w in
  txn out.2 = None ∧ emitted out.2 = emitted w
  ∧ (code out.1 ≠ 200%nat → store out.2 = store w)
  ∧ (code out.1 = 200%nat →
     (∀ k, (k ≤ 6)%nat → faults k = false)
     ∧ ∃ id technician, d_id req = Some id
       ∧ technicianProfiles (store w) !! id = Some technician
       ∧ Profile.accessDenied req id = false
       ∧ let techUser := users (store w) !! userId technician in
         let anonymizedId :=
           Profile.anonymizedIdOf ObjectIdToString DateToString
             (userId technician) (d_now req) in
         store out.2
         = set_profiles (delete id)
             (set_users (alter (Profile.anonymise techUser anonymizedId) (userId technician))
                (set_kycs (delete id)
                   (set_bookings
                      (Profile.writeSnapshots id (Profile.snapshotOf trim techUser))
                      (store w))))).
Proof.
  cbn zeta. unfold Profile.deleteTechnician, Profile.deleteTechnician_try.
  unfold_async. cbn.
  repeat (case_match; simplify_eq/=; try done).
  split_and!; try done. intros _. split.
  - intros k Hk. do 7 (destruct k as [|k]; [done|]). lia.
  - eexists _, _. split_and!; try done.
Qed.

(** The deletion of technician 7 of [sampleDb] by the owner, at time 1000:
    the user of the technician is marked Deleted and loses the names. *)
Remark deleteTechnician_anonymises :
  let req := {| d_id := Some 7%positive; d_role := Some "Owner";
                d_technicianProfileId := None; d_now := 1000 |} in
  let out := Profile.deleteTechnician noFaults (λ s, s) (λ _, "id") (λ _, "t") req
               (worldOf sampleDb) in
  code out.1 = 200%nat
  ∧ technicianProfiles (store out.2) !! 7%positive = None
  ∧ technicianKycs (store out.2) !! 7%positive = None
  ∧ (usr_status <$> users (store out.2) !! 70%positive) = Some "Deleted"
  ∧ (usr_mobileNumber <$> users (store out.2) !! 70%positive) = Some "deleted_id_t"
  ∧ (usr_fname <$> users (store out.2) !! 70%positive) = Some None.
Proof. by vm_compute. Qed.

(** X17. Only the owner or the technician themselves deletes a technician:
    a caller whose role is not exactly Owner and whose technicianProfileId
    is not the id of the request is refused by both revisions of
    deleteTechnician, under any fault plan, and the store stays as it
    was. *)
Theorem delete_needs_owner_or_self faults trim ObjectIdToString DateToString req w :
  d_role req ≠ Some "Owner" →
  d_technicianProfileId req ≠ d_id req →
  let out := Profile.deleteTechnician faults trim ObjectIdToString DateToString req w in
  let out2 := Profile.deleteTechnician2 faults req w in
  (success out.1 = false ∧ store out.2 = store w)
  ∧ (success out2.1 = false ∧ out2.2 = w).
Proof.
  intros Hr Hs. cbn zeta.
  unfold Profile.deleteTechnician, Profile.deleteTechnician_try,
    Profile.deleteTechnician2, Profile.deleteTechnician2_try, Profile.accessDenied.
  unfold_async. cbn.
  destruct (d_id req) as [id|]; [|done]. cbn.
  rewrite (bool_decide_false _ Hr), (bool_decide_false _ Hs). cbn.
  repeat (case_match; simplify_eq/=; try done).
Qed.

Lemma writeSnapshots_lookup id snapshot bookings j :
  Profile.writeSnapshots id snapshot bookings !! j = bookings !! j
  ∨ ∃ b, bookings !! j = Some b ∧ sb_technicianId b = Some id
         ∧ Profile.writeSnapshots id snapshot bookings !! j
           = Some (set_technicianSnapshot snapshot b).
Proof.
  unfold Profile.writeSnapshots. rewrite lookup_fmap.
  destruct (bookings !! j) as [b|] eqn:Hb; cbn; [|by left].
  case_bool_decide; [right; by exists b|by left].
Qed.

(** X18. What deleting a technician leaves behind. Both revisions leave the
    broadcast ledger as it is (offers to the deleted technician stay in the
    ledger) and do not touch the profiles and KYC records of other
    technicians. The first revision changes of the bookings only the
    technician snapshot of the bookings of the deleted technician, and of the
    users only the user of the deleted technician. The second revision
    removes the profile only, so the technician's KYC record, the bookings
    and the user stay as they are, and anything but 200 changes nothing. *)
Theorem delete_frame faults trim ObjectIdToString DateToString req w :
  let d := store w in
  let d1 := store (Profile.deleteTechnician faults trim ObjectIdToString DateToString
                     req w).2 in
  let out2 := Profile.deleteTechnician2 faults req w in
  let d2 := store out2.2 in
  (jobBroadcasts d1 = jobBroadcasts d
   ∧ (∀ j, serviceBookings d1 !! j = serviceBookings d !! j
           ∨ ∃ b snapshot, serviceBookings d !! j = Some b
               ∧ sb_technicianId b = d_id req
               ∧ serviceBookings d1 !! j = Some (set_technicianSnapshot snapshot b))
   ∧ (∀ tech, d_id req ≠ Some tech →
        technicianProfiles d1 !! tech = technicianProfiles d !! tech
        ∧ technicianKycs d1 !! tech = technicianKycs d !! tech)
   ∧ (∀ uid, (∀ id, d_id req = Some id →
                userId <$> technicianProfiles d !! id ≠ Some uid) →
        users d1 !! uid = users d !! uid))
  ∧ (serviceBookings d2 = serviceBookings d ∧ jobBroadcasts d2 = jobBroadcasts d
     ∧ technicianKycs d2 = technicianKycs d
     ∧ users d2 = users d
     ∧ (∀ tech, d_id req ≠ Some tech →
          technicianProfiles d2 !! tech = technicianProfiles d !! tech)
     ∧ (code out2.1 = 200%nat →
        ∃ id, d_id req = Some id ∧ technicianProfiles d2 = delete id (technicianProfiles d)))
     ∧ (code out2.1 ≠ 200%nat → out2.2 = w).
Proof.
  cbn zeta. unfold Profile.deleteTechnician, Profile.deleteTechnician_try,
    Profile.deleteTechnician2, Profile.deleteTechnician2_try.
  unfold_async. cbn.
  split; [|split].
  - repeat (case_match; simplify_eq/=; try done);
      try (split_and!; [done|by left|done|done]).
    split_and!; try done.
    + intros j.
      match goal with
      | |- context [Profile.writeSnapshots ?i ?s ?m] =>
          destruct (writeSnapshots_lookup i s m j) as [?|(b & ? & ? & ?)];
            [by left|right; by exists b, s]
      end.
    + intros tech Hne. rewrite !lookup_delete_ne by congruence. done.
    + intros uid Hne. rewrite lookup_alter_ne; [done|].
      intros <-.
      match goal with
      | H : technicianProfiles _ !! ?i = Some _ |- _ =>
          apply (Hne i eq_refl); by rewrite H
      end.
  - repeat (case_match; simplify_eq/=; try done).
    split_and!; try done.
    + intros tech Hne. rewrite !lookup_delete_ne by congruence. done.
    + intros _. eauto.
  - repeat (case_match; simplify_eq/=; try done).
Qed.

Lemma delete_needs_owner_or_self_witness :
  let req := {| d_id := Some 7%positive; d_role := Some "Technician";
                d_technicianProfileId := Some 8%positive; d_now := 1000 |} in
  let out := Profile.deleteTechnician noFaults (λ s, s) (λ _, "id") (λ _, "t") req
               (worldOf sampleDb) in
  let out2 := Profile.deleteTechnician2 noFaults req (worldOf sampleDb) in
  (success out.1 = false ∧ store out.2 = sampleDb)
  ∧ (success out2.1 = false ∧ out2.2 = worldOf sampleDb).
Proof.
  apply (delete_needs_owner_or_self noFaults (λ s, s) (λ _, "id") (λ _, "t")
           {| d_id := Some 7%positive; d_role := Some "Technician";
              d_technicianProfileId := Some 8%positive; d_now := 1000 |}
           (worldOf sampleDb)); done.
Defined.

(** X19. updateTechnicianLocation hands handleLocationUpdate the caller's
    own id and the coordinates of the body, and only finite numbers: a
    success answer carries the handler's result for exactly these; a
    latitude or longitude that is not a finite number (a numeric string
    included, there is no conversion) is answered 400, or 401 without a
    technician, and the handler is not run. *)
Theorem location_update_reaches_handler handleLocationUpdate req w :
  let out := Profile.updateTechnicianLocation handleLocationUpdate req w in
  (success out.1 = true →
   ∃ tech latitude longitude r,
     l_technicianProfileId req = Some tech
     ∧ l_latitude req = JNum (Num latitude) ∧ l_longitude req = JNum (Num longitude)
     ∧ handleLocationUpdate tech latitude longitude w = (Returned r, out.2)
     ∧ code out.1 = 200%nat ∧ result out.1 = Some r)
  ∧ ((∀ q, l_latitude req ≠ JNum (Num q)) ∨ (∀ q, l_longitude req ≠ JNum (Num q)) →
     out.2 = w ∧ (code out.1 = 400%nat ∨ code out.1 = 401%nat)).
Proof.
  cbn zeta. unfold Profile.updateTechnicianLocation, Profile.updateTechnicianLocation_try.
  unfold_async.
  destruct (l_technicianProfileId req) as [tech|];
    [|split; [done|intros _; split; [done|by right]]].
  destruct (l_latitude req) as [| | |[lat| | |]|]; cbn;
    try (split; [done|intros _; split; [done|by left]]).
  destruct (l_longitude req) as [| | |[lng| | |]|]; cbn;
    try (split; [done|intros _; split; [done|by left]]).
  split.
  - destruct (handleLocationUpdate tech lat lng w) as [[r|e] w'] eqn:E; cbn; [|done].
    intros _. exists tech, lat, lng, r. done.
  - intros [H|H]; by edestruct H.
Qed.

(** ** Skills *)

Lemma dedupeFrom_spec (seen l : list string) :
  NoDup (Skills.dedupeFrom seen l)
  ∧ ∀ x, x ∈ Skills.dedupeFrom seen l ↔ x ∈ l ∧ x ∉ seen.
Proof.
  revert seen. induction l as [|a l IH]; intros seen; cbn.
  - split; [constructor|]. intros x. split; [by intros ?%elem_of_nil|].
    by intros [?%elem_of_nil _].
  - case_bool_decide as Ha.
    + destruct (IH seen) as [Hnd Hin]. split; [done|]. intros x. rewrite Hin.
      rewrite elem_of_cons. split; [tauto|]. intros [[->|?] ?]; tauto.
    + destruct (IH (a :: seen)) as [Hnd Hin]. split.
      * constructor; [|done]. rewrite Hin. rewrite elem_of_cons. tauto.
      * intros x. rewrite !elem_of_cons, Hin, elem_of_cons.
        destruct (decide (x = a)) as [->|]; tauto.
Qed.

(** X20. normalizeServiceIdsInput answers every requested id once: the
    list has no duplicates, and it holds exactly the trimmed non-empty
    strings and the string forms of the truthy non-string values among the
    values supplied (serviceIds, else serviceId; an array or a single
    value). The trim is any function that leaves the empty string empty. *)
Theorem normalizeServiceIdsInput_spec (trim : string → string)
    (NumberToString : number → string) serviceIds serviceId :
  trim EmptyString = EmptyString →
  let ids := Skills.normalizeServiceIdsInput trim NumberToString serviceIds serviceId in
  NoDup ids
  ∧ ∀ x, x ∈ ids ↔
      ∃ v, v ∈ suppliedValues serviceIds serviceId
           ∧ match v with
             | JStr s => trim s ≠ EmptyString ∧ x = trim s
             | _ => truthy v = true ∧ x = Skills.toString NumberToString v
             end.
Proof.
  intros trim_empty. cbn zeta. unfold Skills.normalizeServiceIdsInput, suppliedValues.
  destruct (dedupeFrom_spec []
    (map (Skills.toString NumberToString)
      (List.filter truthy
        (map (λ v, match v with JStr s => JStr (trim s) | _ => v end)
          match Skills.rawInput serviceIds serviceId with
          | Array l => l
          | Single raw => if truthy raw then [raw] else []
          end)))) as [Hnd Hin].
  split; [done|]. intros x. rewrite Hin. clear Hin Hnd.
  rewrite list_elem_of_fmap. setoid_rewrite list_elem_of_In.
  setoid_rewrite List.filter_In. setoid_rewrite <- list_elem_of_In.
  setoid_rewrite list_elem_of_fmap.
  split.
  - intros [(y & -> & (v & -> & Hv) & Ht) _].
    assert (v ∈ match Skills.rawInput serviceIds serviceId with
                | Array l => l | Single raw => [raw] end) as Hv'.
    { destruct (Skills.rawInput serviceIds serviceId); [|done].
      destruct (truthy v0); [done|]. by apply elem_of_nil in Hv. }
    exists v. split; [done|]. destruct v; cbn in *; try done.
    split; [|done]. intros E. rewrite E in Ht. done.
  - intros (v & Hv & Hm). split; [|by intros ?%elem_of_nil].
    exists (match v with JStr s => JStr (trim s) | _ => v end).
    assert (truthy (match v with JStr s => JStr (trim s) | _ => v end) = true) as Ht.
    { destruct v; try tauto. cbn. destruct Hm as [Hm _]. by rewrite bool_decide_false. }
    split_and!; [by destruct v; destruct Hm| |done].
    exists v. split; [done|].
    destruct (Skills.rawInput serviceIds serviceId) as [raw|l]; [|done].
    apply list_elem_of_singleton in Hv as ->.
    assert (truthy raw = true) as ->; [|by left].
    destruct raw as [| | | |s]; try tauto. cbn. destruct Hm as [Hm _].
    rewrite bool_decide_false; [done|]. intros ->. by rewrite trim_empty in Hm.
Qed.



Lemma normalizeServiceIdsInput_spec_witness :
  let ids := Skills.normalizeServiceIdsInput (λ s, s) (λ _, "0")
               (Array [JStr "a"; JStr ""; JStr "a"]) (Single JUndefined) in
  NoDup ids
  ∧ ∀ x, x ∈ ids ↔
      ∃ v, v ∈ suppliedValues (Array [JStr "a"; JStr ""; JStr "a"]) (Single JUndefined)
           ∧ match v with
             | JStr s => s ≠ EmptyString ∧ x = s
             | _ => truthy v = true ∧ x = Skills.toString (λ _, "0") v
             end.
Proof.
  apply (normalizeServiceIdsInput_spec (λ s, s) (λ _, "0")
           (Array [JStr "a"; JStr ""; JStr "a"]) (Single JUndefined)).
  reflexivity.
Defined.

(** ** The role gate *)

Lemma lowerAscii_idemp c : lowerAscii (lowerAscii c) = lowerAscii c.
Proof. by destruct c as [[] [] [] [] [] [] [] []]. Qed.

Lemma toLowerCase_idemp s : toLowerCase (toLowerCase s) = toLowerCase s.
Proof. induction s as [|c s IH]; [done|]. cbn. by rewrite lowerAscii_idemp, IH. Qed.

Lemma toLowerCase_empty s : toLowerCase s = EmptyString → s = EmptyString.
Proof. by destruct s. Qed.

(** X22. authorizeRoles compares roles without regard to letter case, for
    every lower-casing that is idempotent and maps only the empty string to
    the empty string (String.prototype.toLowerCase is one): a missing or
    empty role is answered 401 whatever is allowed; any other role passes
    exactly when some allowed role equals it after lower-casing, and is
    answered 403 otherwise; lower-casing the role and the allowed roles does
    not change who passes. *)
Theorem authorizeRoles_case_blind lower allowedRoles role :
  (∀ s, lower (lower s) = lower s) →
  (∀ s, lower s = EmptyString → s = EmptyString) →
  (Auth.authorizeRoles lower allowedRoles None = Denied 401 "Authentication required"
   ∧ Auth.authorizeRoles lower allowedRoles (Some EmptyString)
     = Denied 401 "Authentication required")
  ∧ (role ≠ EmptyString →
     (Auth.authorizeRoles lower allowedRoles (Some role) = Next ↔
      ∃ r, r ∈ allowedRoles ∧ lower r = lower role)
     ∧ (Auth.authorizeRoles lower allowedRoles (Some role) ≠ Next →
        ∃ m, Auth.authorizeRoles lower allowedRoles (Some role) = Denied 403 m)
     ∧ (Auth.authorizeRoles lower (map lower allowedRoles) (Some (lower role)) = Next
        ↔ Auth.authorizeRoles lower allowedRoles (Some role) = Next)).
Proof.
  intros Hidemp Hempty. split; [done|]. intros Hne.
  assert (lower role ≠ EmptyString) as Hne' by (intros E; by apply Hne, Hempty).
  unfold Auth.authorizeRoles.
  rewrite (bool_decide_false (role = _)), (bool_decide_false (lower role = _)) by done.
  rewrite Hidemp.
  assert (map lower (map lower allowedRoles) = map lower allowedRoles) as ->.
  { rewrite map_map. apply map_ext. intros. apply Hidemp. }
  case_bool_decide as Hin.
  - split_and!; try done. split; [|done]. intros _.
    apply list_elem_of_fmap in Hin as (r & Hr & Hin). eauto.
  - split_and!; try done.
    + split; [done|]. intros (r & Hr & Heq). destruct Hin.
      apply list_elem_of_fmap. eauto.
    + intros _. eauto.
Qed.

Lemma authorizeRoles_case_blind_witness :
  Auth.authorizeRoles toLowerCase ["Owner"; "Admin"] (Some "OWNER") = Next
  ↔ ∃ r, r ∈ ["Owner"; "Admin"] ∧ toLowerCase r = toLowerCase "OWNER".
Proof.
  destruct (authorizeRoles_case_blind toLowerCase ["Owner"; "Admin"] "OWNER"
              toLowerCase_idemp toLowerCase_empty) as [_ H].
  destruct H as (H & _); done.
Defined.
